(** * Klaviyo flow builder: the request handler and the submit form

    A shallow embedding of the route handler of the flow API (the functions
    [normalizeDelayUnit], [normalizeStatus], [sanitizePayload],
    [validatePayload] and [POST]) and of the payload construction of the
    form's [handleSubmit], followed by the properties the specification
    states about them.

    The page is embedded further with the functions that edit its steps
    ([createId], [createTrackingRow], [createEmptyStep], [handleAddStep],
    [handleRemoveStep], [updateStep], [updateTrackingRow], [addTrackingRow],
    [removeTrackingRow], the tracking check box) and with [flowSummary]; the
    last parts of the file prove further properties of the handler, of the
    form, and of the two together.

    The handler receives whatever [request.json()] produced, so the
    embedding works on untyped JavaScript values, and every dereference that
    can raise a TypeError is modelled as raising it. *)

From Stdlib Require Import List Bool String Ascii NArith ZArith QArith Qround Lia.
From Stdlib Require Import DecimalString DecimalN.
Import ListNotations.

Set Warnings "-register-all".

Local Open Scope string_scope.
Local Open Scope list_scope.

(** ** Strings

    A JavaScript string is a sequence of UTF-16 code units. *)

Definition jsstring := list N.

(** The code units of an ASCII literal of the source. *)
Definition lit (s : string) : jsstring :=
  map N_of_ascii (list_ascii_of_string s).

Coercion lit : string >-> jsstring.

Fixpoint jsstring_eqb (s t : jsstring) : bool :=
  match s, t with
  | [], [] => true
  | c :: s', d :: t' => N.eqb c d && jsstring_eqb s' t'
  | _, _ => false
  end.

Definition is_empty (s : jsstring) : bool :=
  match s with [] => true | _ :: _ => false end.

(** ECMAScript WhiteSpace and LineTerminator code points, the ones
    [String.prototype.trim] removes: TAB, LF, VT, FF, CR, SP, NBSP, the
    space separators U+1680, U+2000..U+200A, U+202F, U+205F, U+3000, the
    line and paragraph separators U+2028 and U+2029, and U+FEFF. *)
Definition isWhiteSpace (c : N) : bool :=
  ((9 <=? c) && (c <=? 13) || (c =? 32) || (c =? 160) || (c =? 5760)
   || (8192 <=? c) && (c <=? 8202) || (c =? 8232) || (c =? 8233)
   || (c =? 8239) || (c =? 8287) || (c =? 12288) || (c =? 65279))%N.

Fixpoint trimStart (s : jsstring) : jsstring :=
  match s with
  | c :: s' => if isWhiteSpace c then trimStart s' else s
  | [] => []
  end.

Definition trimEnd (s : jsstring) : jsstring := rev (trimStart (rev s)).

(** [s.trim()] *)
Definition trim (s : jsstring) : jsstring := trimEnd (trimStart s).

(** The decimal numeral of a natural number: what a template literal gives
    for an array index. *)
Definition decimal (n : N) : jsstring :=
  lit (NilZero.string_of_uint (N.to_uint n)).

(** ** Numbers

    A Number is NaN, an infinity, or a finite value, given by the rational
    it denotes (every finite double is a rational; the two zeros are not
    told apart, and nothing in the handler could tell them apart). *)

Inductive number :=
| NaN
| Infinity (negative : bool)
| Finite (q : Q).

Definition of_Z (z : Z) : number := Finite (inject_Z z).

(** [x > 0] *)
Definition is_positive (x : number) : bool :=
  match x with
  | NaN => false
  | Infinity negative => negb negative
  | Finite q => (0 <? Qnum q)%Z
  end.

(** [Math.round(x)]: the nearest integer, a tie going up. *)
Definition Math_round (x : number) : number :=
  match x with
  | Finite q => of_Z (Qfloor (q + (1 # 2)))
  | _ => x
  end.

(** [Math.max(x, y)] *)
Definition Math_max (x y : number) : number :=
  match x, y with
  | NaN, _ | _, NaN => NaN
  | Infinity false, _ | _, Infinity false => Infinity false
  | Infinity true, z | z, Infinity true => z
  | Finite p, Finite q => if Qle_bool p q then Finite q else Finite p
  end.

(** [Number.isFinite(x)] *)
Definition Number_isFinite (x : number) : bool :=
  match x with Finite _ => true | _ => false end.

(** [Number::toString] is the engine's shortest round-trip rendering of a
    double. The handler reaches it only when a tracking row carries a number
    where a string is expected, and nothing below depends on the digits it
    produces, so it is left to the engine. *)
Class NumberFormat := Number_toString : number -> jsstring.

(** A format to run the model on examples. It is the ECMAScript rendering of
    NaN, of the infinities and of the integers below 10^21; of another
    number it prints the integer part only. *)
Definition integer_format : NumberFormat :=
  fun x =>
    match x with
    | NaN => lit "NaN"
    | Infinity false => lit "Infinity"
    | Infinity true => lit "-Infinity"
    | Finite q =>
        let z := Z.quot (Qnum q) (Zpos (Qden q)) in
        ((if (z <? 0)%Z then lit "-" else []) ++ decimal (Z.abs_N z))%list
    end.

(** ** Values *)

Inductive value :=
| VUndefined
| VNull
| VBoolean (b : bool)
| VNumber (x : number)
| VString (s : jsstring)
| VArray (elements : list value)
| VObject (properties : list (jsstring * value)).

(** What a failing dereference or call raises. Neither [sanitizePayload] nor
    [validatePayload] is called inside a [try], so the error is never
    inspected and its engine-specific message is not modelled. *)
Inductive completion (A : Type) :=
| Normal (a : A)
| TypeError.

Arguments Normal {A} a.
Arguments TypeError {A}.

Definition bind {A B} (c : completion A) (k : A -> completion B) : completion B :=
  match c with
  | Normal a => k a
  | TypeError => TypeError
  end.

Declare Scope js_scope.
Delimit Scope js_scope with js.
Notation "x <- c ;; k" := (bind c (fun x => k))
  (at level 61, c at next level, right associativity) : js_scope.
Local Open Scope js_scope.

Fixpoint mapM {A B} (f : A -> completion B) (l : list A) : completion (list B) :=
  match l with
  | [] => Normal []
  | a :: l' => b <- f a ;; bs <- mapM f l' ;; Normal (b :: bs)
  end.

(** [ToBoolean] *)
Definition truthy (v : value) : bool :=
  match v with
  | VUndefined | VNull => false
  | VBoolean b => b
  | VNumber NaN => false
  | VNumber (Infinity _) => true
  | VNumber (Finite q) => negb (Qnum q =? 0)%Z
  | VString s => negb (is_empty s)
  | VArray _ | VObject _ => true
  end.

(** The first binding of a key in a property list is the property. *)
Fixpoint lookup (k : jsstring) (properties : list (jsstring * value)) : value :=
  match properties with
  | [] => VUndefined
  | (k', v) :: rest => if jsstring_eqb k k' then v else lookup k rest
  end.

Definition has_property (k : jsstring) (properties : list (jsstring * value)) : bool :=
  existsb (fun kv => jsstring_eqb k (fst kv)) properties.

(** [v.k], for the property names the handler reads. None of them is a
    member of a builtin prototype except [length], and none is an array
    index, so a primitive or an array has them undefined. *)
Definition get (v : value) (k : jsstring) : completion value :=
  match v with
  | VUndefined | VNull => TypeError
  | VObject properties => Normal (lookup k properties)
  | VArray elements =>
      if jsstring_eqb k "length"
      then Normal (VNumber (of_Z (Z.of_nat (List.length elements))))
      else Normal VUndefined
  | VString s =>
      if jsstring_eqb k "length"
      then Normal (VNumber (of_Z (Z.of_nat (List.length s))))
      else Normal VUndefined
  | VBoolean _ | VNumber _ => Normal VUndefined
  end.

(** [v.k] as a value: the property of an object, undefined for anything
    else. It is [get] without the TypeError of a nullish [v] and without
    [length]; the properties use it to speak of the parts of a payload. *)
Definition property (k : jsstring) (v : value) : value :=
  match v with
  | VObject properties => lookup k properties
  | _ => VUndefined
  end.

(** [x ?? d] *)
Definition nullish_or (x d : value) : value :=
  match x with
  | VUndefined | VNull => d
  | _ => x
  end.

(** [x || d] *)
Definition or_else (x d : value) : value := if truthy x then x else d.

(** [x && y] *)
Definition and_then (x y : value) : value := if truthy x then y else x.

(** [x?.trim()]: undefined for a nullish [x], the trimmed string for a
    string; anything else has no callable [trim]. *)
Definition optional_trim (x : value) : completion value :=
  match x with
  | VUndefined | VNull => Normal VUndefined
  | VString s => Normal (VString (trim s))
  | _ => TypeError
  end.

(** [x.trim()] *)
Definition call_trim (x : value) : completion value :=
  match x with
  | VString s => Normal (VString (trim s))
  | _ => TypeError
  end.

(** [Array.isArray(x)] *)
Definition Array_isArray (x : value) : bool :=
  match x with VArray _ => true | _ => false end.

(** [xs.includes(x)] for an array [xs] of strings (SameValueZero: only an
    equal string is included). *)
Definition includes (xs : list jsstring) (x : value) : bool :=
  match x with
  | VString s => existsb (jsstring_eqb s) xs
  | _ => false
  end.

(** ** The request, the environment and the provider *)

(** What code outside this file threw or rejected with: an [Error] with its
    message, or something else. *)
Inductive thrown :=
| ErrorObject (message : jsstring)
| NonError (v : value).

Inductive attempt (A : Type) :=
| Returned (a : A)
| Threw (error : thrown).

Arguments Returned {A} a.
Arguments Threw {A} error.

(** [error instanceof Error ? error.message : fallback] *)
Definition message_or (error : thrown) (fallback : value) : value :=
  match error with
  | ErrorObject message => VString message
  | NonError _ => fallback
  end.

(** The second argument of [fetch]; [init_body] is the value handed to
    [JSON.stringify]. *)
Record FetchInit := {
  init_method : jsstring;
  init_headers : list (jsstring * jsstring);
  init_body : value
}.

(** A provider response: its status and what [response.json()] resolves to,
    [None] when that promise rejects (no body, or a body that is not JSON). *)
Record FetchResponse := {
  response_status : Z;
  response_json : option value
}.

(** [response.ok] *)
Definition response_ok (response : FetchResponse) : bool :=
  ((200 <=? response_status response) && (response_status response <=? 299))%Z.

(** Everything one invocation of the handler reads from outside: the
    environment variable, the outcome of [request.json()], the outcome of
    the provider call for a given request, and the message of the error
    that the [Response] constructor of the runtime throws for a status it
    refuses (a RangeError or a TypeError, whose text is the runtime's). *)
Record World := {
  KLAVIYO_API_KEY : option jsstring;
  request_json : attempt value;
  fetch : jsstring -> FetchInit -> attempt FetchResponse;
  Response_error_message : Z -> jsstring
}.

(** What the handler did to the outside, in order. *)
Inductive event :=
| RequestJson
| Fetch (url : jsstring) (init : FetchInit).

(** [NextResponse.json(body, { status })]: [body] is the value handed to it;
    its serialization leaves out the properties that are undefined. *)
Record NextResponse := {
  status : Z;
  body : value
}.

(** The statuses with which [NextResponse.json] returns a response. It
    builds the response with the [Response] constructor, which throws a
    RangeError for a status outside 200 to 599 and, the body being there, a
    TypeError for a null body status: 101, 103, 204, 205 or 304. *)
Definition null_body_status (s : Z) : bool :=
  existsb (Z.eqb s) [101; 103; 204; 205; 304]%Z.

Definition Response_accepts (s : Z) : bool :=
  ((200 <=? s) && (s <=? 599))%Z && negb (null_body_status s).

Class Accepted (s : Z) : Prop := accepted : Response_accepts s = true.

(** [NextResponse.json] is defined for an accepted status only. The
    statuses that the handler writes out are accepted; the status of the
    provider, which it passes on, is tested where it is passed on. *)
Definition NextResponse_json (b : value) (s : Z) {ok : Accepted s}
  : NextResponse :=
  {| status := s; body := b |}.

#[global] Instance Accepted_200 : Accepted 200 := eq_refl.
#[global] Instance Accepted_400 : Accepted 400 := eq_refl.
#[global] Instance Accepted_500 : Accepted 500 := eq_refl.
#[global] Instance Accepted_502 : Accepted 502 := eq_refl.

Definition KLAVIYO_API_URL : jsstring := "https://a.klaviyo.com/api/flows/".
Definition KLAVIYO_REVISION : jsstring := "2024-10-15".

(** ** The route handler *)

Section Handler.

Context {format : NumberFormat}.

(** [ToString], as a template literal applies it. An array is joined with
    commas, a nullish element counting as the empty string. A plain object
    is rendered by [Object.prototype.toString], unless an own property
    shadows that method: the property of a parsed object is never callable,
    and the conversion fails. *)
Fixpoint ToString (v : value) : completion jsstring :=
  match v with
  | VUndefined => Normal (lit "undefined")
  | VNull => Normal (lit "null")
  | VBoolean true => Normal (lit "true")
  | VBoolean false => Normal (lit "false")
  | VNumber x => Normal (Number_toString x)
  | VString s => Normal s
  | VArray elements =>
      (fix join (l : list value) : completion jsstring :=
         match l with
         | [] => Normal []
         | x :: rest =>
             s <- match x with
                  | VUndefined | VNull => Normal []
                  | _ => ToString x
                  end ;;
             match rest with
             | [] => Normal s
             | _ :: _ => t <- join rest ;; Normal (s ++ lit "," ++ t)
             end
         end) elements
  | VObject properties =>
      if has_property "toString" properties then TypeError
      else Normal (lit "[object Object]")
  end.

Definition VALID_STATUSES : list jsstring :=
  [lit "draft"; lit "live"; lit "manual"; lit "disabled"].

Definition VALID_UNITS : list jsstring :=
  [lit "minutes"; lit "hours"; lit "days"].

Definition normalizeDelayUnit (unit : value) : value :=
  if includes VALID_UNITS unit then unit else VString "days".

Definition normalizeStatus (status : value) : value :=
  if includes VALID_STATUSES status then status else VString "draft".

(** [step.k?.trim() ?? ""] *)
Definition trimmedField (step : value) (k : jsstring) : completion value :=
  x <- get step k ;;
  t <- optional_trim x ;;
  Normal (nullish_or t (VString [])).

(** The [delay] property of a sanitized step. The match on [v] is the test
    [typeof step.delay.value === "number"]. *)
Definition sanitizeDelay (step : value) : completion value :=
  delay <- get step "delay" ;;
  if truthy delay then
    v <- get delay "value" ;;
    match v with
    | VNumber x =>
        if is_positive x then
          unit <- get delay "unit" ;;
          timezone <- get delay "timezone" ;;
          tz <- optional_trim timezone ;;
          Normal (VObject
            [(lit "value", VNumber (Math_max (of_Z 0) (Math_round x)));
             (lit "unit", normalizeDelayUnit unit);
             (lit "timezone", or_else tz (VString "profile"))])
        else Normal VNull
    | _ => Normal VNull
    end
  else Normal VNull.

(** The callback of [step.customTracking.map]. *)
Definition sanitizeTrack (track : value) : completion value :=
  p <- get track "param" ;;
  param <- ToString (nullish_or p (VString [])) ;;
  v <- get track "value" ;;
  val <- ToString (nullish_or v (VString [])) ;;
  Normal (VObject [(lit "param", VString (trim param));
                   (lit "value", VString (trim val))]).

(** The callback of [filter]: [track.param && track.value]. *)
Definition keepTrack (track : value) : completion bool :=
  p <- get track "param" ;;
  if truthy p then v <- get track "value" ;; Normal (truthy v)
  else Normal false.

Fixpoint filterM {A} (f : A -> completion bool) (l : list A) : completion (list A) :=
  match l with
  | [] => Normal []
  | a :: l' =>
      b <- f a ;; r <- filterM f l' ;; Normal (if b then a :: r else r)
  end.

(** The [customTracking] property of a sanitized step. *)
Definition sanitizeTracking (step : value) : completion value :=
  customTracking <- get step "customTracking" ;;
  match customTracking with
  | VArray rows =>
      mapped <- mapM sanitizeTrack rows ;;
      kept <- filterM keepTrack mapped ;;
      Normal (VArray kept)
  | _ => Normal (VArray [])
  end.

(** The callback of [payload.steps.map]. *)
Definition sanitizeStep (step : value) : completion value :=
  internalName <- trimmedField step "internalName" ;;
  subjectLine <- trimmedField step "subjectLine" ;;
  previewText <- trimmedField step "previewText" ;;
  fromEmail <- trimmedField step "fromEmail" ;;
  fromName <- trimmedField step "fromName" ;;
  replyToEmail <- trimmedField step "replyToEmail" ;;
  ccEmail <- trimmedField step "ccEmail" ;;
  bccEmail <- trimmedField step "bccEmail" ;;
  templateId <- trimmedField step "templateId" ;;
  smartSendingEnabled <- get step "smartSendingEnabled" ;;
  status <- get step "status" ;;
  delay <- sanitizeDelay step ;;
  customTracking <- sanitizeTracking step ;;
  Normal (VObject
    [(lit "internalName", internalName);
     (lit "subjectLine", subjectLine);
     (lit "previewText", previewText);
     (lit "fromEmail", fromEmail);
     (lit "fromName", fromName);
     (lit "replyToEmail", replyToEmail);
     (lit "ccEmail", ccEmail);
     (lit "bccEmail", bccEmail);
     (lit "templateId", templateId);
     (lit "smartSendingEnabled", VBoolean (truthy smartSendingEnabled));
     (lit "status", normalizeStatus status);
     (lit "delay", delay);
     (lit "customTracking", customTracking)]).

(** [xs.map(f)]: only an array has a callable [map]. *)
Definition Array_map (f : value -> completion value) (xs : value) : completion value :=
  match xs with
  | VArray elements => ys <- mapM f elements ;; Normal (VArray ys)
  | _ => TypeError
  end.

Definition sanitizePayload (payload : value) : completion value :=
  rawSteps <- get payload "steps" ;;
  steps <- Array_map sanitizeStep rawSteps ;;
  rawName <- get payload "flowName" ;;
  flowName <- call_trim rawName ;;
  trigger <- get payload "trigger" ;;
  type <- get trigger "type" ;;
  rawId <- get trigger "id" ;;
  id <- call_trim rawId ;;
  Normal (VObject
    [(lit "flowName", flowName);
     (lit "trigger", VObject [(lit "type", type); (lit "id", id)]);
     (lit "steps", steps)]).

(** The callback of [findIndex]:
    [!step.subjectLine || !step.fromEmail || !step.fromName]. *)
Definition invalidStep (step : value) : completion bool :=
  subjectLine <- get step "subjectLine" ;;
  fromEmail <- get step "fromEmail" ;;
  fromName <- get step "fromName" ;;
  Normal (negb (truthy subjectLine) || negb (truthy fromEmail)
          || negb (truthy fromName)).

Fixpoint findIndex_from (f : value -> completion bool) (l : list value) (i : Z)
  : completion Z :=
  match l with
  | [] => Normal (-1)%Z
  | x :: rest => b <- f x ;; if b then Normal i else findIndex_from f rest (i + 1)%Z
  end.

(** [xs.findIndex(f)] *)
Definition Array_findIndex (f : value -> completion bool) (xs : value) : completion Z :=
  match xs with
  | VArray elements => findIndex_from f elements 0%Z
  | _ => TypeError
  end.

Definition stepMessage (position : Z) : jsstring :=
  lit "Step " ++ decimal (Z.to_N position)
  ++ lit " is missing subject, from name, or from email.".

(** The result is the error message, or [VNull]. *)
Definition validatePayload (payload : value) : completion value :=
  flowName <- get payload "flowName" ;;
  if negb (truthy flowName) then Normal (VString "Flow name is required.") else
  trigger <- get payload "trigger" ;;
  type <- get trigger "type" ;;
  if negb (includes [lit "list"; lit "segment"] type) then
    Normal (VString
      "Unsupported trigger type. Only list and segment triggers are supported.")
  else
  id <- get trigger "id" ;;
  if negb (truthy id) then Normal (VString "Trigger identifier is required.") else
  steps <- get payload "steps" ;;
  len <- get steps "length" ;;
  if negb (truthy len) then Normal (VString "At least one email step is required.")
  else
  invalidStepIndex <- Array_findIndex invalidStep steps ;;
  if negb (invalidStepIndex =? -1)%Z then
    Normal (VString (stepMessage (invalidStepIndex + 1)))
  else Normal VNull.

(** *** The handler *)

(** [buildFlowDefinition] lives in [@/lib/klaviyo], outside the files at
    hand; the handler is parameterised by it. *)
Variable buildFlowDefinition : value -> attempt value.

(** The [catch] of the last [try] block of [POST]. *)
Definition gatewayFailure (error : thrown) : NextResponse :=
  NextResponse_json
    (VObject [(lit "error", VString "Failed to reach Klaviyo API.");
              (lit "details",
               match error with
               | ErrorObject message => VString message
               | NonError v => v
               end)])
    502.

(** The last [try] block of [POST]: the provider call and the mapping of its
    outcome. What is thrown inside the block is caught by its [catch]: a
    failed call, and also the error of [NextResponse.json] for a status of
    the provider that it refuses, which is an [Error] with the message of
    the runtime. *)
Definition callKlaviyo (w : World) (apiKey : jsstring) (klaviyoPayload : value)
  : list event * NextResponse :=
  let init :=
    {| init_method := "POST";
       init_headers :=
         [(lit "Authorization", lit "Klaviyo-API-Key " ++ apiKey);
          (lit "Content-Type", lit "application/vnd.api+json");
          (lit "Accept", lit "application/vnd.api+json");
          (lit "revision", KLAVIYO_REVISION)];
       init_body := klaviyoPayload |} in
  ([Fetch KLAVIYO_API_URL init],
   match fetch w KLAVIYO_API_URL init with
   | Returned response =>
       let json :=
         match response_json response with Some j => j | None => VNull end in
       if negb (response_ok response) then
         match bool_dec (Response_accepts (response_status response)) true with
         | left ok =>
             NextResponse_json (ok := ok)
               (VObject [(lit "error", VString "Klaviyo API request failed.");
                         (lit "details", nullish_or json VUndefined)])
               (response_status response)
         | right _ =>
             gatewayFailure
               (ErrorObject
                  (Response_error_message w (response_status response)))
         end
       else NextResponse_json (VObject [(lit "data", json)]) 200
   | Threw error => gatewayFailure error
   end).

(** The handler: the events it caused and the response it returned, or the
    TypeError it let escape. *)
Definition POST (w : World) : list event * completion NextResponse :=
  match KLAVIYO_API_KEY w with
  | None | Some [] =>
      ([], Normal (NextResponse_json
             (VObject [(lit "error",
                        VString "KLAVIYO_API_KEY is not configured on the server.")])
             500))
  | Some apiKey =>
      match request_json w with
      | Threw error =>
          ([RequestJson],
           Normal (NextResponse_json
             (VObject [(lit "error", VString "Invalid JSON payload.");
                       (lit "details",
                        message_or error (VString "Unable to parse request."))])
             400))
      | Returned rawPayload =>
          match sanitizePayload rawPayload with
          | TypeError => ([RequestJson], TypeError)
          | Normal sanitizedPayload =>
              match validatePayload sanitizedPayload with
              | TypeError => ([RequestJson], TypeError)
              | Normal validationError =>
                  if truthy validationError then
                    ([RequestJson],
                     Normal (NextResponse_json
                       (VObject [(lit "error", validationError)]) 400))
                  else
                    match buildFlowDefinition sanitizedPayload with
                    | Threw error =>
                        ([RequestJson],
                         Normal (NextResponse_json
                           (VObject
                              [(lit "error",
                                message_or error
                                  (VString "Unable to construct Klaviyo flow payload."))])
                           400))
                    | Returned definition =>
                        match get sanitizedPayload "flowName" with
                        | TypeError => ([RequestJson], TypeError)
                        | Normal name =>
                            let klaviyoPayload :=
                              VObject
                                [(lit "data",
                                  VObject
                                    [(lit "type", VString "flow");
                                     (lit "attributes",
                                      VObject [(lit "name", name);
                                               (lit "definition", definition)])])] in
                            let '(events, response) :=
                              callKlaviyo w apiKey klaviyoPayload in
                            (RequestJson :: events, Normal response)
                        end
                    end
              end
          end
      end
  end.

End Handler.

(** ** The form *)

Module Form.

Inductive TriggerType := list_trigger | segment_trigger.

Definition TriggerType_string (t : TriggerType) : jsstring :=
  match t with list_trigger => "list" | segment_trigger => "segment" end.

Inductive StepStatus := draft | live | manual | disabled.

Definition StepStatus_string (s : StepStatus) : jsstring :=
  match s with
  | draft => "draft" | live => "live" | manual => "manual" | disabled => "disabled"
  end.

Inductive DelayUnit := minutes | hours | days.

Definition DelayUnit_string (u : DelayUnit) : jsstring :=
  match u with minutes => "minutes" | hours => "hours" | days => "days" end.

Record TrackingRow := {
  row_id : jsstring;
  param : jsstring;
  row_value : jsstring
}.

Record EmailStepForm := {
  id : jsstring;
  internalName : jsstring;
  subjectLine : jsstring;
  previewText : jsstring;
  fromEmail : jsstring;
  fromName : jsstring;
  replyToEmail : jsstring;
  ccEmail : jsstring;
  bccEmail : jsstring;
  templateId : jsstring;
  smartSendingEnabled : bool;
  status : StepStatus;
  addTrackingParams : bool;
  trackingRows : list TrackingRow;
  delayEnabled : bool;
  delayValue : number;
  delayUnit : DelayUnit;
  delayTimezone : jsstring
}.

(** The state of the page that [handleSubmit] reads. *)
Record FormState := {
  flowName : jsstring;
  triggerType : TriggerType;
  triggerId : jsstring;
  steps : list EmailStepForm
}.

(** [a || b] on strings *)
Definition string_or (a b : jsstring) : jsstring :=
  if is_empty a then b else a.

Fixpoint findIndex_from {A} (f : A -> bool) (l : list A) (i : Z) : Z :=
  match l with
  | [] => (-1)%Z
  | x :: rest => if f x then i else findIndex_from f rest (i + 1)%Z
  end.

Definition validateForm (form : FormState) : option jsstring :=
  if is_empty (trim (flowName form)) then Some (lit "Flow name is required.")
  else if is_empty (trim (triggerId form)) then
    Some (lit "Enter the Klaviyo trigger identifier (list or segment ID).")
  else
    let invalidStepIndex :=
      findIndex_from
        (fun step => is_empty (trim (subjectLine step))
                     || is_empty (trim (fromEmail step))
                     || is_empty (trim (fromName step)))
        (steps form) 0%Z in
    if negb (invalidStepIndex =? -1)%Z then
      Some (lit "Step " ++ decimal (Z.to_N (invalidStepIndex + 1))
            ++ lit " is missing required fields (subject, from name, or from email).")
    else None.

(** The callback of [steps.map] in [handleSubmit]. *)
Definition payloadStep (step : EmailStepForm) : value :=
  VObject
    [(lit "internalName", VString (trim (internalName step)));
     (lit "subjectLine", VString (trim (subjectLine step)));
     (lit "previewText", VString (trim (previewText step)));
     (lit "fromEmail", VString (trim (fromEmail step)));
     (lit "fromName", VString (trim (fromName step)));
     (lit "replyToEmail",
      VString (trim (string_or (replyToEmail step) (fromEmail step))));
     (lit "ccEmail", VString (trim (ccEmail step)));
     (lit "bccEmail", VString (trim (bccEmail step)));
     (lit "templateId", VString (trim (templateId step)));
     (lit "smartSendingEnabled", VBoolean (smartSendingEnabled step));
     (lit "status", VString (StepStatus_string (status step)));
     (lit "delay",
      if delayEnabled step then
        VObject
          [(lit "value",
            VNumber (if Number_isFinite (delayValue step)
                     then Math_max (of_Z 0) (Math_round (delayValue step))
                     else of_Z 0));
           (lit "unit", VString (DelayUnit_string (delayUnit step)));
           (lit "timezone", VString (delayTimezone step))]
      else VNull);
     (lit "customTracking",
      if addTrackingParams step then
        VArray
          (filter
             (fun row => truthy (and_then (property "param" row)
                                          (property "value" row)))
             (map (fun row =>
                     VObject [(lit "param", VString (trim (param row)));
                              (lit "value", VString (trim (row_value row)))])
                  (trackingRows step)))
      else VArray [])].

(** The request body [handleSubmit] builds (before [JSON.stringify]). *)
Definition payload (form : FormState) : value :=
  VObject
    [(lit "flowName", VString (trim (flowName form)));
     (lit "trigger",
      VObject [(lit "type", VString (TriggerType_string (triggerType form)));
               (lit "id", VString (trim (triggerId form)))]);
     (lit "steps", VArray (map payloadStep (steps form)))].

(** [handleSubmit] up to the request: the validation message it shows
    instead of submitting, or the body it posts to [/api/flows]. *)
Definition handleSubmit (form : FormState) : jsstring + value :=
  match validateForm form with
  | Some validationMessage => inl validationMessage
  | None => inr (payload form)
  end.

End Form.

(** ** The rest of the page: editing the steps, and the summary *)

Module Editor.

(** [createId]: the prefix, a dash and a random text, which is
    [crypto.randomUUID()] or a piece of [Math.random().toString(36)] and is
    a parameter here. *)
Definition createId (prefix random : jsstring) : jsstring :=
  prefix ++ lit "-" ++ random.

Definition createTrackingRow (random : jsstring) : Form.TrackingRow :=
  {| Form.row_id := createId "tracking" random;
     Form.param := [];
     Form.row_value := [] |}.

Definition createEmptyStep (random : jsstring) : Form.EmailStepForm :=
  {| Form.id := createId "step" random;
     Form.internalName := [];
     Form.subjectLine := [];
     Form.previewText := [];
     Form.fromEmail := [];
     Form.fromName := [];
     Form.replyToEmail := [];
     Form.ccEmail := [];
     Form.bccEmail := [];
     Form.templateId := [];
     Form.smartSendingEnabled := true;
     Form.status := Form.draft;
     Form.addTrackingParams := false;
     Form.trackingRows := [];
     Form.delayEnabled := false;
     Form.delayValue := of_Z 1;
     Form.delayUnit := Form.days;
     Form.delayTimezone := lit "profile" |}.

(** The state updaters below are the functions that the source hands to
    [setSteps]: from the previous list of steps to the next one. *)
Definition handleAddStep (random : jsstring) (prev : list Form.EmailStepForm)
  : list Form.EmailStepForm :=
  prev ++ [createEmptyStep random].

Definition handleRemoveStep (id : jsstring) (prev : list Form.EmailStepForm)
  : list Form.EmailStepForm :=
  if (1 <? List.length prev)%nat
  then filter (fun step => negb (jsstring_eqb (Form.id step) id)) prev
  else prev.

(** [keyof EmailStepForm], each key with the type of its values. *)
Inductive Field : Type -> Type :=
| id_key : Field jsstring
| internalName_key : Field jsstring
| subjectLine_key : Field jsstring
| previewText_key : Field jsstring
| fromEmail_key : Field jsstring
| fromName_key : Field jsstring
| replyToEmail_key : Field jsstring
| ccEmail_key : Field jsstring
| bccEmail_key : Field jsstring
| templateId_key : Field jsstring
| smartSendingEnabled_key : Field bool
| status_key : Field Form.StepStatus
| addTrackingParams_key : Field bool
| trackingRows_key : Field (list Form.TrackingRow)
| delayEnabled_key : Field bool
| delayValue_key : Field number
| delayUnit_key : Field Form.DelayUnit
| delayTimezone_key : Field jsstring.

(** [{ ...step, [field]: value }] *)
Definition with_field {T} (field : Field T) (value : T) (step : Form.EmailStepForm)
  : Form.EmailStepForm :=
  match field in Field T return T -> Form.EmailStepForm with
  | id_key => fun value =>
      {| Form.id := value;
         Form.internalName := Form.internalName step;
         Form.subjectLine := Form.subjectLine step;
         Form.previewText := Form.previewText step;
         Form.fromEmail := Form.fromEmail step;
         Form.fromName := Form.fromName step;
         Form.replyToEmail := Form.replyToEmail step;
         Form.ccEmail := Form.ccEmail step;
         Form.bccEmail := Form.bccEmail step;
         Form.templateId := Form.templateId step;
         Form.smartSendingEnabled := Form.smartSendingEnabled step;
         Form.status := Form.status step;
         Form.addTrackingParams := Form.addTrackingParams step;
         Form.trackingRows := Form.trackingRows step;
         Form.delayEnabled := Form.delayEnabled step;
         Form.delayValue := Form.delayValue step;
         Form.delayUnit := Form.delayUnit step;
         Form.delayTimezone := Form.delayTimezone step |}
  | internalName_key => fun value =>
      {| Form.id := Form.id step;
         Form.internalName := value;
         Form.subjectLine := Form.subjectLine step;
         Form.previewText := Form.previewText step;
         Form.fromEmail := Form.fromEmail step;
         Form.fromName := Form.fromName step;
         Form.replyToEmail := Form.replyToEmail step;
         Form.ccEmail := Form.ccEmail step;
         Form.bccEmail := Form.bccEmail step;
         Form.templateId := Form.templateId step;
         Form.smartSendingEnabled := Form.smartSendingEnabled step;
         Form.status := Form.status step;
         Form.addTrackingParams := Form.addTrackingParams step;
         Form.trackingRows := Form.trackingRows step;
         Form.delayEnabled := Form.delayEnabled step;
         Form.delayValue := Form.delayValue step;
         Form.delayUnit := Form.delayUnit step;
         Form.delayTimezone := Form.delayTimezone step |}
  | subjectLine_key => fun value =>
      {| Form.id := Form.id step;
         Form.internalName := Form.internalName step;
         Form.subjectLine := value;
         Form.previewText := Form.previewText step;
         Form.fromEmail := Form.fromEmail step;
         Form.fromName := Form.fromName step;
         Form.replyToEmail := Form.replyToEmail step;
         Form.ccEmail := Form.ccEmail step;
         Form.bccEmail := Form.bccEmail step;
         Form.templateId := Form.templateId step;
         Form.smartSendingEnabled := Form.smartSendingEnabled step;
         Form.status := Form.status step;
         Form.addTrackingParams := Form.addTrackingParams step;
         Form.trackingRows := Form.trackingRows step;
         Form.delayEnabled := Form.delayEnabled step;
         Form.delayValue := Form.delayValue step;
         Form.delayUnit := Form.delayUnit step;
         Form.delayTimezone := Form.delayTimezone step |}
  | previewText_key => fun value =>
      {| Form.id := Form.id step;
         Form.internalName := Form.internalName step;
         Form.subjectLine := Form.subjectLine step;
         Form.previewText := value;
         Form.fromEmail := Form.fromEmail step;
         Form.fromName := Form.fromName step;
         Form.replyToEmail := Form.replyToEmail step;
         Form.ccEmail := Form.ccEmail step;
         Form.bccEmail := Form.bccEmail step;
         Form.templateId := Form.templateId step;
         Form.smartSendingEnabled := Form.smartSendingEnabled step;
         Form.status := Form.status step;
         Form.addTrackingParams := Form.addTrackingParams step;
         Form.trackingRows := Form.trackingRows step;
         Form.delayEnabled := Form.delayEnabled step;
         Form.delayValue := Form.delayValue step;
         Form.delayUnit := Form.delayUnit step;
         Form.delayTimezone := Form.delayTimezone step |}
  | fromEmail_key => fun value =>
      {| Form.id := Form.id step;
         Form.internalName := Form.internalName step;
         Form.subjectLine := Form.subjectLine step;
         Form.previewText := Form.previewText step;
         Form.fromEmail := value;
         Form.fromName := Form.fromName step;
         Form.replyToEmail := Form.replyToEmail step;
         Form.ccEmail := Form.ccEmail step;
         Form.bccEmail := Form.bccEmail step;
         Form.templateId := Form.templateId step;
         Form.smartSendingEnabled := Form.smartSendingEnabled step;
         Form.status := Form.status step;
         Form.addTrackingParams := Form.addTrackingParams step;
         Form.trackingRows := Form.trackingRows step;
         Form.delayEnabled := Form.delayEnabled step;
         Form.delayValue := Form.delayValue step;
         Form.delayUnit := Form.delayUnit step;
         Form.delayTimezone := Form.delayTimezone step |}
  | fromName_key => fun value =>
      {| Form.id := Form.id step;
         Form.internalName := Form.internalName step;
         Form.subjectLine := Form.subjectLine step;
         Form.previewText := Form.previewText step;
         Form.fromEmail := Form.fromEmail step;
         Form.fromName := value;
         Form.replyToEmail := Form.replyToEmail step;
         Form.ccEmail := Form.ccEmail step;
         Form.bccEmail := Form.bccEmail step;
         Form.templateId := Form.templateId step;
         Form.smartSendingEnabled := Form.smartSendingEnabled step;
         Form.status := Form.status step;
         Form.addTrackingParams := Form.addTrackingParams step;
         Form.trackingRows := Form.trackingRows step;
         Form.delayEnabled := Form.delayEnabled step;
         Form.delayValue := Form.delayValue step;
         Form.delayUnit := Form.delayUnit step;
         Form.delayTimezone := Form.delayTimezone step |}
  | replyToEmail_key => fun value =>
      {| Form.id := Form.id step;
         Form.internalName := Form.internalName step;
         Form.subjectLine := Form.subjectLine step;
         Form.previewText := Form.previewText step;
         Form.fromEmail := Form.fromEmail step;
         Form.fromName := Form.fromName step;
         Form.replyToEmail := value;
         Form.ccEmail := Form.ccEmail step;
         Form.bccEmail := Form.bccEmail step;
         Form.templateId := Form.templateId step;
         Form.smartSendingEnabled := Form.smartSendingEnabled step;
         Form.status := Form.status step;
         Form.addTrackingParams := Form.addTrackingParams step;
         Form.trackingRows := Form.trackingRows step;
         Form.delayEnabled := Form.delayEnabled step;
         Form.delayValue := Form.delayValue step;
         Form.delayUnit := Form.delayUnit step;
         Form.delayTimezone := Form.delayTimezone step |}
  | ccEmail_key => fun value =>
      {| Form.id := Form.id step;
         Form.internalName := Form.internalName step;
         Form.subjectLine := Form.subjectLine step;
         Form.previewText := Form.previewText step;
         Form.fromEmail := Form.fromEmail step;
         Form.fromName := Form.fromName step;
         Form.replyToEmail := Form.replyToEmail step;
         Form.ccEmail := value;
         Form.bccEmail := Form.bccEmail step;
         Form.templateId := Form.templateId step;
         Form.smartSendingEnabled := Form.smartSendingEnabled step;
         Form.status := Form.status step;
         Form.addTrackingParams := Form.addTrackingParams step;
         Form.trackingRows := Form.trackingRows step;
         Form.delayEnabled := Form.delayEnabled step;
         Form.delayValue := Form.delayValue step;
         Form.delayUnit := Form.delayUnit step;
         Form.delayTimezone := Form.delayTimezone step |}
  | bccEmail_key => fun value =>
      {| Form.id := Form.id step;
         Form.internalName := Form.internalName step;
         Form.subjectLine := Form.subjectLine step;
         Form.previewText := Form.previewText step;
         Form.fromEmail := Form.fromEmail step;
         Form.fromName := Form.fromName step;
         Form.replyToEmail := Form.replyToEmail step;
         Form.ccEmail := Form.ccEmail step;
         Form.bccEmail := value;
         Form.templateId := Form.templateId step;
         Form.smartSendingEnabled := Form.smartSendingEnabled step;
         Form.status := Form.status step;
         Form.addTrackingParams := Form.addTrackingParams step;
         Form.trackingRows := Form.trackingRows step;
         Form.delayEnabled := Form.delayEnabled step;
         Form.delayValue := Form.delayValue step;
         Form.delayUnit := Form.delayUnit step;
         Form.delayTimezone := Form.delayTimezone step |}
  | templateId_key => fun value =>
      {| Form.id := Form.id step;
         Form.internalName := Form.internalName step;
         Form.subjectLine := Form.subjectLine step;
         Form.previewText := Form.previewText step;
         Form.fromEmail := Form.fromEmail step;
         Form.fromName := Form.fromName step;
         Form.replyToEmail := Form.replyToEmail step;
         Form.ccEmail := Form.ccEmail step;
         Form.bccEmail := Form.bccEmail step;
         Form.templateId := value;
         Form.smartSendingEnabled := Form.smartSendingEnabled step;
         Form.status := Form.status step;
         Form.addTrackingParams := Form.addTrackingParams step;
         Form.trackingRows := Form.trackingRows step;
         Form.delayEnabled := Form.delayEnabled step;
         Form.delayValue := Form.delayValue step;
         Form.delayUnit := Form.delayUnit step;
         Form.delayTimezone := Form.delayTimezone step |}
  | smartSendingEnabled_key => fun value =>
      {| Form.id := Form.id step;
         Form.internalName := Form.internalName step;
         Form.subjectLine := Form.subjectLine step;
         Form.previewText := Form.previewText step;
         Form.fromEmail := Form.fromEmail step;
         Form.fromName := Form.fromName step;
         Form.replyToEmail := Form.replyToEmail step;
         Form.ccEmail := Form.ccEmail step;
         Form.bccEmail := Form.bccEmail step;
         Form.templateId := Form.templateId step;
         Form.smartSendingEnabled := value;
         Form.status := Form.status step;
         Form.addTrackingParams := Form.addTrackingParams step;
         Form.trackingRows := Form.trackingRows step;
         Form.delayEnabled := Form.delayEnabled step;
         Form.delayValue := Form.delayValue step;
         Form.delayUnit := Form.delayUnit step;
         Form.delayTimezone := Form.delayTimezone step |}
  | status_key => fun value =>
      {| Form.id := Form.id step;
         Form.internalName := Form.internalName step;
         Form.subjectLine := Form.subjectLine step;
         Form.previewText := Form.previewText step;
         Form.fromEmail := Form.fromEmail step;
         Form.fromName := Form.fromName step;
         Form.replyToEmail := Form.replyToEmail step;
         Form.ccEmail := Form.ccEmail step;
         Form.bccEmail := Form.bccEmail step;
         Form.templateId := Form.templateId step;
         Form.smartSendingEnabled := Form.smartSendingEnabled step;
         Form.status := value;
         Form.addTrackingParams := Form.addTrackingParams step;
         Form.trackingRows := Form.trackingRows step;
         Form.delayEnabled := Form.delayEnabled step;
         Form.delayValue := Form.delayValue step;
         Form.delayUnit := Form.delayUnit step;
         Form.delayTimezone := Form.delayTimezone step |}
  | addTrackingParams_key => fun value =>
      {| Form.id := Form.id step;
         Form.internalName := Form.internalName step;
         Form.subjectLine := Form.subjectLine step;
         Form.previewText := Form.previewText step;
         Form.fromEmail := Form.fromEmail step;
         Form.fromName := Form.fromName step;
         Form.replyToEmail := Form.replyToEmail step;
         Form.ccEmail := Form.ccEmail step;
         Form.bccEmail := Form.bccEmail step;
         Form.templateId := Form.templateId step;
         Form.smartSendingEnabled := Form.smartSendingEnabled step;
         Form.status := Form.status step;
         Form.addTrackingParams := value;
         Form.trackingRows := Form.trackingRows step;
         Form.delayEnabled := Form.delayEnabled step;
         Form.delayValue := Form.delayValue step;
         Form.delayUnit := Form.delayUnit step;
         Form.delayTimezone := Form.delayTimezone step |}
  | trackingRows_key => fun value =>
      {| Form.id := Form.id step;
         Form.internalName := Form.internalName step;
         Form.subjectLine := Form.subjectLine step;
         Form.previewText := Form.previewText step;
         Form.fromEmail := Form.fromEmail step;
         Form.fromName := Form.fromName step;
         Form.replyToEmail := Form.replyToEmail step;
         Form.ccEmail := Form.ccEmail step;
         Form.bccEmail := Form.bccEmail step;
         Form.templateId := Form.templateId step;
         Form.smartSendingEnabled := Form.smartSendingEnabled step;
         Form.status := Form.status step;
         Form.addTrackingParams := Form.addTrackingParams step;
         Form.trackingRows := value;
         Form.delayEnabled := Form.delayEnabled step;
         Form.delayValue := Form.delayValue step;
         Form.delayUnit := Form.delayUnit step;
         Form.delayTimezone := Form.delayTimezone step |}
  | delayEnabled_key => fun value =>
      {| Form.id := Form.id step;
         Form.internalName := Form.internalName step;
         Form.subjectLine := Form.subjectLine step;
         Form.previewText := Form.previewText step;
         Form.fromEmail := Form.fromEmail step;
         Form.fromName := Form.fromName step;
         Form.replyToEmail := Form.replyToEmail step;
         Form.ccEmail := Form.ccEmail step;
         Form.bccEmail := Form.bccEmail step;
         Form.templateId := Form.templateId step;
         Form.smartSendingEnabled := Form.smartSendingEnabled step;
         Form.status := Form.status step;
         Form.addTrackingParams := Form.addTrackingParams step;
         Form.trackingRows := Form.trackingRows step;
         Form.delayEnabled := value;
         Form.delayValue := Form.delayValue step;
         Form.delayUnit := Form.delayUnit step;
         Form.delayTimezone := Form.delayTimezone step |}
  | delayValue_key => fun value =>
      {| Form.id := Form.id step;
         Form.internalName := Form.internalName step;
         Form.subjectLine := Form.subjectLine step;
         Form.previewText := Form.previewText step;
         Form.fromEmail := Form.fromEmail step;
         Form.fromName := Form.fromName step;
         Form.replyToEmail := Form.replyToEmail step;
         Form.ccEmail := Form.ccEmail step;
         Form.bccEmail := Form.bccEmail step;
         Form.templateId := Form.templateId step;
         Form.smartSendingEnabled := Form.smartSendingEnabled step;
         Form.status := Form.status step;
         Form.addTrackingParams := Form.addTrackingParams step;
         Form.trackingRows := Form.trackingRows step;
         Form.delayEnabled := Form.delayEnabled step;
         Form.delayValue := value;
         Form.delayUnit := Form.delayUnit step;
         Form.delayTimezone := Form.delayTimezone step |}
  | delayUnit_key => fun value =>
      {| Form.id := Form.id step;
         Form.internalName := Form.internalName step;
         Form.subjectLine := Form.subjectLine step;
         Form.previewText := Form.previewText step;
         Form.fromEmail := Form.fromEmail step;
         Form.fromName := Form.fromName step;
         Form.replyToEmail := Form.replyToEmail step;
         Form.ccEmail := Form.ccEmail step;
         Form.bccEmail := Form.bccEmail step;
         Form.templateId := Form.templateId step;
         Form.smartSendingEnabled := Form.smartSendingEnabled step;
         Form.status := Form.status step;
         Form.addTrackingParams := Form.addTrackingParams step;
         Form.trackingRows := Form.trackingRows step;
         Form.delayEnabled := Form.delayEnabled step;
         Form.delayValue := Form.delayValue step;
         Form.delayUnit := value;
         Form.delayTimezone := Form.delayTimezone step |}
  | delayTimezone_key => fun value =>
      {| Form.id := Form.id step;
         Form.internalName := Form.internalName step;
         Form.subjectLine := Form.subjectLine step;
         Form.previewText := Form.previewText step;
         Form.fromEmail := Form.fromEmail step;
         Form.fromName := Form.fromName step;
         Form.replyToEmail := Form.replyToEmail step;
         Form.ccEmail := Form.ccEmail step;
         Form.bccEmail := Form.bccEmail step;
         Form.templateId := Form.templateId step;
         Form.smartSendingEnabled := Form.smartSendingEnabled step;
         Form.status := Form.status step;
         Form.addTrackingParams := Form.addTrackingParams step;
         Form.trackingRows := Form.trackingRows step;
         Form.delayEnabled := Form.delayEnabled step;
         Form.delayValue := Form.delayValue step;
         Form.delayUnit := Form.delayUnit step;
         Form.delayTimezone := value |}
  end value.

Definition updateStep {T} (id : jsstring) (field : Field T) (value : T)
  (prev : list Form.EmailStepForm) : list Form.EmailStepForm :=
  map (fun step =>
         if jsstring_eqb (Form.id step) id then with_field field value step
         else step)
      prev.

(** The two fields of a tracking row that [updateTrackingRow] takes. *)
Inductive RowField := param_key | value_key.

Definition with_row_field (field : RowField) (value : jsstring)
  (row : Form.TrackingRow) : Form.TrackingRow :=
  match field with
  | param_key =>
      {| Form.row_id := Form.row_id row;
         Form.param := value;
         Form.row_value := Form.row_value row |}
  | value_key =>
      {| Form.row_id := Form.row_id row;
         Form.param := Form.param row;
         Form.row_value := value |}
  end.

Definition updateTrackingRow (stepId rowId : jsstring) (field : RowField)
  (value : jsstring) (prev : list Form.EmailStepForm) : list Form.EmailStepForm :=
  map (fun step =>
         if negb (jsstring_eqb (Form.id step) stepId) then step
         else
           with_field trackingRows_key
             (map (fun row =>
                     if jsstring_eqb (Form.row_id row) rowId
                     then with_row_field field value row
                     else row)
                  (Form.trackingRows step))
             step)
      prev.

Definition addTrackingRow (stepId random : jsstring)
  (prev : list Form.EmailStepForm) : list Form.EmailStepForm :=
  map (fun step =>
         if jsstring_eqb (Form.id step) stepId
         then with_field trackingRows_key
                (Form.trackingRows step ++ [createTrackingRow random]) step
         else step)
      prev.

Definition removeTrackingRow (stepId rowId : jsstring)
  (prev : list Form.EmailStepForm) : list Form.EmailStepForm :=
  map (fun step =>
         if jsstring_eqb (Form.id step) stepId
         then with_field trackingRows_key
                (filter (fun row => negb (jsstring_eqb (Form.row_id row) rowId))
                   (Form.trackingRows step))
                step
         else step)
      prev.

(** The change handler of the tracking check box of [step], the step as it
    was rendered: its updates of the state, one after the other. *)
Definition onTrackingChange (step : Form.EmailStepForm) (checked : bool)
  (random : jsstring) (prev : list Form.EmailStepForm)
  : list Form.EmailStepForm :=
  let updated := updateStep (Form.id step) addTrackingParams_key checked prev in
  let added :=
    if checked && (List.length (Form.trackingRows step) =? 0)%nat
    then addTrackingRow (Form.id step) random updated
    else updated in
  if negb checked then updateStep (Form.id step) trackingRows_key [] added
  else added.

(** [x?.k] *)
Definition optional_get (x : value) (k : jsstring) : completion value :=
  match x with
  | VUndefined | VNull => Normal VUndefined
  | _ => get x k
  end.

(** [flowSummary], for the response [apiResponse] as parsed from the
    answer of [/api/flows] (null before there is one): nothing, or the id
    and the name to show. *)
Definition flowSummary (apiResponse : value) (flowName : jsstring)
  : completion (option (value * value)) :=
  outer <- optional_get apiResponse "data" ;;
  inner <- optional_get outer "data" ;;
  shown <- optional_get inner "id" ;;
  if negb (truthy shown) then Normal None else
  outer <- get apiResponse "data" ;;
  inner <- get outer "data" ;;
  id <- get inner "id" ;;
  outer' <- get apiResponse "data" ;;
  inner' <- get outer' "data" ;;
  attributes <- get inner' "attributes" ;;
  name <- optional_get attributes "name" ;;
  Normal (Some (id, nullish_or name (VString flowName))).

End Editor.

(** ** Vocabulary of the properties *)

(** A string that does not start with white space. *)
Definition clean_start (s : jsstring) : bool :=
  match s with
  | [] => true
  | c :: _ => negb (isWhiteSpace c)
  end.

(** The object the handler makes of a tracking row. *)
Definition trackObject (p v : jsstring) : value :=
  VObject [(lit "param", VString p); (lit "value", VString v)].

(** The object the handler makes of a kept delay. *)
Definition delayObject (x : number) (unit timezone : value) : value :=
  VObject [(lit "value", VNumber x); (lit "unit", unit);
           (lit "timezone", timezone)].

(** The value of the delay of a step when the delay is one that sanitizing
    keeps: the delay is there, its value is a number, and the number is
    greater than zero. *)
Definition keptDelay (step : value) : option number :=
  let delay := property "delay" step in
  if truthy delay then
    match property "value" delay with
    | VNumber x => if is_positive x then Some x else None
    | _ => None
    end
  else None.

(** The timezone of a kept delay: the trimmed entry, or "profile" when the
    entry is missing or blank. *)
Definition expectedTimezone (timezone : value) : jsstring :=
  match timezone with
  | VString s => if is_empty (trim s) then lit "profile" else trim s
  | _ => lit "profile"
  end.

(** A row survives when both texts are non-empty after trimming. *)
Definition survives (row : jsstring * jsstring) : bool :=
  negb (is_empty (trim (fst row))) && negb (is_empty (trim (snd row))).

Definition trimmedTrack (row : jsstring * jsstring) : value :=
  trackObject (trim (fst row)) (trim (snd row)).

(** The tracking rows the specification expects for rows with the given
    param and value texts. *)
Definition expectedTracking (rows : list (jsstring * jsstring)) : list value :=
  map trimmedTrack (filter survives rows).

(** The text the handler keeps of an optional string property: the trimmed
    string, the empty string for a missing one. *)
Definition expectedText (x : value) : jsstring :=
  match x with
  | VString s => trim s
  | _ => []
  end.

(** The delay of a sanitized step, by what the specification says. *)
Definition expectedDelay (step : value) : value :=
  match keptDelay step with
  | None => VNull
  | Some x =>
      delayObject (Math_max (of_Z 0) (Math_round x))
        (normalizeDelayUnit (property "unit" (property "delay" step)))
        (VString (expectedTimezone (property "timezone" (property "delay" step))))
  end.

(** A kept delay whose value rounds to zero: a finite number above 0 and
    below one half. *)
Definition delayRoundsToZero (step : value) : bool :=
  match keptDelay step with
  | Some (Finite q) => negb (Qle_bool (1 # 2) q)
  | _ => false
  end.

Definition someDelayRoundsToZero (payload : value) : bool :=
  match property "steps" payload with
  | VArray steps => existsb delayRoundsToZero steps
  | _ => false
  end.

Definition stepObject
  (internalName subjectLine previewText fromEmail fromName replyToEmail
     ccEmail bccEmail templateId : jsstring)
  (smartSendingEnabled : bool) (status delay customTracking : value) : value :=
  VObject
    [(lit "internalName", VString internalName);
     (lit "subjectLine", VString subjectLine);
     (lit "previewText", VString previewText);
     (lit "fromEmail", VString fromEmail);
     (lit "fromName", VString fromName);
     (lit "replyToEmail", VString replyToEmail);
     (lit "ccEmail", VString ccEmail);
     (lit "bccEmail", VString bccEmail);
     (lit "templateId", VString templateId);
     (lit "smartSendingEnabled", VBoolean smartSendingEnabled);
     (lit "status", status);
     (lit "delay", delay);
     (lit "customTracking", customTracking)].

(** The step the handler makes of [step], given the texts of its tracking
    rows. *)
Definition expectedStep (step : value) (tracking : list (jsstring * jsstring))
  : value :=
  stepObject
    (expectedText (property "internalName" step))
    (expectedText (property "subjectLine" step))
    (expectedText (property "previewText" step))
    (expectedText (property "fromEmail" step))
    (expectedText (property "fromName" step))
    (expectedText (property "replyToEmail" step))
    (expectedText (property "ccEmail" step))
    (expectedText (property "bccEmail" step))
    (expectedText (property "templateId" step))
    (truthy (property "smartSendingEnabled" step))
    (normalizeStatus (property "status" step))
    (expectedDelay step)
    (VArray (expectedTracking tracking)).

Definition payloadObject (flowName : jsstring) (type : value) (id : jsstring)
  (steps : list value) : value :=
  VObject
    [(lit "flowName", VString flowName);
     (lit "trigger", VObject [(lit "type", type); (lit "id", VString id)]);
     (lit "steps", VArray steps)].

(** The top-level shape of a FlowRequest that the handler relies on: an
    array of steps, a string flow name, and a trigger with a string id. *)
Definition is_string (x : value) : bool :=
  match x with VString _ => true | _ => false end.

Definition is_nullish (x : value) : bool :=
  match x with VUndefined | VNull => true | _ => false end.

Definition topLevelShape (body : value) : bool :=
  negb (is_nullish body)
  && Array_isArray (property "steps" body)
  && is_string (property "flowName" body)
  && negb (is_nullish (property "trigger" body))
  && is_string (property "id" (property "trigger" body)).

(** A sanitized step that validation counts as invalid: its subject line,
    from email or from name is empty. *)
Definition isInvalid (step : value) : bool :=
  negb (truthy (property "subjectLine" step))
  || negb (truthy (property "fromEmail" step))
  || negb (truthy (property "fromName" step)).

(** The checks of the flow name and the trigger, which come before the
    checks of the steps: the message of the first that fails. *)
Definition headerViolation (payload : value) : option jsstring :=
  if negb (truthy (property "flowName" payload)) then
    Some (lit "Flow name is required.")
  else if negb (includes [lit "list"; lit "segment"]
                  (property "type" (property "trigger" payload))) then
    Some (lit "Unsupported trigger type. Only list and segment triggers are supported.")
  else if negb (truthy (property "id" (property "trigger" payload))) then
    Some (lit "Trigger identifier is required.")
  else None.

(** The server has a usable API key. *)
Definition configured (w : World) : bool :=
  match KLAVIYO_API_KEY w with
  | Some (_ :: _) => true
  | _ => false
  end.

Definition errorBody (message : jsstring) : value :=
  VObject [(lit "error", VString message)].

(** The request of the specification's scenario, with the given steps. *)
Definition welcomeFlow (steps : value) : value :=
  VObject
    [(lit "flowName", VString "Welcome");
     (lit "trigger",
      VObject [(lit "type", VString "list"); (lit "id", VString "ABC")]);
     (lit "steps", steps)].

(** The step of the scenario, with further properties. *)
Definition hiStep (more : list (jsstring * value)) : value :=
  VObject
    ([(lit "subjectLine", VString "Hi");
      (lit "fromEmail", VString "a@b.com");
      (lit "fromName", VString "Team")] ++ more).

(** A world with the key "pk_test" whose request body parses to [body],
    whose provider answers every call with [answer], and whose runtime has
    one message for every status that its [Response] constructor refuses. *)
Definition worldOf (body : value) (answer : attempt FetchResponse) : World :=
  {| KLAVIYO_API_KEY := Some (lit "pk_test");
     request_json := Returned body;
     fetch := fun _ _ => answer;
     Response_error_message := fun _ => lit "Invalid response status code" |}.

Definition is_object (x : value) : bool :=
  match x with VObject _ => true | _ => false end.

(** The shape of a FlowRequest by the data model of the specification: on
    top of the above, the request, its trigger and each of its steps are
    records. *)
Definition flowRequestShape (body : value) : bool :=
  topLevelShape body && is_object body && is_object (property "trigger" body)
  && match property "steps" body with
     | VArray steps => forallb is_object steps
     | _ => false
     end.

(** A stand-in for [buildFlowDefinition] in the examples: the definition is
    the list of the steps. *)
Definition stepsAsDefinition (payload : value) : attempt value :=
  Returned (property "steps" payload).

(** [typeof x === "number"] *)
Definition typeof_number (x : value) : bool :=
  match x with VNumber _ => true | _ => false end.

(** The steps of a payload, and their delays. *)
Definition stepsOf (payload : value) : list value :=
  match property "steps" payload with
  | VArray steps => steps
  | _ => []
  end.

Definition delaysOf (payload : value) : list value :=
  map (property "delay") (stepsOf payload).

(** The scenario with a delay of the given value on its step. *)
Definition delayedFlow (x : number) : value :=
  welcomeFlow
    (VArray [hiStep [(lit "delay", VObject [(lit "value", VNumber x)])]]).

(** A form step as [createEmptyStep] makes it, filled in with the sender of
    the scenario and the given reply-to entry. *)
Definition formStep (replyTo : jsstring) : Form.EmailStepForm :=
  {| Form.id := lit "step-1";
     Form.internalName := [];
     Form.subjectLine := lit "Hi";
     Form.previewText := [];
     Form.fromEmail := lit " a@b.com ";
     Form.fromName := lit "Team";
     Form.replyToEmail := replyTo;
     Form.ccEmail := [];
     Form.bccEmail := [];
     Form.templateId := [];
     Form.smartSendingEnabled := true;
     Form.status := Form.draft;
     Form.addTrackingParams := false;
     Form.trackingRows := [];
     Form.delayEnabled := false;
     Form.delayValue := of_Z 1;
     Form.delayUnit := Form.days;
     Form.delayTimezone := lit "profile" |}.

Definition welcomeForm (steps : list Form.EmailStepForm) : Form.FormState :=
  {| Form.flowName := lit "Welcome";
     Form.triggerType := Form.list_trigger;
     Form.triggerId := lit "ABC";
     Form.steps := steps |}.

(** The position of the first invalid step, counted from 0. *)
Fixpoint firstInvalid (steps : list value) : option nat :=
  match steps with
  | [] => None
  | step :: rest =>
      if isInvalid step then Some 0%nat else option_map S (firstInvalid rest)
  end.

(** What validation is to return for a sanitized payload: the message of
    the first check that fails, in the order flow name, trigger type,
    trigger id, number of steps, steps; null when none fails. *)
Definition expectedValidation (payload : value) : value :=
  match headerViolation payload with
  | Some message => VString message
  | None =>
      match stepsOf payload with
      | [] => VString "At least one email step is required."
      | steps =>
          match firstInvalid steps with
          | Some i => VString (stepMessage (Z.of_nat i + 1))
          | None => VNull
          end
      end
  end.

(** The body of the request the handler sends to the provider. *)
Definition klaviyoPayloadOf (name definition : value) : value :=
  VObject
    [(lit "data",
      VObject
        [(lit "type", VString "flow");
         (lit "attributes",
          VObject [(lit "name", name); (lit "definition", definition)])])].

(** The value of a header of a request. *)
Fixpoint header (name : jsstring) (headers : list (jsstring * jsstring))
  : option jsstring :=
  match headers with
  | [] => None
  | (k, v) :: rest => if jsstring_eqb name k then Some v else header name rest
  end.

(** The second argument of the call to the provider. *)
Definition klaviyoRequest (apiKey : jsstring) (klaviyoPayload : value) : FetchInit :=
  {| init_method := "POST";
     init_headers :=
       [(lit "Authorization", lit "Klaviyo-API-Key " ++ apiKey);
        (lit "Content-Type", lit "application/vnd.api+json");
        (lit "Accept", lit "application/vnd.api+json");
        (lit "revision", KLAVIYO_REVISION)];
     init_body := klaviyoPayload |}.

(** What the handler takes the body of a provider answer to be. *)
Definition jsonOf (response : FetchResponse) : value :=
  match response_json response with
  | Some j => j
  | None => VNull
  end.

(** The names of the text properties of a step. *)
Definition textFields : list jsstring :=
  [lit "internalName"; lit "subjectLine"; lit "previewText"; lit "fromEmail";
   lit "fromName"; lit "replyToEmail"; lit "ccEmail"; lit "bccEmail";
   lit "templateId"].

(** A string with no white space at either end. *)
Definition clean (s : jsstring) : bool :=
  clean_start s && clean_start (rev s).

(** A step of a request, as sent, that validation will count as invalid
    once sanitized: its subject line, from email or from name is missing or
    blank. *)
Definition lacksSender (step : value) : bool :=
  is_empty (expectedText (property "subjectLine" step))
  || is_empty (expectedText (property "fromEmail" step))
  || is_empty (expectedText (property "fromName" step)).

(** The answer of the handler to an outcome of the provider call: the
    data of a success; the status and the body of a failure whose status a
    response can carry; the gateway failure for a status that it cannot
    carry, as for a call that failed. *)
Definition answerTo (w : World) (answer : attempt FetchResponse) : NextResponse :=
  match answer with
  | Returned response =>
      if response_ok response then
        NextResponse_json (VObject [(lit "data", jsonOf response)]) 200
      else if Response_accepts (response_status response) then
        {| status := response_status response;
           body :=
             VObject
               [(lit "error", VString "Klaviyo API request failed.");
                (lit "details", nullish_or (jsonOf response) VUndefined)] |}
      else
        gatewayFailure
          (ErrorObject (Response_error_message w (response_status response)))
  | Threw error => gatewayFailure error
  end.

Section Outcomes.

Context {format : NumberFormat}.
Variable buildFlowDefinition : value -> attempt value.

(** The ways an invocation of the handler can end, with what each one
    requires of the world. *)
Inductive Outcome (w : World) : list event * completion NextResponse -> Prop :=
| ConfigError :
    configured w = false ->
    Outcome w
      ([], Normal (NextResponse_json
                     (errorBody "KLAVIYO_API_KEY is not configured on the server.")
                     500))
| ParseError error :
    configured w = true ->
    request_json w = Threw error ->
    Outcome w
      ([RequestJson],
       Normal (NextResponse_json
                 (VObject
                    [(lit "error", VString "Invalid JSON payload.");
                     (lit "details",
                      message_or error (VString "Unable to parse request."))])
                 400))
| Escaped body :
    configured w = true ->
    request_json w = Returned body ->
    sanitizePayload body = TypeError ->
    Outcome w ([RequestJson], TypeError)
| ValidationError body sanitized message :
    configured w = true ->
    request_json w = Returned body ->
    sanitizePayload body = Normal sanitized ->
    validatePayload sanitized = Normal (VString message) ->
    message <> [] ->
    Outcome w ([RequestJson], Normal (NextResponse_json (errorBody message) 400))
| BuildError body sanitized error :
    configured w = true ->
    request_json w = Returned body ->
    sanitizePayload body = Normal sanitized ->
    validatePayload sanitized = Normal VNull ->
    buildFlowDefinition sanitized = Threw error ->
    Outcome w
      ([RequestJson],
       Normal (NextResponse_json
                 (VObject
                    [(lit "error",
                      message_or error
                        (VString "Unable to construct Klaviyo flow payload."))])
                 400))
| Called apiKey body sanitized definition init answer :
    KLAVIYO_API_KEY w = Some apiKey ->
    apiKey <> [] ->
    request_json w = Returned body ->
    sanitizePayload body = Normal sanitized ->
    validatePayload sanitized = Normal VNull ->
    buildFlowDefinition sanitized = Returned definition ->
    init = klaviyoRequest apiKey
             (klaviyoPayloadOf (property "flowName" sanitized) definition) ->
    fetch w KLAVIYO_API_URL init = answer ->
    Outcome w
      ([RequestJson; Fetch KLAVIYO_API_URL init], Normal (answerTo w answer)).

End Outcomes.

(** A text property that sanitizing can trim: a string, or a missing
    one. *)
Definition text_or_missing (x : value) : bool :=
  match x with
  | VUndefined | VNull | VString _ => true
  | _ => false
  end.

(** A value that a template literal can render: no object in it, at any
    depth of arrays, has a property that shadows [toString]. *)
Fixpoint stringable (v : value) : bool :=
  match v with
  | VArray elements =>
      (fix all (l : list value) : bool :=
         match l with
         | [] => true
         | x :: rest => stringable x && all rest
         end) elements
  | VObject properties => negb (has_property "toString" properties)
  | _ => true
  end.

(** What sanitizing needs of a step, a tracking row and a request body to
    go through without a TypeError. *)
Definition delayReadable (step : value) : bool :=
  match keptDelay step with
  | Some _ => text_or_missing (property "timezone" (property "delay" step))
  | None => true
  end.

Definition rowReadable (row : value) : bool :=
  negb (is_nullish row)
  && stringable (property "param" row)
  && stringable (property "value" row).

Definition trackingReadable (step : value) : bool :=
  match property "customTracking" step with
  | VArray rows => forallb rowReadable rows
  | _ => true
  end.

Definition stepReadable (step : value) : bool :=
  negb (is_nullish step)
  && forallb (fun k => text_or_missing (property k step)) textFields
  && delayReadable step
  && trackingReadable step.

Definition readable (body : value) : bool :=
  topLevelShape body && forallb stepReadable (stepsOf body).

(** What the handler is to keep of the delay of a form step: nothing when
    the delay is off or the entry is not a finite number of at least one
    half; otherwise the entry rounded, the unit, and the trimmed timezone
    or "profile". *)
Definition keptFormDelay (step : Form.EmailStepForm) : value :=
  if Form.delayEnabled step then
    match Form.delayValue step with
    | Finite q =>
        if Qle_bool (1 # 2) q then
          delayObject (Math_round (Finite q))
            (VString (Form.DelayUnit_string (Form.delayUnit step)))
            (VString (expectedTimezone (VString (Form.delayTimezone step))))
        else VNull
    | _ => VNull
    end
  else VNull.

(** A form step that lacks a subject line, a from email or a from name. *)
Definition incomplete (step : Form.EmailStepForm) : bool :=
  is_empty (trim (Form.subjectLine step))
  || is_empty (trim (Form.fromEmail step))
  || is_empty (trim (Form.fromName step)).

(** The outcome of a computation that succeeds exactly when [ok]. *)
Definition succeeds_when {A} (ok : bool) (c : completion A) : Prop :=
  if ok then exists a, c = Normal a else c = TypeError.

(** The step of the scenario in the form, with a delay of the given entry
    switched on. *)
Definition delayedStep (x : number) : Form.EmailStepForm :=
  Editor.with_field Editor.delayValue_key x
    (Editor.with_field Editor.delayEnabled_key true (formStep [])).

(** The edits of one step that the page makes, each with the id of the
    step it is addressed to, and the update of the steps it stands for. *)
Inductive Edit :=
| SetField {T} (id : jsstring) (field : Editor.Field T) (value : T)
| SetRowField (stepId rowId : jsstring) (field : Editor.RowField)
    (value : jsstring)
| AddRow (stepId random : jsstring)
| RemoveRow (stepId rowId : jsstring)
| ToggleTracking (step : Form.EmailStepForm) (checked : bool)
    (random : jsstring).

Definition target (e : Edit) : jsstring :=
  match e with
  | SetField id _ _ => id
  | SetRowField stepId _ _ _ => stepId
  | AddRow stepId _ => stepId
  | RemoveRow stepId _ => stepId
  | ToggleTracking step _ _ => Form.id step
  end.

Definition update (e : Edit) (prev : list Form.EmailStepForm)
  : list Form.EmailStepForm :=
  match e with
  | SetField id field value => Editor.updateStep id field value prev
  | SetRowField stepId rowId field value =>
      Editor.updateTrackingRow stepId rowId field value prev
  | AddRow stepId random => Editor.addTrackingRow stepId random prev
  | RemoveRow stepId rowId => Editor.removeTrackingRow stepId rowId prev
  | ToggleTracking step checked random =>
      Editor.onTrackingChange step checked random prev
  end.

(** The one edit that changes the id of a step: [updateStep] on the field
    [id], which the page never makes. *)
Definition changes_id (e : Edit) : bool :=
  match e with
  | SetField _ Editor.id_key _ => true
  | _ => false
  end.

(** An update of the steps that is local to the steps with the id [id]: it
    keeps the number of the steps, the id of each, and every step with
    another id as it is and where it is. *)
Definition local_to (id : jsstring)
  (op : list Form.EmailStepForm -> list Form.EmailStepForm) : Prop :=
  forall prev,
    List.length (op prev) = List.length prev
    /\ forall i step,
         nth_error prev i = Some step ->
         exists step',
           nth_error (op prev) i = Some step'
           /\ Form.id step' = Form.id step
           /\ (Form.id step <> id -> step' = step).

(** The page state that [validateForm] and [handleSubmit] read, with the
    given steps. *)
Definition formOf (flowName triggerId : jsstring)
  (steps : list Form.EmailStepForm) : Form.FormState :=
  {| Form.flowName := flowName;
     Form.triggerType := Form.list_trigger;
     Form.triggerId := triggerId;
     Form.steps := steps |}.

Section RowTexts.

Context {format : NumberFormat}.

(** The param and the value of a tracking row as text: the string itself,
    the empty string for a missing one, the string conversion of anything
    else. *)
Definition rowTexts (row : value) : completion (jsstring * jsstring) :=
  p <- get row "param" ;;
  param <- ToString (nullish_or p (VString [])) ;;
  v <- get row "value" ;;
  val <- ToString (nullish_or v (VString [])) ;;
  Normal (param, val).

End RowTexts.

(** * Properties *)

(** ** Strings *)

Lemma jsstring_eqb_eq (s t : jsstring) : jsstring_eqb s t = true <-> s = t.
Proof.
  revert t; induction s as [|c s IH]; intros [|d t]; simpl;
    try (split; [discriminate | discriminate]); try tauto.
  rewrite andb_true_iff, N.eqb_eq, IH.
  split; [intros [-> ->]; reflexivity | intros H; inversion H; auto].
Qed.

Lemma jsstring_eqb_refl (s : jsstring) : jsstring_eqb s s = true.
Proof. apply jsstring_eqb_eq; reflexivity. Qed.

Lemma trimStart_clean (s : jsstring) : clean_start (trimStart s) = true.
Proof.
  induction s as [|c s IH]; simpl; [reflexivity|].
  destruct (isWhiteSpace c) eqn:E; [exact IH | simpl; rewrite E; reflexivity].
Qed.

Lemma trimStart_of_clean (s : jsstring) : clean_start s = true -> trimStart s = s.
Proof.
  destruct s as [|c s]; simpl; [reflexivity|].
  destruct (isWhiteSpace c); [discriminate | reflexivity].
Qed.

Lemma trimStart_snoc (s : jsstring) (c : N) :
  isWhiteSpace c = false -> exists s', trimStart (s ++ [c]) = s' ++ [c].
Proof.
  intros Hc; induction s as [|d s [s' IH]]; simpl.
  - rewrite Hc; exists []; reflexivity.
  - destruct (isWhiteSpace d); [exists s'; exact IH | exists (d :: s); reflexivity].
Qed.

Lemma trimEnd_clean (s : jsstring) :
  clean_start s = true -> clean_start (trimEnd s) = true.
Proof.
  unfold trimEnd; destruct s as [|c s]; simpl; [reflexivity|].
  intros Hc; apply negb_true_iff in Hc.
  destruct (trimStart_snoc (rev s) c Hc) as [s' ->].
  rewrite rev_app_distr; simpl; rewrite Hc; reflexivity.
Qed.

Lemma trimEnd_trimEnd (s : jsstring) : trimEnd (trimEnd s) = trimEnd s.
Proof.
  unfold trimEnd; rewrite rev_involutive.
  rewrite (trimStart_of_clean _ (trimStart_clean _)); reflexivity.
Qed.

Lemma trim_trim (s : jsstring) : trim (trim s) = trim s.
Proof.
  unfold trim.
  rewrite (trimStart_of_clean (trimEnd (trimStart s))).
  - apply trimEnd_trimEnd.
  - apply trimEnd_clean, trimStart_clean.
Qed.

(** ** Numbers *)

Lemma Qfloor_half_integer (z : Z) : Qfloor (inject_Z z + (1 # 2)) = z.
Proof.
  unfold Qfloor, Qplus, inject_Z; simpl.
  symmetry; apply (Z.div_unique _ _ _ 1%Z); lia.
Qed.

Lemma Math_round_integer (z : Z) : Math_round (of_Z z) = of_Z z.
Proof. unfold Math_round, of_Z; rewrite Qfloor_half_integer; reflexivity. Qed.

Lemma Qle_bool_integers (a b : Z) : Qle_bool (inject_Z a) (inject_Z b) = (a <=? b)%Z.
Proof. unfold Qle_bool, inject_Z; simpl; rewrite !Z.mul_1_r; reflexivity. Qed.

Lemma is_positive_of_Z (z : Z) : is_positive (of_Z z) = (0 <? z)%Z.
Proof. reflexivity. Qed.

Lemma Math_max_zero_integer (z : Z) :
  (0 <= z)%Z -> Math_max (of_Z 0) (of_Z z) = of_Z z.
Proof.
  intros Hz; unfold Math_max, of_Z; rewrite Qle_bool_integers.
  destruct (Z.leb_spec 0 z); [reflexivity | lia].
Qed.

(** The rounding of a positive finite number is a non-negative integer, the
    nearest one, a tie going up. *)
Lemma round_positive (q : Q) :
  is_positive (Finite q) = true ->
  exists z : Z, Math_round (Finite q) = of_Z z /\ (0 <= z)%Z
               /\ q - (1 # 2) < inject_Z z /\ inject_Z z <= q + (1 # 2).
Proof.
  simpl; intros Hq; apply Z.ltb_lt in Hq.
  exists (Qfloor (q + (1 # 2))); split; [reflexivity|].
  assert (H0 : 0 < q) by (destruct q as [n d]; unfold Qlt; simpl in *; lia).
  assert (Hle := Qfloor_le (q + (1 # 2))).
  assert (Hlt := Qlt_floor (q + (1 # 2))).
  repeat split.
  - replace 0%Z with (Qfloor 0) by reflexivity.
    apply Qfloor_resp_le.
    apply Qle_trans with q; [apply Qlt_le_weak, H0|].
    rewrite <- (Qplus_0_r q) at 1; apply Qplus_le_r; discriminate.
  - rewrite inject_Z_plus in Hlt.
    apply (Qplus_lt_l _ _ 1).
    eapply Qle_lt_trans; [|exact Hlt].
    setoid_replace (q - (1 # 2) + 1) with (q + (1 # 2)) by ring.
    apply Qle_refl.
  - exact Hle.
Qed.

(** From one half on, a number rounds to 1 or more. *)
Lemma round_from_half (q : Q) :
  Qle_bool (1 # 2) q = true -> is_positive (Math_round (Finite q)) = true.
Proof.
  intros H; apply Qle_bool_iff in H.
  unfold Math_round; rewrite is_positive_of_Z; apply Z.ltb_lt.
  apply Z.lt_le_trans with 1%Z; [lia|].
  replace 1%Z with (Qfloor 1) by reflexivity.
  apply Qfloor_resp_le.
  apply Qle_trans with ((1 # 2) + (1 # 2)); [discriminate|].
  apply Qplus_le_l; exact H.
Qed.

(** Below one half, a positive number rounds to 0. *)
Lemma round_below_half (q : Q) :
  is_positive (Finite q) = true -> Qle_bool (1 # 2) q = false ->
  Math_round (Finite q) = of_Z 0.
Proof.
  intros Hq Hhalf; unfold Math_round; f_equal.
  assert (H0 : 0 < q).
  { simpl in Hq; apply Z.ltb_lt in Hq.
    destruct q as [n d]; unfold Qlt; simpl in *; lia. }
  assert (Hlt : q < 1 # 2).
  { apply Qnot_le_lt; intros Hle; apply Qle_bool_iff in Hle; congruence. }
  assert (Hlo : (Qfloor 0 <= Qfloor (q + (1 # 2)))%Z).
  { apply Qfloor_resp_le.
    apply Qle_trans with q; [apply Qlt_le_weak, H0|].
    rewrite <- (Qplus_0_r q) at 1; apply Qplus_le_r; discriminate. }
  assert (Hhi : (Qfloor (q + (1 # 2)) < 1)%Z).
  { rewrite Zlt_Qlt.
    apply Qle_lt_trans with (q + (1 # 2)); [apply Qfloor_le|].
    apply Qlt_le_trans with ((1 # 2) + (1 # 2)); [|discriminate].
    apply Qplus_lt_l; exact Hlt. }
  change (Qfloor 0) with 0%Z in Hlo; lia.
Qed.

(** What [Math.max(0, Math.round(x))] is for a positive [x]. *)
Lemma clamp_round_positive (x : number) :
  is_positive x = true ->
  Math_max (of_Z 0) (Math_round x) = Math_round x
  /\ (x = Infinity false
      \/ exists z, (0 <= z)%Z /\ Math_round x = of_Z z).
Proof.
  destruct x as [|[|]|q]; try (simpl; discriminate).
  - intros _; split; [reflexivity | left; reflexivity].
  - intros Hq.
    destruct (round_positive q Hq) as (z & Hr & Hz & _).
    rewrite Hr.
    split; [apply Math_max_zero_integer, Hz | right; exists z; auto].
Qed.

(** ** Reading properties *)

Lemma lookup_here k v rest : lookup k ((k, v) :: rest) = v.
Proof. simpl; rewrite jsstring_eqb_refl; reflexivity. Qed.

Lemma lookup_next k k' v rest :
  jsstring_eqb k k' = false -> lookup k ((k', v) :: rest) = lookup k rest.
Proof. intros H; simpl; rewrite H; reflexivity. Qed.

Lemma get_object k properties :
  get (VObject properties) k = Normal (lookup k properties).
Proof. reflexivity. Qed.

Lemma property_object k properties :
  property k (VObject properties) = lookup k properties.
Proof. reflexivity. Qed.

(** A property other than [length], read from a value that is not nullish. *)
Lemma get_property v k x :
  jsstring_eqb k "length" = false -> get v k = Normal x -> x = property k v.
Proof.
  intros Hk; destruct v; simpl; rewrite ?Hk; congruence.
Qed.

Lemma bind_Normal {A B} (c : completion A) (k : A -> completion B) (b : B) :
  bind c k = Normal b -> exists a, c = Normal a /\ k a = Normal b.
Proof. destruct c; simpl; [eauto | discriminate]. Qed.

(** Evaluate property reads on object literals. *)
Ltac js_read :=
  repeat first
    [ rewrite get_object
    | rewrite property_object
    | rewrite lookup_here
    | rewrite lookup_next by reflexivity
    | progress cbn [bind] ].

(** Split a successful sequence into its steps. *)
Ltac bind_inv H :=
  let a := fresh "a" in
  let E := fresh "E" in
  apply bind_Normal in H; destruct H as (a & E & H).

Lemma mapM_Normal {A B} (f : A -> completion B) (l : list A) (r : list B) :
  mapM f l = Normal r -> Forall2 (fun a b => f a = Normal b) l r.
Proof.
  revert r; induction l as [|a l IH]; simpl; intros r H.
  - injection H as <-; constructor.
  - bind_inv H. bind_inv H. injection H as <-.
    constructor; auto.
Qed.

Lemma mapM_fixed {A} (f : A -> completion A) (l : list A) :
  Forall (fun a => f a = Normal a) l -> mapM f l = Normal l.
Proof.
  induction 1 as [|a l Ha _ IH]; simpl; [reflexivity|].
  rewrite Ha; simpl; rewrite IH; reflexivity.
Qed.

Lemma filterM_pure {A} (f : A -> completion bool) (g : A -> bool) (l : list A) :
  Forall (fun a => f a = Normal (g a)) l -> filterM f l = Normal (filter g l).
Proof.
  induction 1 as [|a l Ha _ IH]; simpl; [reflexivity|].
  rewrite Ha; simpl; rewrite IH; reflexivity.
Qed.

(** ** Normalizing the status and the delay unit *)

Lemma includes_In xs v :
  includes xs v = true <-> exists s, v = VString s /\ In s xs.
Proof.
  destruct v; simpl; try (split; [discriminate | intros (s0 & H & _); discriminate]).
  rewrite existsb_exists; split.
  - intros (t & Ht & E); apply jsstring_eqb_eq in E; subst; eauto.
  - intros (t & E & Ht); injection E as ->; exists t; split; auto.
    apply jsstring_eqb_refl.
Qed.

Lemma normalizeStatus_valid status :
  exists s, normalizeStatus status = VString s /\ In s VALID_STATUSES.
Proof.
  unfold normalizeStatus; destruct (includes VALID_STATUSES status) eqn:E.
  - apply includes_In in E; exact E.
  - exists (lit "draft"); split; [reflexivity | simpl; auto].
Qed.

Lemma normalizeDelayUnit_valid unit :
  exists s, normalizeDelayUnit unit = VString s /\ In s VALID_UNITS.
Proof.
  unfold normalizeDelayUnit; destruct (includes VALID_UNITS unit) eqn:E.
  - apply includes_In in E; exact E.
  - exists (lit "days"); split; [reflexivity | simpl; auto].
Qed.

Lemma normalizeStatus_fixed s :
  In s VALID_STATUSES -> normalizeStatus (VString s) = VString s.
Proof.
  intros H; unfold normalizeStatus.
  replace (includes VALID_STATUSES (VString s)) with true; [reflexivity|].
  symmetry; apply includes_In; eauto.
Qed.

Lemma normalizeDelayUnit_fixed s :
  In s VALID_UNITS -> normalizeDelayUnit (VString s) = VString s.
Proof.
  intros H; unfold normalizeDelayUnit.
  replace (includes VALID_UNITS (VString s)) with true; [reflexivity|].
  symmetry; apply includes_In; eauto.
Qed.

(** ** Text fields *)

Lemma optional_trim_cases x t :
  optional_trim x = Normal t ->
  (t = VUndefined /\ (x = VUndefined \/ x = VNull))
  \/ exists s, x = VString s /\ t = VString (trim s).
Proof.
  destruct x; simpl; intros H; try discriminate; injection H as <-; eauto.
Qed.

(** ** The delay *)

Lemma sanitizeDelay_spec step d :
  sanitizeDelay step = Normal d ->
  match keptDelay step with
  | None => d = VNull
  | Some x =>
      d = delayObject (Math_max (of_Z 0) (Math_round x))
            (normalizeDelayUnit (property "unit" (property "delay" step)))
            (VString (expectedTimezone
                        (property "timezone" (property "delay" step))))
  end.
Proof.
  unfold sanitizeDelay, keptDelay; intros H.
  bind_inv H. apply get_property in E; [subst a | reflexivity].
  destruct (truthy (property "delay" step)); [|congruence].
  bind_inv H. apply get_property in E; [subst a | reflexivity].
  destruct (property "value" (property "delay" step)); try congruence.
  destruct (is_positive x); [|congruence].
  bind_inv H. apply get_property in E; [subst a | reflexivity].
  bind_inv H. apply get_property in E; [subst a | reflexivity].
  bind_inv H. injection H as <-.
  unfold delayObject; do 3 f_equal.
  destruct (optional_trim_cases _ _ E) as [[-> [-> | ->]] | (s & -> & ->)];
    try reflexivity.
  unfold or_else, expectedTimezone; simpl.
  destruct (is_empty (trim s)); reflexivity.
Qed.

Lemma expectedTimezone_trimmed timezone :
  trim (expectedTimezone timezone) = expectedTimezone timezone
  /\ expectedTimezone timezone <> [].
Proof.
  unfold expectedTimezone; destruct timezone; try (split; [reflexivity | discriminate]).
  destruct (is_empty (trim s)) eqn:E; [split; [reflexivity | discriminate]|].
  split; [apply trim_trim|].
  intros H; rewrite H in E; discriminate.
Qed.

(** ** Tracking rows *)

Section Sanitizing.

Context {format : NumberFormat}.

Lemma sanitizeTrack_rowTexts track r :
  sanitizeTrack track = Normal r <->
  exists texts, rowTexts track = Normal texts /\ r = trimmedTrack texts.
Proof.
  unfold sanitizeTrack, rowTexts; split.
  - intros H; do 4 bind_inv H. injection H as <-.
    exists (a0, a2).
    rewrite E; cbn [bind]; rewrite E0; cbn [bind].
    rewrite E1; cbn [bind]; rewrite E2; auto.
  - intros ([p v] & H & ->); do 4 bind_inv H. injection H as <- <-.
    rewrite E; cbn [bind]; rewrite E0; cbn [bind].
    rewrite E1; cbn [bind]; rewrite E2; reflexivity.
Qed.

Lemma mapM_sanitizeTrack rows mapped :
  mapM sanitizeTrack rows = Normal mapped ->
  exists texts,
    Forall2 (fun row t => rowTexts row = Normal t) rows texts
    /\ mapped = map trimmedTrack texts.
Proof.
  intros H; apply mapM_Normal in H.
  induction H as [|row r rows mapped Hr _ (texts & IH & ->)].
  - exists []; split; [constructor | reflexivity].
  - apply sanitizeTrack_rowTexts in Hr; destruct Hr as (t & Ht & ->).
    exists (t :: texts); split; [constructor; auto | reflexivity].
Qed.

Lemma keepTrack_trackObject p v :
  keepTrack (trackObject p v) = Normal (negb (is_empty p) && negb (is_empty v)).
Proof.
  unfold keepTrack, trackObject; js_read; simpl.
  destruct (is_empty p); reflexivity.
Qed.

Lemma filterM_keepTrack texts :
  filterM keepTrack (map trimmedTrack texts) = Normal (expectedTracking texts).
Proof.
  unfold expectedTracking.
  induction texts as [|t texts IH]; simpl; [reflexivity|].
  unfold trimmedTrack at 1; rewrite keepTrack_trackObject; cbn [bind].
  rewrite IH; cbn [bind].
  change (negb (is_empty (trim (fst t))) && negb (is_empty (trim (snd t))))
    with (survives t).
  destruct (survives t); reflexivity.
Qed.

Lemma sanitizeTracking_spec step t :
  sanitizeTracking step = Normal t ->
  match property "customTracking" step with
  | VArray rows =>
      exists texts,
        Forall2 (fun row pv => rowTexts row = Normal pv) rows texts
        /\ t = VArray (expectedTracking texts)
  | _ => t = VArray []
  end.
Proof.
  unfold sanitizeTracking; intros H.
  bind_inv H. apply get_property in E; [subst a | reflexivity].
  destruct (property "customTracking" step); try congruence.
  bind_inv H. bind_inv H. injection H as <-.
  destruct (mapM_sanitizeTrack _ _ E) as (texts & Hf & ->).
  rewrite filterM_keepTrack in E0; injection E0 as <-.
  eauto.
Qed.

(** The text of a row whose param and value are strings. *)
Lemma rowTexts_strings properties p v :
  lookup "param" properties = VString p ->
  lookup "value" properties = VString v ->
  rowTexts (VObject properties) = Normal (p, v).
Proof.
  intros Hp Hv; unfold rowTexts; js_read; rewrite Hp, Hv; reflexivity.
Qed.

(** A surviving row is left alone by a second pass. *)
Lemma sanitizeTrack_fixed p v :
  trim p = p -> trim v = v ->
  sanitizeTrack (trackObject p v) = Normal (trackObject p v).
Proof.
  intros Hp Hv; apply sanitizeTrack_rowTexts; exists (p, v); split.
  - apply rowTexts_strings; reflexivity.
  - unfold trimmedTrack; simpl; rewrite Hp, Hv; reflexivity.
Qed.

Lemma expectedTracking_fixed texts :
  Forall (fun r => sanitizeTrack r = Normal r /\ keepTrack r = Normal true)
         (expectedTracking texts).
Proof.
  unfold expectedTracking.
  induction texts as [|t texts IH]; simpl; [constructor|].
  destruct (survives t) eqn:E; [|exact IH].
  simpl; constructor; [|exact IH].
  unfold survives in E; unfold trimmedTrack; split.
  - apply sanitizeTrack_fixed; apply trim_trim.
  - rewrite keepTrack_trackObject; f_equal; exact E.
Qed.

Lemma sanitizeTracking_fixed properties texts :
  lookup "customTracking" properties = VArray (expectedTracking texts) ->
  sanitizeTracking (VObject properties) = Normal (VArray (expectedTracking texts)).
Proof.
  intros Hk; unfold sanitizeTracking; js_read; rewrite Hk.
  assert (H := expectedTracking_fixed texts).
  rewrite mapM_fixed by (eapply Forall_impl; [|exact H]; intros r [Hr _]; exact Hr).
  cbn [bind].
  rewrite (filterM_pure _ (fun _ => true))
    by (eapply Forall_impl; [|exact H]; intros r [_ Hr]; exact Hr).
  cbn [bind]; do 2 f_equal.
  apply forallb_filter_id, forallb_forall; reflexivity.
Qed.

(** ** Steps *)

Lemma trimmedField_spec step k v :
  jsstring_eqb k "length" = false ->
  trimmedField step k = Normal v -> v = VString (expectedText (property k step)).
Proof.
  intros Hk H; unfold trimmedField in H.
  bind_inv H. apply get_property in E; [subst a | exact Hk].
  bind_inv H. injection H as <-.
  destruct (optional_trim_cases _ _ E) as [[-> [-> | ->]] | (s & -> & ->)];
    reflexivity.
Qed.

Lemma expectedText_trimmed x : trim (expectedText x) = expectedText x.
Proof. destruct x; simpl; try reflexivity; apply trim_trim. Qed.

Lemma sanitizeStep_spec step out :
  sanitizeStep step = Normal out ->
  exists tracking,
    out = expectedStep step tracking
    /\ match property "customTracking" step with
       | VArray rows =>
           Forall2 (fun row pv => rowTexts row = Normal pv) rows tracking
       | _ => tracking = []
       end.
Proof.
  unfold sanitizeStep; intros H.
  do 9 (bind_inv H; apply trimmedField_spec in E; [subst a | reflexivity]).
  bind_inv H. apply get_property in E; [subst a | reflexivity].
  bind_inv H. apply get_property in E; [subst a | reflexivity].
  bind_inv H. apply sanitizeDelay_spec in E.
  bind_inv H. apply sanitizeTracking_spec in E0.
  injection H as <-.
  assert (Hd : a = expectedDelay step)
    by (unfold expectedDelay; destruct (keptDelay step); exact E).
  subst a.
  destruct (property "customTracking" step);
    try (exists []; split; [subst a0; reflexivity | reflexivity]).
  destruct E0 as (texts & Hf & ->).
  exists texts; split; [reflexivity | exact Hf].
Qed.

(** A sanitized delay with a positive value is left alone by a second
    pass. *)
Lemma sanitizeDelay_fixed properties x u tz :
  lookup "delay" properties = delayObject x (VString u) (VString tz) ->
  is_positive x = true -> Math_max (of_Z 0) (Math_round x) = x ->
  In u VALID_UNITS -> trim tz = tz -> tz <> [] ->
  sanitizeDelay (VObject properties)
  = Normal (delayObject x (VString u) (VString tz)).
Proof.
  intros Hk Hx Hr Hu Ht Hn; unfold sanitizeDelay; js_read; rewrite Hk.
  unfold delayObject; cbn [truthy]; js_read.
  rewrite Hx; js_read; cbn [optional_trim bind].
  rewrite Hr, Ht, (normalizeDelayUnit_fixed _ Hu).
  unfold or_else; destruct tz; [congruence | reflexivity].
Qed.

Lemma expectedDelay_fixed step properties :
  delayRoundsToZero step = false ->
  lookup "delay" properties = expectedDelay step ->
  sanitizeDelay (VObject properties) = Normal (expectedDelay step).
Proof.
  unfold delayRoundsToZero, expectedDelay.
  destruct (keptDelay step) as [x|] eqn:K.
  - intros Hz Hk.
    assert (Hx : is_positive x = true).
    { unfold keptDelay in K.
      destruct (truthy _); [|discriminate].
      destruct (property "value" _); try discriminate.
      destruct (is_positive x0) eqn:P; [congruence | discriminate]. }
    destruct (clamp_round_positive x Hx) as (Hm & Hcases).
    destruct (normalizeDelayUnit_valid
                (property "unit" (property "delay" step))) as (u & Hu & Hin).
    destruct (expectedTimezone_trimmed
                (property "timezone" (property "delay" step))) as (Ht & Hn).
    rewrite Hu in *; rewrite Hm in *.
    apply sanitizeDelay_fixed; auto.
    + destruct x as [|[|]|q]; try discriminate; [reflexivity|].
      apply round_from_half, negb_false_iff, Hz.
    + destruct Hcases as [-> | (z & Hz0 & Hz')]; [reflexivity|].
      rewrite Hz', Math_round_integer; apply Math_max_zero_integer, Hz0.
  - intros _ Hk; unfold sanitizeDelay; js_read; rewrite Hk; reflexivity.
Qed.

Lemma expectedStep_fixed step tracking :
  delayRoundsToZero step = false ->
  sanitizeStep (expectedStep step tracking) = Normal (expectedStep step tracking).
Proof.
  intros Hz; unfold expectedStep, stepObject, sanitizeStep, trimmedField.
  js_read; cbn [optional_trim nullish_or bind].
  rewrite !expectedText_trimmed.
  rewrite (expectedDelay_fixed step) by (js_read; auto); cbn [bind].
  rewrite (sanitizeTracking_fixed _ tracking) by (js_read; reflexivity).
  cbn [bind truthy].
  destruct (normalizeStatus_valid (property "status" step)) as (st & -> & Hin).
  rewrite (normalizeStatus_fixed _ Hin); reflexivity.
Qed.

Lemma property_delay_expectedStep step tracking :
  property "delay" (expectedStep step tracking) = expectedDelay step.
Proof. unfold expectedStep, stepObject; js_read; reflexivity. Qed.

Lemma property_tracking_expectedStep step tracking :
  property "customTracking" (expectedStep step tracking)
  = VArray (expectedTracking tracking).
Proof. unfold expectedStep, stepObject; js_read; reflexivity. Qed.

Lemma property_status_expectedStep step tracking :
  property "status" (expectedStep step tracking)
  = normalizeStatus (property "status" step).
Proof. unfold expectedStep, stepObject; js_read; reflexivity. Qed.

(** A delay whose value rounded to zero is dropped by a second pass. *)
Lemma zero_delay_dropped step tracking :
  delayRoundsToZero step = true ->
  sanitizeStep (expectedStep step tracking) <> Normal (expectedStep step tracking).
Proof.
  unfold delayRoundsToZero; intros Hz H.
  destruct (keptDelay step) as [[| |q]|] eqn:K; try discriminate.
  apply negb_true_iff in Hz.
  assert (Hq : is_positive (Finite q) = true).
  { unfold keptDelay in K.
    destruct (truthy _); [|discriminate].
    destruct (property "value" _); try discriminate.
    destruct (is_positive x) eqn:P; [congruence | discriminate]. }
  assert (Hd : expectedDelay step
               = delayObject (of_Z 0)
                   (normalizeDelayUnit (property "unit" (property "delay" step)))
                   (VString (expectedTimezone
                               (property "timezone" (property "delay" step))))).
  { unfold expectedDelay; rewrite K, (round_below_half q Hq Hz); reflexivity. }
  destruct (sanitizeStep_spec _ _ H) as (tracking' & Hout & _).
  apply (f_equal (property "delay")) in Hout.
  rewrite !property_delay_expectedStep in Hout.
  unfold expectedDelay at 2 in Hout; unfold keptDelay in Hout.
  rewrite property_delay_expectedStep, Hd in Hout.
  discriminate Hout.
Qed.

(** ** Payloads *)

Lemma sanitizePayload_spec payload out :
  sanitizePayload payload = Normal out ->
  exists rawSteps steps flowName id,
    property "steps" payload = VArray rawSteps
    /\ property "flowName" payload = VString flowName
    /\ property "id" (property "trigger" payload) = VString id
    /\ Forall2 (fun step s => sanitizeStep step = Normal s) rawSteps steps
    /\ out = payloadObject (trim flowName)
               (property "type" (property "trigger" payload)) (trim id) steps.
Proof.
  unfold sanitizePayload; intros H.
  bind_inv H. apply get_property in E; [subst a | reflexivity].
  bind_inv H. unfold Array_map in E.
  destruct (property "steps" payload) as [| | | | |rawSteps|] eqn:Hs;
    try discriminate.
  bind_inv E. injection E as <-. apply mapM_Normal in E0.
  bind_inv H. apply get_property in E; [subst a | reflexivity].
  bind_inv H.
  destruct (property "flowName" payload) as [| | | |flowName| |] eqn:Hn;
    try discriminate.
  injection E as <-.
  bind_inv H. apply get_property in E; [subst a | reflexivity].
  bind_inv H. apply get_property in E; [subst a | reflexivity].
  bind_inv H. apply get_property in E; [subst a | reflexivity].
  bind_inv H.
  destruct (property "id" (property "trigger" payload)) as [| | | |id| |] eqn:Hi;
    try discriminate.
  injection E as <-. injection H as <-.
  exists rawSteps, a0, flowName, id; auto.
Qed.

Lemma payloadObject_fixed flowName type id steps :
  trim flowName = flowName -> trim id = id ->
  Forall (fun s => sanitizeStep s = Normal s) steps ->
  sanitizePayload (payloadObject flowName type id steps)
  = Normal (payloadObject flowName type id steps).
Proof.
  intros Hn Hi Hs; unfold sanitizePayload, payloadObject; js_read.
  unfold Array_map; rewrite (mapM_fixed _ _ Hs); js_read.
  cbn [call_trim bind]; js_read; cbn [call_trim bind].
  rewrite Hn, Hi; reflexivity.
Qed.

End Sanitizing.

(** ** Validation *)

Lemma findIndex_from_first steps i s k :
  Forall (fun s => invalidStep s = Normal (isInvalid s)) steps ->
  nth_error steps i = Some s -> isInvalid s = true ->
  (forall j s', (j < i)%nat -> nth_error steps j = Some s' -> isInvalid s' = false) ->
  findIndex_from invalidStep steps k = Normal (k + Z.of_nat i)%Z.
Proof.
  intros Hall; revert i k; induction Hall as [|s0 steps H0 _ IH];
    intros i k Hi Hs Hbefore.
  - destruct i; discriminate.
  - simpl; rewrite H0; cbn [bind].
    destruct i as [|i].
    + injection Hi as ->; rewrite Hs; f_equal; lia.
    + rewrite (Hbefore 0%nat s0) by (simpl; auto; lia).
      rewrite (IH i (k + 1)%Z Hi Hs).
      * f_equal; lia.
      * intros j s' Hj Hn; apply (Hbefore (S j)); [lia | exact Hn].
Qed.

(** Validation of a payload of the sanitized shape, check by check. *)
Lemma validatePayload_payloadObject flowName type id steps :
  validatePayload (payloadObject flowName type id steps)
  = match headerViolation (payloadObject flowName type id steps) with
    | Some message => Normal (VString message)
    | None =>
        match steps with
        | [] => Normal (VString "At least one email step is required.")
        | _ :: _ =>
            invalidStepIndex <- findIndex_from invalidStep steps 0%Z ;;
            if negb (invalidStepIndex =? -1)%Z
            then Normal (VString (stepMessage (invalidStepIndex + 1)))
            else Normal VNull
        end
    end.
Proof.
  unfold validatePayload, headerViolation, payloadObject; js_read.
  cbn [truthy].
  destruct (negb (negb (is_empty flowName))); [reflexivity|].
  js_read.
  destruct (negb (includes _ type)); [reflexivity|].
  js_read; cbn [truthy].
  destruct (negb (negb (is_empty id))); [reflexivity|].
  js_read.
  destruct steps; reflexivity.
Qed.

(** ** The handler *)

Lemma get_non_nullish v k :
  is_nullish v = false -> jsstring_eqb k "length" = false ->
  get v k = Normal (property k v).
Proof. intros Hv Hk; destruct v; simpl in *; rewrite ?Hk; congruence. Qed.

Section HandlerProperties.

Context {format : NumberFormat}.
Variable buildFlowDefinition : value -> attempt value.

Lemma sanitizePayload_needs_shape body :
  topLevelShape body = false -> sanitizePayload body = TypeError.
Proof.
  unfold topLevelShape, sanitizePayload; intros H.
  destruct (is_nullish body) eqn:Hb; [destruct body; try discriminate; reflexivity|].
  rewrite (get_non_nullish body "steps" Hb eq_refl); cbn [bind].
  destruct (property "steps" body) as [| | | | |rawSteps|] eqn:Hs; try reflexivity.
  unfold Array_map; destruct (mapM sanitizeStep rawSteps); [|reflexivity].
  cbn [bind].
  rewrite (get_non_nullish body "flowName" Hb eq_refl); cbn [bind].
  destruct (property "flowName" body) as [| | | |flowName| |] eqn:Hn; try reflexivity.
  cbn [call_trim bind].
  rewrite (get_non_nullish body "trigger" Hb eq_refl); cbn [bind].
  destruct (is_nullish (property "trigger" body)) eqn:Ht;
    [destruct (property "trigger" body); try discriminate; reflexivity|].
  rewrite (get_non_nullish _ "type" Ht eq_refl); cbn [bind].
  rewrite (get_non_nullish _ "id" Ht eq_refl); cbn [bind].
  destruct (property "id" (property "trigger" body)); try reflexivity.
  discriminate.
Qed.

Lemma sanitizePayload_no_steps body :
  topLevelShape body = true -> property "steps" body = VArray [] ->
  exists flowName id,
    sanitizePayload body
    = Normal (payloadObject flowName
                (property "type" (property "trigger" body)) id []).
Proof.
  unfold topLevelShape, sanitizePayload; intros H Hs.
  repeat (apply andb_true_iff in H; destruct H as [H ?]).
  apply negb_true_iff in H. apply negb_true_iff in H1.
  rewrite (get_non_nullish body "steps" H eq_refl), Hs; cbn [bind Array_map mapM].
  rewrite (get_non_nullish body "flowName" H eq_refl); cbn [bind].
  destruct (property "flowName" body) as [| | | |flowName| |]; try discriminate.
  cbn [call_trim bind].
  rewrite (get_non_nullish body "trigger" H eq_refl); cbn [bind].
  rewrite (get_non_nullish _ "type" H1 eq_refl); cbn [bind].
  rewrite (get_non_nullish _ "id" H1 eq_refl); cbn [bind].
  destruct (property "id" (property "trigger" body)) as [| | | |id| |];
    try discriminate.
  exists (trim flowName), (trim id); reflexivity.
Qed.

Lemma POST_not_configured w :
  configured w = false ->
  POST buildFlowDefinition w
  = ([], Normal (NextResponse_json
                   (errorBody "KLAVIYO_API_KEY is not configured on the server.")
                   500)).
Proof.
  unfold configured, POST; destruct (KLAVIYO_API_KEY w) as [[|c k]|];
    [reflexivity | discriminate | reflexivity].
Qed.

Lemma POST_unparsed w error :
  configured w = true -> request_json w = Threw error ->
  POST buildFlowDefinition w
  = ([RequestJson],
     Normal (NextResponse_json
               (VObject [(lit "error", VString "Invalid JSON payload.");
                         (lit "details",
                          message_or error (VString "Unable to parse request."))])
               400)).
Proof.
  unfold configured, POST; destruct (KLAVIYO_API_KEY w) as [[|c k]|];
    try discriminate.
  intros _ ->; reflexivity.
Qed.

Lemma POST_escapes w body :
  configured w = true -> request_json w = Returned body ->
  sanitizePayload body = TypeError ->
  POST buildFlowDefinition w = ([RequestJson], TypeError).
Proof.
  unfold configured, POST; destruct (KLAVIYO_API_KEY w) as [[|c k]|];
    try discriminate.
  intros _ -> ->; reflexivity.
Qed.

Lemma POST_rejects w body sanitized message :
  configured w = true -> request_json w = Returned body ->
  sanitizePayload body = Normal sanitized ->
  validatePayload sanitized = Normal (VString message) -> message <> [] ->
  POST buildFlowDefinition w
  = ([RequestJson], Normal (NextResponse_json (errorBody message) 400)).
Proof.
  unfold configured, POST; destruct (KLAVIYO_API_KEY w) as [[|c k]|];
    try discriminate.
  intros _ -> -> -> Hm.
  destruct message; [congruence | reflexivity].
Qed.

Lemma POST_calls w apiKey body flowName type id steps definition :
  KLAVIYO_API_KEY w = Some apiKey -> apiKey <> [] ->
  request_json w = Returned body ->
  sanitizePayload body = Normal (payloadObject flowName type id steps) ->
  validatePayload (payloadObject flowName type id steps) = Normal VNull ->
  buildFlowDefinition (payloadObject flowName type id steps) = Returned definition ->
  let klaviyoPayload :=
    VObject
      [(lit "data",
        VObject
          [(lit "type", VString "flow");
           (lit "attributes",
            VObject [(lit "name", VString flowName);
                     (lit "definition", definition)])])] in
  POST buildFlowDefinition w
  = (RequestJson :: fst (callKlaviyo w apiKey klaviyoPayload),
     Normal (snd (callKlaviyo w apiKey klaviyoPayload))).
Proof.
  intros Hk Hn Hb Hs Hv Hd; unfold POST.
  rewrite Hk, Hb, Hs, Hv, Hd.
  destruct apiKey; [congruence|].
  cbn [truthy]; reflexivity.
Qed.

End HandlerProperties.

(** * The claims of the specification *)

(** ** Normalization *)

Lemma no_zero_delay_steps rawSteps :
  existsb delayRoundsToZero rawSteps = false ->
  Forall (fun step => delayRoundsToZero step = false) rawSteps.
Proof.
  induction rawSteps as [|step rawSteps IH]; simpl; [constructor|].
  intros H; apply orb_false_iff in H; destruct H; constructor; auto.
Qed.

Lemma Forall2_same {A} (R : A -> A -> Prop) (l : list A) :
  Forall2 R l l -> Forall (fun a => R a a) l.
Proof.
  induction l as [|a l IH]; intros H; [constructor|].
  inversion H; subst; constructor; auto.
Qed.

Lemma Forall2_image {A B} (R : A -> B -> Prop) l l' a :
  Forall2 R l l' -> In a l -> exists b, In b l' /\ R a b.
Proof.
  induction 1 as [|x y l l' Hxy _ IH]; intros Hin; [destruct Hin|].
  destruct Hin as [-> | Hin]; [exists y; simpl; auto|].
  destruct (IH Hin) as (b & Hb & HR); exists b; simpl; auto.
Qed.

(** Claim C1, as the code has it: sanitizing is idempotent exactly on the
    payloads in which no step has a delay whose value rounds to zero, that
    is, a number above 0 and below one half. For every payload the handler
    can sanitize, the result of [sanitizePayload] is a fixed point of
    [sanitizePayload] if and only if the payload has no such delay. *)
Theorem sanitizePayload_idempotent {format : NumberFormat} payload sanitized :
  sanitizePayload payload = Normal sanitized ->
  (sanitizePayload sanitized = Normal sanitized
   <-> someDelayRoundsToZero payload = false).
Proof.
  intros H.
  destruct (sanitizePayload_spec _ _ H)
    as (rawSteps & steps & flowName & id & Hs & _ & _ & Hall & ->).
  unfold someDelayRoundsToZero; rewrite Hs; split.
  - intros H2.
    destruct (existsb delayRoundsToZero rawSteps) eqn:Hz; [exfalso|reflexivity].
    apply existsb_exists in Hz; destruct Hz as (raw & Hin & Hz).
    destruct (Forall2_image _ _ _ _ Hall Hin) as (step & Hstep & Hraw).
    destruct (sanitizeStep_spec _ _ Hraw) as (tracking & -> & _).
    destruct (sanitizePayload_spec _ _ H2)
      as (steps1 & steps2 & flowName' & id' & Hs1 & _ & _ & Hall' & Heq).
    unfold payloadObject in Hs1, Heq.
    rewrite property_object, !lookup_next, lookup_here in Hs1 by reflexivity.
    injection Hs1 as <-. injection Heq as _ _ <-.
    apply Forall2_same in Hall'.
    rewrite Forall_forall in Hall'.
    exact (zero_delay_dropped raw tracking Hz (Hall' _ Hstep)).
  - intros Hz; apply no_zero_delay_steps in Hz.
    apply payloadObject_fixed; try apply trim_trim.
    clear Hs H; induction Hall as [|step s rawSteps steps Hstep _ IH];
      [constructor|].
    inversion Hz; subst.
    constructor; [|apply IH; assumption].
    destruct (sanitizeStep_spec _ _ Hstep) as (tracking & -> & _).
    apply expectedStep_fixed; assumption.
Qed.

(** The scenario with a delay of one and a half days: the delay is rounded
    to two days, and a second pass changes nothing. *)
Lemma sanitizePayload_idempotent_witness :
  exists sanitized,
    sanitizePayload (format := integer_format) (delayedFlow (Finite (3 # 2)))
    = Normal sanitized
    /\ someDelayRoundsToZero (delayedFlow (Finite (3 # 2))) = false
    /\ delaysOf sanitized
       = [delayObject (of_Z 2) (VString "days") (VString "profile")]
    /\ sanitizePayload (format := integer_format) sanitized = Normal sanitized.
Proof.
  eexists; split; [vm_compute; reflexivity|].
  split; [vm_compute; reflexivity|].
  split; [vm_compute; reflexivity|].
  apply (sanitizePayload_idempotent (delayedFlow (Finite (3 # 2))));
    vm_compute; reflexivity.
Defined.

(** Claim C1 as stated fails. A delay of a quarter of a day passes the test
    [value > 0] and is then rounded to zero; the sanitized payload carries a
    delay of zero days, which a second pass drops. *)
Lemma sanitizePayload_not_idempotent :
  exists once twice,
    sanitizePayload (format := integer_format) (delayedFlow (Finite (1 # 4)))
    = Normal once
    /\ sanitizePayload (format := integer_format) once = Normal twice
    /\ delaysOf once = [delayObject (of_Z 0) (VString "days") (VString "profile")]
    /\ delaysOf twice = [VNull]
    /\ once <> twice.
Proof.
  eexists; eexists.
  split; [vm_compute; reflexivity|].
  split; [vm_compute; reflexivity|].
  split; [vm_compute; reflexivity|].
  split; [vm_compute; reflexivity|].
  discriminate.
Qed.

Lemma keptDelay_Some step x :
  keptDelay step = Some x <->
  property "value" (property "delay" step) = VNumber x /\ is_positive x = true.
Proof.
  unfold keptDelay; split.
  - destruct (truthy (property "delay" step)); [|discriminate].
    destruct (property "value" (property "delay" step)); try discriminate.
    destruct (is_positive x0) eqn:P; [|discriminate].
    intros H; injection H as ->; auto.
  - intros [Hv Hx].
    assert (Ht : truthy (property "delay" step) = true)
      by (destruct (property "delay" step); try discriminate; reflexivity).
    rewrite Ht, Hv, Hx; reflexivity.
Qed.

(** Claim C3, as the code has it. For every step the handler can sanitize:
    the sanitized delay is null whenever the delay is absent, its value is
    not a number, or its value is not above zero; a delay is kept only when
    its value is a number above zero; and a kept delay has the value
    [Math.max(0, Math.round(value))], which for a finite value is the
    nearest non-negative integer (a tie going up), the normalized unit, and
    the trimmed timezone, or "profile" when the timezone is missing or
    blank. *)
Theorem sanitized_delay {format : NumberFormat} step out :
  sanitizeStep step = Normal out ->
  let delay := property "delay" step in
  ((delay = VUndefined \/ delay = VNull
    \/ typeof_number (property "value" delay) = false
    \/ (exists x, property "value" delay = VNumber x /\ is_positive x = false)) ->
   property "delay" out = VNull)
  /\ (property "delay" out <> VNull ->
      exists x, property "value" delay = VNumber x /\ is_positive x = true)
  /\ (forall x,
        property "value" delay = VNumber x -> is_positive x = true ->
        property "delay" out
        = delayObject (Math_max (of_Z 0) (Math_round x))
            (normalizeDelayUnit (property "unit" delay))
            (VString (expectedTimezone (property "timezone" delay)))
        /\ forall q, x = Finite q ->
             exists z, Math_max (of_Z 0) (Math_round x) = of_Z z
                       /\ (0 <= z)%Z
                       /\ q - (1 # 2) < inject_Z z /\ inject_Z z <= q + (1 # 2)).
Proof.
  intros H delay.
  destruct (sanitizeStep_spec _ _ H) as (tracking & -> & _).
  rewrite property_delay_expectedStep; unfold expectedDelay.
  repeat split.
  - intros Hnull.
    destruct (keptDelay step) as [x|] eqn:K; [|reflexivity].
    apply keptDelay_Some in K; destruct K as [Hv Hx]; fold delay in Hv.
    destruct Hnull as [Hd | [Hd | [Hd | (y & Hy & Hp)]]].
    + rewrite Hd in Hv; discriminate.
    + rewrite Hd in Hv; discriminate.
    + rewrite Hv in Hd; discriminate.
    + rewrite Hv in Hy; injection Hy as <-; congruence.
  - intros Hkept.
    destruct (keptDelay step) as [x|] eqn:K; [|congruence].
    apply keptDelay_Some in K; eauto.
  - assert (K : keptDelay step = Some x) by (apply keptDelay_Some; auto).
    rewrite K; reflexivity.
  - intros q ->.
    destruct (round_positive q H1) as (z & Hr & Hz & Hlo & Hhi).
    exists z; rewrite Hr; repeat split; auto.
    apply Math_max_zero_integer, Hz.
Qed.

(** A step whose delay is one and a half days in a blank timezone. *)
Lemma sanitized_delay_witness :
  let step :=
    hiStep [(lit "delay",
             VObject [(lit "value", VNumber (Finite (3 # 2)));
                      (lit "unit", VString "weeks");
                      (lit "timezone", VString "  ")])] in
  exists out,
    sanitizeStep (format := integer_format) step = Normal out
    /\ property "delay" out
       = delayObject (of_Z 2) (VString "days") (VString "profile").
Proof.
  intros step; eexists; split; [vm_compute; reflexivity|].
  match goal with
  | |- property _ ?out = _ =>
      assert (H : sanitizeStep (format := integer_format) step = Normal out)
        by (vm_compute; reflexivity)
  end.
  destruct (sanitized_delay step _ H) as (_ & _ & Hkept).
  destruct (Hkept (Finite (3 # 2)) eq_refl eq_refl) as [-> _].
  vm_compute; reflexivity.
Defined.

(** Claim C3 as stated fails on an infinite value, which is what the JSON
    literal [1e999] parses to: it is a number above zero, [Math.round]
    leaves it as it is, and the kept delay has the value [Infinity], not an
    integer. *)
Lemma infinite_delay_not_rounded :
  exists out,
    sanitizeStep (format := integer_format)
      (hiStep [(lit "delay", VObject [(lit "value", VNumber (Infinity false))])])
    = Normal out
    /\ property "delay" out
       = delayObject (Infinity false) (VString "days") (VString "profile")
    /\ forall z, Infinity false <> of_Z z.
Proof.
  eexists; split; [vm_compute; reflexivity|].
  split; [vm_compute; reflexivity | discriminate].
Qed.

(** Claim C4. For every step the handler can sanitize: when
    [customTracking] is an array, the sanitized rows are, in order, the rows
    both of whose texts are non-empty after trimming, each with its trimmed
    texts; a row is among them if and only if it comes from an input row
    whose param and value are both non-empty after trimming. When
    [customTracking] is not an array the result is the empty array. The
    texts of a row are its param and value as strings ([rowTexts]): the
    string itself for a string, the empty string for a missing one. *)
Theorem sanitized_tracking {format : NumberFormat} step out :
  sanitizeStep step = Normal out ->
  match property "customTracking" step with
  | VArray rows =>
      exists texts,
        Forall2 (fun row t => rowTexts row = Normal t) rows texts
        /\ property "customTracking" out
           = VArray (map trimmedTrack (filter survives texts))
        /\ forall r,
             In r (map trimmedTrack (filter survives texts)) <->
             exists t, In t texts
                       /\ trim (fst t) <> [] /\ trim (snd t) <> []
                       /\ r = trackObject (trim (fst t)) (trim (snd t))
  | _ => property "customTracking" out = VArray []
  end.
Proof.
  intros H.
  destruct (sanitizeStep_spec _ _ H) as (tracking & -> & Ht).
  rewrite property_tracking_expectedStep.
  destruct (property "customTracking" step); try (subst tracking; reflexivity).
  exists tracking; split; [exact Ht|]; split; [reflexivity|].
  intros r; rewrite in_map_iff; split.
  - intros (t & <- & Hin); apply filter_In in Hin; destruct Hin as [Hin Hs].
    unfold survives in Hs; apply andb_true_iff in Hs; destruct Hs as [Hp Hv].
    exists t; repeat split; auto.
    + intros E; rewrite E in Hp; discriminate.
    + intros E; rewrite E in Hv; discriminate.
  - intros (t & Hin & Hp & Hv & ->); exists t; split; [reflexivity|].
    apply filter_In; split; [exact Hin|].
    unfold survives; destruct (trim (fst t)), (trim (snd t)); simpl; congruence.
Qed.

(** A step with four rows: one kept, one with a blank param, one with a
    missing value, and one padded with white space. *)
Lemma sanitized_tracking_witness :
  let row p v := VObject [(lit "param", VString p); (lit "value", VString v)] in
  let step :=
    hiStep [(lit "customTracking",
             VArray [row (lit "utm_source") (lit "klaviyo");
                     row (lit "  ") (lit "x");
                     VObject [(lit "param", VString "utm_medium")];
                     row (lit " utm_campaign ") (lit " welcome ")])] in
  exists out,
    sanitizeStep (format := integer_format) step = Normal out
    /\ property "customTracking" out
       = VArray [trackObject "utm_source" "klaviyo";
                 trackObject "utm_campaign" "welcome"].
Proof.
  intros row step; eexists; split; [vm_compute; reflexivity|].
  match goal with
  | |- property _ ?out = _ =>
      assert (H : sanitizeStep (format := integer_format) step = Normal out)
        by (vm_compute; reflexivity)
  end.
  assert (Hspec := sanitized_tracking step _ H).
  assert (Hrows : property "customTracking" step
                  = VArray [row (lit "utm_source") (lit "klaviyo");
                            row (lit "  ") (lit "x");
                            VObject [(lit "param", VString "utm_medium")];
                            row (lit " utm_campaign ") (lit " welcome ")])
    by reflexivity.
  rewrite Hrows in Hspec; destruct Hspec as (texts & Hf & -> & _).
  repeat match goal with
         | F : Forall2 _ _ _ |- _ => inversion F; subst; clear F
         end.
  repeat match goal with
         | T : rowTexts _ = Normal _ |- _ =>
             vm_compute in T; injection T as <-
         end.
  vm_compute; reflexivity.
Defined.

Lemma stepsOf_payloadObject flowName type id steps :
  stepsOf (payloadObject flowName type id steps) = steps.
Proof. unfold stepsOf, payloadObject; js_read; reflexivity. Qed.

(** Claim C10. Step by step, the status of a sanitized step is the status
    of the step of the request when that is one of the four valid strings,
    and "draft" when it is anything else (an unknown string, a missing
    status, something that is not a string); the unit of a delay that is
    kept is the unit of the delay of the request when that is one of the
    three valid strings, and "days" when it is anything else. So every step
    of a sanitized payload has a valid status, and its delay is null or has
    a valid unit. The two functions that do this, [normalizeStatus] and
    [normalizeDelayUnit], keep a valid string and give the default for
    anything else. *)
Theorem status_and_unit_normalized {format : NumberFormat} payload sanitized :
  sanitizePayload payload = Normal sanitized ->
  let statuses := [lit "draft"; lit "live"; lit "manual"; lit "disabled"] in
  let units := [lit "minutes"; lit "hours"; lit "days"] in
  Forall2
    (fun step out =>
       (forall s, In s statuses -> property "status" step = VString s ->
                  property "status" out = VString s)
       /\ ((forall s, In s statuses -> property "status" step <> VString s) ->
           property "status" out = VString "draft")
       /\ (property "delay" out <> VNull ->
           (forall u, In u units ->
              property "unit" (property "delay" step) = VString u ->
              property "unit" (property "delay" out) = VString u)
           /\ ((forall u, In u units ->
                  property "unit" (property "delay" step) <> VString u) ->
               property "unit" (property "delay" out) = VString "days"))
       /\ (exists s, property "status" out = VString s /\ In s statuses)
       /\ (property "delay" out = VNull
           \/ exists u, property "unit" (property "delay" out) = VString u
                        /\ In u units))
    (stepsOf payload) (stepsOf sanitized)
  /\ (forall status,
        (forall s, In s statuses -> status <> VString s) ->
        normalizeStatus status = VString "draft")
  /\ (forall s, In s statuses -> normalizeStatus (VString s) = VString s)
  /\ (forall unit,
        (forall u, In u units -> unit <> VString u) ->
        normalizeDelayUnit unit = VString "days")
  /\ (forall u, In u units -> normalizeDelayUnit (VString u) = VString u).
Proof.
  intros H statuses units.
  assert (Hstatus : forall status,
            (forall s, In s statuses -> status <> VString s) ->
            normalizeStatus status = VString "draft").
  { intros status Hs; unfold normalizeStatus.
    destruct (includes VALID_STATUSES status) eqn:E; [|reflexivity].
    apply includes_In in E; destruct E as (s & -> & Hin).
    destruct (Hs s Hin eq_refl). }
  assert (Hunit : forall unit,
            (forall u, In u units -> unit <> VString u) ->
            normalizeDelayUnit unit = VString "days").
  { intros unit Hu; unfold normalizeDelayUnit.
    destruct (includes VALID_UNITS unit) eqn:E; [|reflexivity].
    apply includes_In in E; destruct E as (u & -> & Hin).
    destruct (Hu u Hin eq_refl). }
  split;
    [|split; [exact Hstatus|]; split; [exact normalizeStatus_fixed|];
      split; [exact Hunit | exact normalizeDelayUnit_fixed]].
  destruct (sanitizePayload_spec _ _ H)
    as (rawSteps & steps & flowName & id & Hsteps & _ & _ & Hall & ->).
  rewrite stepsOf_payloadObject; unfold stepsOf; rewrite Hsteps.
  clear H Hsteps; induction Hall as [|raw step rawSteps steps Hstep _ IH];
    [constructor | constructor; [|exact IH]].
  destruct (sanitizeStep_spec _ _ Hstep) as (tracking & -> & _).
  rewrite property_status_expectedStep, property_delay_expectedStep.
  assert (Hdelay : expectedDelay raw <> VNull ->
            property "unit" (expectedDelay raw)
            = normalizeDelayUnit (property "unit" (property "delay" raw))).
  { unfold expectedDelay; destruct (keptDelay raw); [|congruence].
    intros _; unfold delayObject; js_read; reflexivity. }
  split; [|split; [|split; [|split]]].
  - intros s Hin ->; apply normalizeStatus_fixed, Hin.
  - apply Hstatus.
  - intros Hkept; rewrite (Hdelay Hkept); split.
    + intros u Hin ->; apply normalizeDelayUnit_fixed, Hin.
    + apply Hunit.
  - apply normalizeStatus_valid.
  - destruct (keptDelay raw) eqn:K;
      [right | left; unfold expectedDelay; rewrite K; reflexivity].
    assert (Hkept : expectedDelay raw <> VNull)
      by (unfold expectedDelay; rewrite K; discriminate).
    rewrite (Hdelay Hkept).
    destruct (normalizeDelayUnit_valid (property "unit" (property "delay" raw)))
      as (u & Hu & Hin).
    exists u; split; [exact Hu | exact Hin].
Qed.

(** A flow of two steps: the first has the status "paused", which is
    unknown, and a delay of two weeks; the second has the status "live" and
    a delay of three hours. *)
Lemma status_and_unit_normalized_witness :
  let delay value unit :=
    VObject [(lit "value", VNumber (of_Z value)); (lit "unit", VString unit)] in
  let payload :=
    welcomeFlow
      (VArray
         [hiStep [(lit "status", VString "paused");
                  (lit "delay", delay 2%Z (lit "weeks"))];
          hiStep [(lit "status", VString "live");
                  (lit "delay", delay 3%Z (lit "hours"))]]) in
  exists sanitized,
    sanitizePayload (format := integer_format) payload = Normal sanitized
    /\ map (property "status") (stepsOf sanitized)
       = [VString "draft"; VString "live"]
    /\ map (fun out => property "unit" (property "delay" out)) (stepsOf sanitized)
       = [VString "days"; VString "hours"].
Proof.
  intros delay payload; eexists; split; [vm_compute; reflexivity|].
  match goal with
  | |- map _ (stepsOf ?q) = _ /\ _ =>
      destruct (status_and_unit_normalized (format := integer_format)
                  payload q eq_refl) as (Hsteps & _);
      remember (stepsOf q) as outs eqn:Houts
  end.
  change (stepsOf payload)
    with [hiStep [(lit "status", VString "paused");
                  (lit "delay", delay 2%Z (lit "weeks"))];
          hiStep [(lit "status", VString "live");
                  (lit "delay", delay 3%Z (lit "hours"))]] in Hsteps.
  inversion Hsteps as [|first out1 rest outs1 P1 Hrest Ea Eb].
  subst first rest.
  inversion Hrest as [|second out2 rest outs2 P2 Hnil Ec Ed].
  subst second rest.
  inversion Hnil as [En Em|].
  rewrite <- Eb, <- Ed, <- Em in Houts.
  vm_compute in Houts; injection Houts as E1 E2.
  clear Hsteps Hrest Hnil Eb Ed Em.
  destruct P1 as (_ & Hdraft & Hunit1 & _).
  destruct P2 as (Hkeep & _ & Hunit2 & _).
  assert (K1 : property "delay" out1 <> VNull) by (rewrite E1; discriminate).
  assert (K2 : property "delay" out2 <> VNull) by (rewrite E2; discriminate).
  clear E1 E2; cbn [map]; split; f_equal; [|f_equal| |f_equal].
  - apply Hdraft; intros s [<- | [<- | [<- | [<- | []]]]]; discriminate.
  - apply (Hkeep (lit "live")); [simpl; auto | reflexivity].
  - apply (proj2 (Hunit1 K1)).
    intros u [<- | [<- | [<- | []]]]; discriminate.
  - apply (proj1 (Hunit2 K2) (lit "hours")); [simpl; auto | reflexivity].
Defined.

(** ** Validation *)

Lemma sanitized_steps_are_objects {format : NumberFormat} rawSteps steps :
  Forall2 (fun step s => sanitizeStep step = Normal s) rawSteps steps ->
  Forall (fun s => invalidStep s = Normal (isInvalid s)) steps.
Proof.
  induction 1 as [|raw s rawSteps steps Hs _ IH]; constructor; auto.
  destruct (sanitizeStep_spec _ _ Hs) as (tracking & -> & _).
  reflexivity.
Qed.

(** Claim C5. For every sanitized payload with an
    invalid step (one whose subject line, from email or from name is empty),
    validation returns a single message, that of the first check that
    fails. The checks of the flow name and of the trigger come first; when
    they pass, the message is "Step n is missing subject, from name, or from
    email." where n is the 1-based position of the first invalid step. *)
Theorem validatePayload_first_invalid_step {format : NumberFormat}
  payload sanitized i step :
  sanitizePayload payload = Normal sanitized ->
  nth_error (stepsOf sanitized) i = Some step ->
  isInvalid step = true ->
  (forall j earlier, (j < i)%nat ->
     nth_error (stepsOf sanitized) j = Some earlier -> isInvalid earlier = false) ->
  validatePayload sanitized
  = Normal (VString
      match headerViolation sanitized with
      | Some message => message
      | None =>
          lit "Step " ++ decimal (N.of_nat (i + 1))
          ++ lit " is missing subject, from name, or from email."
      end).
Proof.
  intros H Hi Hinv Hbefore.
  destruct (sanitizePayload_spec _ _ H)
    as (rawSteps & steps & flowName & id & _ & _ & _ & Hall & ->).
  rewrite stepsOf_payloadObject in *.
  rewrite validatePayload_payloadObject.
  destruct (headerViolation _); [reflexivity|].
  destruct steps as [|s0 steps]; [destruct i; discriminate|].
  rewrite (findIndex_from_first _ i step 0%Z
             (sanitized_steps_are_objects _ _ Hall) Hi Hinv Hbefore).
  cbn [bind].
  destruct (Z.eqb_spec (0 + Z.of_nat i) (-1)); [lia|].
  cbn [negb]; unfold stepMessage.
  replace (Z.to_N (0 + Z.of_nat i + 1)) with (N.of_nat (i + 1)) by lia.
  reflexivity.
Qed.

(** The scenario with three steps of which the second and the third lack a
    from name: the message names step 2. *)
Lemma validatePayload_first_invalid_step_witness :
  let nameless := VObject [(lit "subjectLine", VString "Hi");
                           (lit "fromEmail", VString "a@b.com");
                           (lit "fromName", VString "   ")] in
  exists sanitized step,
    sanitizePayload (format := integer_format)
      (welcomeFlow (VArray [hiStep []; nameless; nameless])) = Normal sanitized
    /\ nth_error (stepsOf sanitized) 1 = Some step
    /\ isInvalid step = true
    /\ validatePayload sanitized
       = Normal (VString "Step 2 is missing subject, from name, or from email.").
Proof.
  intros nameless; eexists; eexists.
  split; [vm_compute; reflexivity|].
  split; [vm_compute; reflexivity|].
  split; [vm_compute; reflexivity|].
  match goal with
  | |- validatePayload ?q = _ =>
      rewrite (validatePayload_first_invalid_step
                 (format := integer_format)
                 (welcomeFlow (VArray [hiStep []; nameless; nameless]))
                 q 1
                 (expectedStep nameless []))
  end.
  - vm_compute; reflexivity.
  - vm_compute; reflexivity.
  - vm_compute; reflexivity.
  - vm_compute; reflexivity.
  - intros [|j] earlier Hj; [|lia].
    intros E; vm_compute in E; injection E as <-; vm_compute; reflexivity.
Defined.

Lemma headerViolation_nonempty payload message :
  headerViolation payload = Some message -> message <> [].
Proof.
  unfold headerViolation.
  repeat match goal with |- context [if ?b then _ else _] => destruct b end;
    intros H; try discriminate; injection H as <-; discriminate.
Qed.

(** ** The handler *)

Section Responses.

Context {format : NumberFormat}.
Variable buildFlowDefinition : value -> attempt value.

(** Claim C6, as the code has it. Every request of the FlowRequest shape
    with zero steps is rejected: validation returns a message, and the
    handler answers 400 with that message after reading the body and
    nothing else, so no call to the provider is made. The message is "At
    least one email step is required." whenever the flow name and the
    trigger pass their checks, which come first; otherwise it is the message
    of the first of those checks that fails. *)
Theorem zero_steps_rejected w body :
  configured w = true ->
  request_json w = Returned body ->
  topLevelShape body = true ->
  property "steps" body = VArray [] ->
  exists sanitized message,
    sanitizePayload body = Normal sanitized
    /\ validatePayload sanitized = Normal (VString message)
    /\ message = match headerViolation sanitized with
                 | Some violation => violation
                 | None => lit "At least one email step is required."
                 end
    /\ POST buildFlowDefinition w
       = ([RequestJson], Normal (NextResponse_json (errorBody message) 400)).
Proof.
  intros Hc Hb Hshape Hsteps.
  destruct (sanitizePayload_no_steps body Hshape Hsteps) as (flowName & id & Hs).
  eexists; eexists; split; [exact Hs|].
  rewrite validatePayload_payloadObject.
  split; [|split; [reflexivity|]].
  - destruct (headerViolation _); reflexivity.
  - apply (POST_rejects _ w body _ _ Hc Hb Hs).
    + rewrite validatePayload_payloadObject.
      destruct (headerViolation _); reflexivity.
    + destruct (headerViolation _) eqn:E;
        [eapply headerViolation_nonempty; exact E | discriminate].
Qed.

End Responses.

(** The scenario with no steps. *)
Lemma zero_steps_rejected_witness :
  let w := worldOf (welcomeFlow (VArray [])) (Threw (NonError VNull)) in
  configured w = true
  /\ topLevelShape (welcomeFlow (VArray [])) = true
  /\ POST (format := integer_format) stepsAsDefinition w
     = ([RequestJson],
        Normal (NextResponse_json
                  (errorBody "At least one email step is required.") 400)).
Proof.
  intros w; split; [reflexivity|]; split; [reflexivity|].
  destruct (zero_steps_rejected (format := integer_format) stepsAsDefinition w
              (welcomeFlow (VArray [])) eq_refl eq_refl eq_refl eq_refl)
    as (sanitized & message & Hs & _ & Hm & ->).
  vm_compute in Hs; injection Hs as <-.
  vm_compute in Hm; subst message; reflexivity.
Defined.

(** Claim C6 as stated fails when another field is invalid: with zero
    steps and a blank flow name, the message is about the flow name. *)
Lemma zero_steps_behind_flow_name :
  let body :=
    VObject
      [(lit "flowName", VString "  ");
       (lit "trigger",
        VObject [(lit "type", VString "list"); (lit "id", VString "ABC")]);
       (lit "steps", VArray [])] in
  POST (format := integer_format) stepsAsDefinition
    (worldOf body (Threw (NonError VNull)))
  = ([RequestJson],
     Normal {| status := 400; body := errorBody "Flow name is required." |}).
Proof. vm_compute; reflexivity. Qed.

(** Claim C7. When the API key is absent (or empty) the handler answers 500
    with its own message and has read nothing of the request: the body is
    not parsed and no call is made. A validation error is a different
    answer: it has status 400 and comes after the body was read. *)
Theorem missing_key_is_500 {format : NumberFormat}
  (buildFlowDefinition : value -> attempt value) w :
  KLAVIYO_API_KEY w = None \/ KLAVIYO_API_KEY w = Some [] ->
  POST buildFlowDefinition w
  = ([], Normal (NextResponse_json
                   (errorBody "KLAVIYO_API_KEY is not configured on the server.")
                   500))
  /\ forall w' body sanitized message,
       configured w' = true ->
       request_json w' = Returned body ->
       sanitizePayload body = Normal sanitized ->
       validatePayload sanitized = Normal (VString message) ->
       message <> [] ->
       POST buildFlowDefinition w'
       = ([RequestJson], Normal (NextResponse_json (errorBody message) 400)).
Proof.
  intros Hk; split.
  - apply POST_not_configured; unfold configured; destruct Hk as [-> | ->];
      reflexivity.
  - intros w' body sanitized message; apply POST_rejects.
Qed.

(** A world without the key, whose request body would not even parse. *)
Lemma missing_key_is_500_witness :
  let w := {| KLAVIYO_API_KEY := None;
              request_json := Threw (ErrorObject "Unexpected end of JSON input");
              fetch := fun _ _ => Threw (NonError VNull);
              Response_error_message := fun _ => [] |} in
  POST (format := integer_format) stepsAsDefinition w
  = ([], Normal {| status := 500;
                   body := errorBody "KLAVIYO_API_KEY is not configured on the server." |}).
Proof.
  intros w.
  exact (proj1 (missing_key_is_500 (format := integer_format) stepsAsDefinition w
                  (or_introl eq_refl))).
Defined.







(** Claim C2, as the code has it. When the body parses but lacks the
    top-level shape of a FlowRequest (it is null, or has no array of steps,
    no string flow name, no trigger, or no string trigger id),
    [sanitizePayload] raises a TypeError, which the handler lets escape: it
    returns no response. A body that does not parse is the one failure the
    handler catches at this point, and answers with 400. *)
Theorem misshapen_body_escapes {format : NumberFormat}
  (buildFlowDefinition : value -> attempt value) w :
  configured w = true ->
  (forall body,
     request_json w = Returned body -> topLevelShape body = false ->
     sanitizePayload body = TypeError
     /\ POST buildFlowDefinition w = ([RequestJson], TypeError))
  /\ (forall error,
        request_json w = Threw error ->
        POST buildFlowDefinition w
        = ([RequestJson],
           Normal (NextResponse_json
                     (VObject
                        [(lit "error", VString "Invalid JSON payload.");
                         (lit "details",
                          message_or error (VString "Unable to parse request."))])
                     400))).
Proof.
  intros Hc; split.
  - intros body Hb Hshape.
    assert (Hs := sanitizePayload_needs_shape body Hshape).
    split; [exact Hs | apply (POST_escapes _ w body Hc Hb Hs)].
  - intros error Hb; apply POST_unparsed; assumption.
Qed.

(** The bodies [{}] and [null]. *)
Lemma misshapen_body_escapes_witness :
  POST (format := integer_format) stepsAsDefinition
    (worldOf (VObject []) (Threw (NonError VNull)))
  = ([RequestJson], TypeError)
  /\ POST (format := integer_format) stepsAsDefinition
       (worldOf VNull (Threw (NonError VNull)))
     = ([RequestJson], TypeError).
Proof.
  split.
  - exact (proj2 (proj1 (misshapen_body_escapes (format := integer_format)
                           stepsAsDefinition
                           (worldOf (VObject []) (Threw (NonError VNull)))
                           eq_refl)
                    (VObject []) eq_refl eq_refl)).
  - exact (proj2 (proj1 (misshapen_body_escapes (format := integer_format)
                           stepsAsDefinition
                           (worldOf VNull (Threw (NonError VNull)))
                           eq_refl)
                    VNull eq_refl eq_refl)).
Defined.

(** Claim C2 as stated fails. The scenario with the number 5 in the place of
    its step is not shaped as a FlowRequest, and the handler answers it with
    a JSON error: the number has no properties, sanitizing makes an empty
    step of it, and validation rejects that step. *)
Lemma misshapen_body_answered :
  let body := welcomeFlow (VArray [VNumber (of_Z 5)]) in
  flowRequestShape body = false
  /\ POST (format := integer_format) stepsAsDefinition
       (worldOf body (Threw (NonError VNull)))
     = ([RequestJson],
        Normal {| status := 400;
                  body := errorBody
                    "Step 1 is missing subject, from name, or from email." |}).
Proof. split; vm_compute; reflexivity. Qed.

(** ** The form *)

(** Claim C9, as the code has it. Whenever the form is submitted, each step
    of the request body has as [replyToEmail] the trimmed from email of the
    step when the reply-to entry is empty, and the trimmed reply-to entry
    otherwise: the entry is tested before it is trimmed, so an entry of
    white space only is not replaced by the from email. *)
Theorem replyTo_defaults_to_fromEmail form payload i step :
  Form.handleSubmit form = inr payload ->
  nth_error (Form.steps form) i = Some step ->
  exists out,
    nth_error (stepsOf payload) i = Some out
    /\ property "replyToEmail" out
       = VString (if is_empty (Form.replyToEmail step)
                  then trim (Form.fromEmail step)
                  else trim (Form.replyToEmail step)).
Proof.
  unfold Form.handleSubmit; destruct (Form.validateForm form); [discriminate|].
  intros H Hi; injection H as <-.
  exists (Form.payloadStep step); split.
  - unfold stepsOf, Form.payload; js_read.
    apply map_nth_error; exact Hi.
  - unfold Form.payloadStep; js_read; unfold Form.string_or.
    destruct (is_empty (Form.replyToEmail step)); reflexivity.
Qed.

(** A form with two steps, the first with no reply-to entry. *)
Lemma replyTo_defaults_to_fromEmail_witness :
  let form := welcomeForm [formStep []; formStep (lit " help@b.com")] in
  Form.handleSubmit form = inr (Form.payload form)
  /\ (exists out,
        nth_error (stepsOf (Form.payload form)) 0 = Some out
        /\ property "replyToEmail" out = VString "a@b.com")
  /\ (exists out,
        nth_error (stepsOf (Form.payload form)) 1 = Some out
        /\ property "replyToEmail" out = VString "help@b.com").
Proof.
  intros form; split; [reflexivity|]; split.
  - exact (replyTo_defaults_to_fromEmail form (Form.payload form) 0
             (formStep []) eq_refl eq_refl).
  - exact (replyTo_defaults_to_fromEmail form (Form.payload form) 1
             (formStep (lit " help@b.com")) eq_refl eq_refl).
Defined.

(** Claim C9 as stated fails for a reply-to entry that is blank but not
    empty. With an entry of three spaces the form is submitted, and the step
    is sent with the empty string for [replyToEmail], not with the from
    email of the step. *)
Lemma blank_replyTo_not_defaulted :
  let step := formStep (lit "   ") in
  let form := welcomeForm [step] in
  is_empty (trim (Form.replyToEmail step)) = true
  /\ trim (Form.fromEmail step) = lit "a@b.com"
  /\ Form.handleSubmit form = inr (Form.payload form)
  /\ map (property "replyToEmail") (stepsOf (Form.payload form)) = [VString []].
Proof. repeat split; vm_compute; reflexivity. Qed.

(** * Further properties of the handler *)

(** ** Validation of a sanitized payload *)

Lemma findIndex_from_firstInvalid steps k :
  Forall (fun s => invalidStep s = Normal (isInvalid s)) steps ->
  findIndex_from invalidStep steps k
  = Normal (match firstInvalid steps with
            | Some i => (k + Z.of_nat i)%Z
            | None => (-1)%Z
            end).
Proof.
  intros H; revert k; induction H as [|s steps Hs _ IH]; intros k; simpl.
  - reflexivity.
  - rewrite Hs; cbn [bind]; destruct (isInvalid s); [f_equal; lia|].
    rewrite IH; destruct (firstInvalid steps); simpl; f_equal; lia.
Qed.

Lemma firstInvalid_None steps :
  firstInvalid steps = None <-> Forall (fun s => isInvalid s = false) steps.
Proof.
  induction steps as [|s steps IH]; simpl; [split; auto|].
  destruct (isInvalid s) eqn:E.
  - split; [discriminate | intros H; inversion H; congruence].
  - destruct (firstInvalid steps); simpl.
    + split; [discriminate|].
      intros H; inversion H; subst.
      assert (F : @None nat = None) by reflexivity.
      apply IH in H3; discriminate.
    + split; [|reflexivity].
      intros _; constructor; [exact E | apply IH; reflexivity].
Qed.

Lemma validatePayload_sanitized {format : NumberFormat} payload sanitized :
  sanitizePayload payload = Normal sanitized ->
  validatePayload sanitized = Normal (expectedValidation sanitized).
Proof.
  intros H.
  destruct (sanitizePayload_spec _ _ H)
    as (rawSteps & steps & flowName & id & _ & _ & _ & Hall & ->).
  rewrite validatePayload_payloadObject; unfold expectedValidation.
  rewrite stepsOf_payloadObject.
  destruct (headerViolation _); [reflexivity|].
  destruct steps as [|s0 steps]; [reflexivity|].
  rewrite (findIndex_from_firstInvalid _ 0%Z (sanitized_steps_are_objects _ _ Hall)).
  cbn [bind].
  destruct (firstInvalid (s0 :: steps)) as [i|]; [|reflexivity].
  destruct (Z.eqb_spec (0 + Z.of_nat i) (-1)); [lia|].
  cbn [negb]; do 3 f_equal; lia.
Qed.

Lemma expectedValidation_cases payload :
  expectedValidation payload = VNull
  \/ exists message, expectedValidation payload = VString message /\ message <> [].
Proof.
  unfold expectedValidation.
  destruct (headerViolation payload) eqn:E.
  - right; eexists; split; [reflexivity|].
    eapply headerViolation_nonempty; exact E.
  - destruct (stepsOf payload); [right; eexists; split; [reflexivity | discriminate]|].
    destruct (firstInvalid _); [right | left; reflexivity].
    eexists; split; [reflexivity | unfold stepMessage; discriminate].
Qed.

(** ** The ways the handler ends *)

Lemma callKlaviyo_request w apiKey klaviyoPayload :
  callKlaviyo w apiKey klaviyoPayload
  = ([Fetch KLAVIYO_API_URL (klaviyoRequest apiKey klaviyoPayload)],
     answerTo w (fetch w KLAVIYO_API_URL (klaviyoRequest apiKey klaviyoPayload))).
Proof.
  unfold callKlaviyo, klaviyoRequest, answerTo, jsonOf; f_equal.
  destruct (fetch w _ _) as [response|error]; [|reflexivity].
  destruct (response_ok response); [reflexivity|]; cbn [negb].
  destruct (bool_dec _ _) as [ok | no].
  - unfold NextResponse_json; rewrite ok; reflexivity.
  - apply not_true_is_false in no; rewrite no; reflexivity.
Qed.

Lemma POST_outcome {format : NumberFormat}
  (buildFlowDefinition : value -> attempt value) w :
  Outcome buildFlowDefinition w (POST buildFlowDefinition w).
Proof.
  destruct (configured w) eqn:Hc;
    [|rewrite POST_not_configured by exact Hc; constructor; exact Hc].
  destruct (request_json w) as [body|error] eqn:Hb;
    [|rewrite (POST_unparsed _ w error Hc Hb); constructor; assumption].
  destruct (sanitizePayload body) as [sanitized|] eqn:Hs;
    [|rewrite (POST_escapes _ w body Hc Hb Hs); econstructor; eassumption].
  assert (Hv := validatePayload_sanitized _ _ Hs).
  destruct (expectedValidation_cases sanitized) as [E | (message & E & Hm)];
    rewrite E in Hv.
  - unfold configured in Hc.
    destruct (KLAVIYO_API_KEY w) as [[|c apiKey]|] eqn:Hk; try discriminate.
    destruct (sanitizePayload_spec _ _ Hs)
      as (rawSteps & steps & flowName & id & _ & _ & _ & _ & Hq).
    destruct (buildFlowDefinition sanitized) as [definition|error] eqn:Hd.
    + subst sanitized.
      rewrite (POST_calls _ w (c :: apiKey) body _ _ _ _ definition Hk
                 ltac:(discriminate) Hb Hs Hv Hd).
      cbn zeta; rewrite callKlaviyo_request; cbn [fst snd].
      exact (Called _ w (c :: apiKey) body _ definition _ _ Hk
               ltac:(discriminate) Hb Hs Hv Hd eq_refl eq_refl).
    + unfold POST; rewrite Hk, Hb, Hs, Hv, Hd; cbn [truthy].
      eapply BuildError; try eassumption.
      unfold configured; rewrite Hk; reflexivity.
  - rewrite (POST_rejects _ w body sanitized message Hc Hb Hs Hv Hm).
    econstructor; eassumption.
Qed.

Lemma includes_list_segment type :
  includes [lit "list"; lit "segment"] type = true
  <-> type = VString "list" \/ type = VString "segment".
Proof.
  rewrite includes_In; split.
  - intros (s & -> & [<- | [<- | []]]); auto.
  - intros [-> | ->]; eexists; split; try reflexivity; simpl; auto.
Qed.

(** X1. Validation accepts a sanitized payload exactly when its flow name is
    not empty, the trigger type of the request as it was sent is exactly
    "list" or "segment" (the type is the one property that is not trimmed),
    its trigger id is not empty, it has a step, and no step lacks a subject
    line, a from email or a from name. *)
Theorem validation_passes_iff {format : NumberFormat} payload sanitized :
  sanitizePayload payload = Normal sanitized ->
  (validatePayload sanitized = Normal VNull
   <-> property "flowName" sanitized <> VString []
       /\ (property "type" (property "trigger" payload) = VString "list"
           \/ property "type" (property "trigger" payload) = VString "segment")
       /\ property "id" (property "trigger" sanitized) <> VString []
       /\ stepsOf sanitized <> []
       /\ Forall (fun step => isInvalid step = false) (stepsOf sanitized)).
Proof.
  intros H; rewrite (validatePayload_sanitized _ _ H).
  destruct (sanitizePayload_spec _ _ H)
    as (rawSteps & steps & flowName & id & _ & _ & _ & _ & ->).
  unfold expectedValidation, headerViolation.
  rewrite stepsOf_payloadObject.
  unfold payloadObject; js_read; cbn [truthy].
  rewrite <- includes_list_segment, <- firstInvalid_None.
  destruct (trim flowName) as [|c n]; cbn [is_empty negb];
    [split; [discriminate | intros (E & _); congruence]|].
  destruct (includes _ _); cbn [negb];
    [|split; [discriminate | intros (_ & E & _); discriminate]].
  destruct (trim id) as [|d i]; cbn [is_empty negb];
    [split; [discriminate | intros (_ & _ & E & _); congruence]|].
  destruct steps as [|s0 steps];
    [split; [discriminate | intros (_ & _ & _ & E & _); congruence]|].
  destruct (firstInvalid (s0 :: steps));
    [split; [discriminate | intros (_ & _ & _ & _ & E); discriminate]|].
  split; [|reflexivity].
  intros _; repeat split; discriminate.
Qed.

(** The one-step welcome flow passes the validation. *)
Lemma validation_passes_iff_witness :
  exists sanitized,
    sanitizePayload (format := integer_format) (welcomeFlow (VArray [hiStep []]))
    = Normal sanitized
    /\ validatePayload sanitized = Normal VNull.
Proof.
  eexists; split; [vm_compute; reflexivity|].
  match goal with
  | |- validatePayload ?q = _ =>
      apply (validation_passes_iff (format := integer_format)
               (welcomeFlow (VArray [hiStep []])) q)
  end.
  - vm_compute; reflexivity.
  - split; [discriminate|]; split; [left; reflexivity|].
    split; [discriminate|]; split; [discriminate|].
    repeat constructor.
Defined.

(** X2. The handler lets an exception escape exactly when the key is
    configured, the body parses, and [sanitizePayload] throws on it. In
    particular [validatePayload] never throws on what [sanitizePayload]
    returns. *)
Theorem only_sanitizing_escapes {format : NumberFormat}
  (buildFlowDefinition : value -> attempt value) w :
  snd (POST buildFlowDefinition w) = TypeError
  <-> configured w = true
      /\ exists body,
           request_json w = Returned body /\ sanitizePayload body = TypeError.
Proof.
  split.
  - intros H; destruct (POST_outcome buildFlowDefinition w);
      cbn [snd] in H; try discriminate.
    split; [assumption | eauto].
  - intros (Hc & body & Hb & Hs).
    rewrite (POST_escapes _ w body Hc Hb Hs); reflexivity.
Qed.

(** X3. The provider is called exactly when the key is configured, the body
    parses, is sanitized, passes validation, and [buildFlowDefinition]
    returns. The call is then the last thing the handler does and the only
    call: a POST to the flows URL that carries the key and the revision in
    its headers, and as body the sanitized flow name with the definition. *)
Theorem provider_called_iff_valid {format : NumberFormat}
  (buildFlowDefinition : value -> attempt value) w :
  (forall url init,
     In (Fetch url init) (fst (POST buildFlowDefinition w)) ->
     exists apiKey body sanitized definition,
       KLAVIYO_API_KEY w = Some apiKey /\ apiKey <> []
       /\ request_json w = Returned body
       /\ sanitizePayload body = Normal sanitized
       /\ validatePayload sanitized = Normal VNull
       /\ buildFlowDefinition sanitized = Returned definition
       /\ fst (POST buildFlowDefinition w) = [RequestJson; Fetch url init]
       /\ url = KLAVIYO_API_URL
       /\ init_method init = lit "POST"
       /\ header "Authorization" (init_headers init)
          = Some (lit "Klaviyo-API-Key " ++ apiKey)
       /\ header "revision" (init_headers init) = Some (lit "2024-10-15")
       /\ init_body init
          = klaviyoPayloadOf (property "flowName" sanitized) definition)
  /\ (forall apiKey body sanitized definition,
        KLAVIYO_API_KEY w = Some apiKey -> apiKey <> [] ->
        request_json w = Returned body ->
        sanitizePayload body = Normal sanitized ->
        validatePayload sanitized = Normal VNull ->
        buildFlowDefinition sanitized = Returned definition ->
        exists init,
          fst (POST buildFlowDefinition w) = [RequestJson; Fetch KLAVIYO_API_URL init]).
Proof.
  split.
  - intros url init Hin.
    destruct (POST_outcome buildFlowDefinition w) as
      [ | | | | | apiKey body sanitized definition init' answer Hk Hn Hb Hs Hv Hd Hi Hf];
      cbn [fst In] in Hin.
    1: destruct Hin.
    1-4: destruct Hin as [Hin | []]; discriminate Hin.
    destruct Hin as [Hin | [Hin | []]]; [discriminate Hin|].
    injection Hin as <- <-.
    exists apiKey, body, sanitized, definition; subst init'.
    repeat split; auto.
  - intros apiKey body sanitized definition Hk Hn Hb Hs Hv Hd.
    destruct (sanitizePayload_spec _ _ Hs)
      as (rawSteps & steps & flowName & id & _ & _ & _ & _ & ->).
    rewrite (POST_calls _ w apiKey body _ _ _ _ definition Hk Hn Hb Hs Hv Hd).
    cbn zeta; rewrite callKlaviyo_request; cbn [fst]; eauto.
Qed.

(** The call made for the scenario. *)
Lemma provider_called_iff_valid_witness :
  let w := worldOf (welcomeFlow (VArray [hiStep []])) (Threw (NonError VNull)) in
  exists init,
    fst (POST (format := integer_format) stepsAsDefinition w)
    = [RequestJson; Fetch KLAVIYO_API_URL init]
    /\ header "Authorization" (init_headers init)
       = Some (lit "Klaviyo-API-Key pk_test").
Proof.
  intros w.
  set (sanitized := payloadObject "Welcome" (VString "list") "ABC"
                      [expectedStep (hiStep []) []]).
  assert (Hs : sanitizePayload (format := integer_format)
                 (welcomeFlow (VArray [hiStep []])) = Normal sanitized)
    by (vm_compute; reflexivity).
  assert (Hv : validatePayload sanitized = Normal VNull)
    by (vm_compute; reflexivity).
  assert (Hn : lit "pk_test" <> []) by discriminate.
  destruct (provider_called_iff_valid (format := integer_format)
              stepsAsDefinition w) as [Honly Hcalled].
  destruct (Hcalled (lit "pk_test") _ sanitized (property "steps" sanitized)
              eq_refl Hn eq_refl Hs Hv eq_refl) as (init & Htrace).
  exists init; split; [exact Htrace|].
  destruct (Honly KLAVIYO_API_URL init) as
    (apiKey & body & q & d & Hk & _ & _ & _ & _ & _ & _ & _ & _ & Hauth & _).
  - rewrite Htrace; simpl; auto.
  - rewrite Hauth; injection Hk as <-; reflexivity.
Defined.



(** ** Sanitizing what was sanitized *)

Section SecondPass.

Context {format : NumberFormat}.

Lemma sanitizeDelay_second step properties :
  lookup "delay" properties = expectedDelay step ->
  sanitizeDelay (VObject properties)
  = Normal (if delayRoundsToZero step then VNull else expectedDelay step).
Proof.
  intros Hk.
  destruct (delayRoundsToZero step) eqn:Hz;
    [|apply expectedDelay_fixed; assumption].
  unfold delayRoundsToZero in Hz.
  destruct (keptDelay step) as [[| |q]|] eqn:K; try discriminate.
  apply negb_true_iff in Hz.
  assert (Hq : is_positive (Finite q) = true)
    by (apply keptDelay_Some in K; apply K).
  unfold sanitizeDelay; js_read; rewrite Hk.
  unfold expectedDelay; rewrite K, (round_below_half q Hq Hz).
  reflexivity.
Qed.

Lemma sanitizeStep_second step tracking :
  exists out, sanitizeStep (expectedStep step tracking) = Normal out.
Proof.
  unfold expectedStep, stepObject, sanitizeStep, trimmedField.
  js_read; cbn [optional_trim nullish_or bind].
  rewrite (sanitizeDelay_second step) by (js_read; reflexivity); cbn [bind].
  rewrite (sanitizeTracking_fixed _ tracking) by (js_read; reflexivity).
  cbn [bind]; eauto.
Qed.

Lemma sanitized_delay_not_below_half step tracking :
  delayRoundsToZero (expectedStep step tracking) = false.
Proof.
  unfold delayRoundsToZero.
  destruct (keptDelay (expectedStep step tracking)) as [[| |q]|] eqn:K;
    try reflexivity.
  apply keptDelay_Some in K; destruct K as [Hv Hq].
  rewrite property_delay_expectedStep in Hv; unfold expectedDelay in Hv.
  destruct (keptDelay step) as [x|] eqn:Kx; [|discriminate].
  apply keptDelay_Some in Kx; destruct Kx as [_ Hx].
  unfold delayObject in Hv; rewrite property_object, lookup_here in Hv.
  assert (E : Math_max (of_Z 0) (Math_round x) = Finite q) by congruence.
  clear Hv.
  destruct (clamp_round_positive x Hx) as (Hm & [-> | (z & Hz & Hr)]);
    [discriminate E|].
  rewrite Hm, Hr in E; unfold of_Z in E; injection E as <-.
  change (is_positive (Finite (inject_Z z))) with (0 <? z)%Z in Hq.
  apply Z.ltb_lt in Hq.
  apply negb_false_iff.
  unfold Qle_bool, inject_Z; simpl; apply Z.leb_le; lia.
Qed.

Lemma mapM_second rawSteps steps :
  Forall2 (fun step s => sanitizeStep step = Normal s) rawSteps steps ->
  exists again,
    mapM sanitizeStep steps = Normal again
    /\ Forall (fun s => sanitizeStep s = Normal s) again.
Proof.
  induction 1 as [|raw s rawSteps steps Hs _ (again & IH & Hfix)].
  - exists []; split; [reflexivity | constructor].
  - destruct (sanitizeStep_spec _ _ Hs) as (tracking & -> & _).
    destruct (sanitizeStep_second raw tracking) as (out & Hout).
    exists (out :: again); split.
    + simpl; rewrite Hout; cbn [bind]; rewrite IH; reflexivity.
    + constructor; [|exact Hfix].
      destruct (sanitizeStep_spec _ _ Hout) as (tracking' & -> & _).
      apply expectedStep_fixed, sanitized_delay_not_below_half.
Qed.

(** X5. Sanitizing a sanitized payload never throws, and two passes always
    reach a fixed point: whatever the first pass returns, a second pass
    returns a payload that every further pass leaves as it is. *)
Theorem two_passes_reach_fixed_point payload once :
  sanitizePayload payload = Normal once ->
  exists twice,
    sanitizePayload once = Normal twice
    /\ sanitizePayload twice = Normal twice.
Proof.
  intros H.
  destruct (sanitizePayload_spec _ _ H)
    as (rawSteps & steps & flowName & id & _ & _ & _ & Hall & ->).
  destruct (mapM_second _ _ Hall) as (again & Hmap & Hfix).
  exists (payloadObject (trim flowName)
            (property "type" (property "trigger" payload)) (trim id) again).
  split.
  - unfold sanitizePayload, payloadObject; js_read.
    unfold Array_map; rewrite Hmap; js_read.
    cbn [call_trim bind]; js_read; cbn [call_trim bind].
    rewrite !trim_trim; reflexivity.
  - apply payloadObject_fixed; auto using trim_trim.
Qed.

End SecondPass.

(** The payload with a delay of a quarter of a day, which one pass does not
    bring to a fixed point. *)
Lemma two_passes_reach_fixed_point_witness :
  exists once twice,
    sanitizePayload (format := integer_format) (delayedFlow (Finite (1 # 4)))
    = Normal once
    /\ sanitizePayload (format := integer_format) once = Normal twice
    /\ delaysOf twice = [VNull]
    /\ sanitizePayload (format := integer_format) twice = Normal twice.
Proof.
  eexists; eexists; split; [vm_compute; reflexivity|].
  split; [vm_compute; reflexivity|].
  split; [vm_compute; reflexivity|].
  match goal with
  | |- sanitizePayload ?twice = _ =>
      destruct (two_passes_reach_fixed_point (format := integer_format)
                  (delayedFlow (Finite (1 # 4))) _ eq_refl)
        as (again & H2 & H3);
      assert (E : Normal again = Normal twice)
        by (rewrite <- H2; vm_compute; reflexivity)
  end.
  injection E as ->; exact H3.
Defined.

(** ** The shape of a sanitized payload *)

Lemma trim_clean (s : jsstring) : clean (trim s) = true.
Proof.
  unfold clean; apply andb_true_iff; split.
  - apply trimEnd_clean, trimStart_clean.
  - unfold trim, trimEnd; rewrite rev_involutive; apply trimStart_clean.
Qed.

Lemma expectedText_clean x : clean (expectedText x) = true.
Proof. destruct x; try reflexivity; apply trim_clean. Qed.

(** X6. In a sanitized payload the flow name and the trigger id are strings
    with no white space at either end, and so is each of the nine text
    properties of each step; [smartSendingEnabled] is a boolean and
    [customTracking] is an array, whatever the request had there. *)
Theorem sanitized_shape {format : NumberFormat} payload sanitized :
  sanitizePayload payload = Normal sanitized ->
  (exists name, property "flowName" sanitized = VString name /\ clean name = true)
  /\ (exists id, property "id" (property "trigger" sanitized) = VString id
                 /\ clean id = true)
  /\ Forall
       (fun step =>
          (forall k, In k textFields ->
             exists text, property k step = VString text /\ clean text = true)
          /\ (exists b, property "smartSendingEnabled" step = VBoolean b)
          /\ (exists rows, property "customTracking" step = VArray rows))
       (stepsOf sanitized).
Proof.
  intros H.
  destruct (sanitizePayload_spec _ _ H)
    as (rawSteps & steps & flowName & id & _ & _ & _ & Hall & ->).
  rewrite stepsOf_payloadObject.
  split; [|split].
  - exists (trim flowName); split; [reflexivity | apply trim_clean].
  - exists (trim id); split; [reflexivity | apply trim_clean].
  - clear H; induction Hall as [|raw step rawSteps steps Hstep _ IH];
      [constructor | constructor; [|exact IH]].
    destruct (sanitizeStep_spec _ _ Hstep) as (tracking & -> & _).
    unfold expectedStep, stepObject; split; [|split].
    + intros k Hk; unfold textFields in Hk; simpl in Hk.
      repeat (destruct Hk as [<- | Hk];
              [eexists; split; [js_read; reflexivity | apply expectedText_clean]|]).
      destruct Hk.
    + eexists; js_read; reflexivity.
    + eexists; js_read; reflexivity.
Qed.

(** A request whose step has a padded preview text, a string where the
    smart-sending flag should be and a string where the tracking rows should
    be. *)
Lemma sanitized_shape_witness :
  let step :=
    hiStep [(lit "previewText", VString "  Welcome aboard  ");
            (lit "smartSendingEnabled", VString "yes");
            (lit "customTracking", VString "utm")] in
  exists sanitized,
    sanitizePayload (format := integer_format) (welcomeFlow (VArray [step]))
    = Normal sanitized
    /\ Forall
         (fun step =>
            (forall k, In k textFields ->
               exists text, property k step = VString text /\ clean text = true)
            /\ (exists b, property "smartSendingEnabled" step = VBoolean b)
            /\ (exists rows, property "customTracking" step = VArray rows))
         (stepsOf sanitized).
Proof.
  intros step; eexists; split; [vm_compute; reflexivity|].
  match goal with
  | |- Forall _ (stepsOf ?q) =>
      exact (proj2 (proj2 (sanitized_shape (format := integer_format)
                             (welcomeFlow (VArray [step])) q eq_refl)))
  end.
Defined.

(** ** Steps stay in place *)

Lemma Forall2_nth_error {A B} (R : A -> B -> Prop) l l' i a :
  Forall2 R l l' -> nth_error l i = Some a ->
  exists b, nth_error l' i = Some b /\ R a b.
Proof.
  intros H; revert i; induction H as [|x y l l' Hxy _ IH]; intros i Hi.
  - destruct i; discriminate.
  - destruct i as [|i]; [injection Hi as <-; exists y; auto|].
    apply IH; exact Hi.
Qed.

(** X7. Sanitizing keeps the steps in place: the sanitized payload has as
    many steps as the request, and its step at each position is what the
    step of the request at that position was sanitized to. *)
Theorem steps_sanitized_in_place {format : NumberFormat} payload sanitized :
  sanitizePayload payload = Normal sanitized ->
  List.length (stepsOf sanitized) = List.length (stepsOf payload)
  /\ forall i raw,
       nth_error (stepsOf payload) i = Some raw ->
       exists step,
         nth_error (stepsOf sanitized) i = Some step
         /\ sanitizeStep raw = Normal step.
Proof.
  intros H.
  destruct (sanitizePayload_spec _ _ H)
    as (rawSteps & steps & flowName & id & Hs & _ & _ & Hall & ->).
  rewrite stepsOf_payloadObject; unfold stepsOf at 1 2; rewrite Hs.
  split; [symmetry; eapply Forall2_length; exact Hall|].
  intros i raw Hi.
  exact (Forall2_nth_error _ _ _ i raw Hall Hi).
Qed.

(** The scenario with a second step that has only a padded subject. *)
Lemma steps_sanitized_in_place_witness :
  let second := VObject [(lit "subjectLine", VString " Again ")] in
  let payload := welcomeFlow (VArray [hiStep []; second]) in
  exists sanitized,
    sanitizePayload (format := integer_format) payload = Normal sanitized
    /\ List.length (stepsOf sanitized) = 2%nat
    /\ exists step,
         nth_error (stepsOf sanitized) 1 = Some step
         /\ sanitizeStep (format := integer_format) second = Normal step.
Proof.
  intros second payload; eexists; split; [vm_compute; reflexivity|].
  match goal with
  | |- List.length (stepsOf ?q) = _ /\ _ =>
      destruct (steps_sanitized_in_place (format := integer_format) payload q
                  eq_refl) as (Hlen & Hnth)
  end.
  split; [rewrite Hlen; reflexivity|].
  apply (Hnth 1%nat second); reflexivity.
Defined.

(** ** The first incomplete step of a request *)

Lemma isInvalid_expectedStep step tracking :
  isInvalid (expectedStep step tracking) = lacksSender step.
Proof.
  unfold isInvalid, lacksSender, expectedStep, stepObject; js_read.
  cbn [truthy]; rewrite !negb_involutive; reflexivity.
Qed.

Lemma firstInvalid_sanitized {format : NumberFormat} rawSteps steps i raw :
  Forall2 (fun step s => sanitizeStep step = Normal s) rawSteps steps ->
  nth_error rawSteps i = Some raw ->
  lacksSender raw = true ->
  (forall j earlier,
     (j < i)%nat -> nth_error rawSteps j = Some earlier ->
     lacksSender earlier = false) ->
  firstInvalid steps = Some i.
Proof.
  intros H; revert i; induction H as [|r s rawSteps steps Hs _ IH];
    intros i Hi Hraw Hbefore.
  - destruct i; discriminate.
  - destruct (sanitizeStep_spec _ _ Hs) as (tracking & -> & _).
    cbn [firstInvalid]; rewrite isInvalid_expectedStep.
    destruct i as [|i].
    + injection Hi as ->; rewrite Hraw; reflexivity.
    + rewrite (Hbefore 0%nat r ltac:(lia) eq_refl).
      rewrite (IH i Hi Hraw); [reflexivity|].
      intros j earlier Hj He; apply (Hbefore (S j) earlier); [lia | exact He].
Qed.

(** X8. When the flow name, the trigger type and the trigger id of a
    request pass their checks, and some step of the request as it was sent
    has a subject line, a from email or a from name that is missing or
    blank (white space only), the handler answers 400 with the message that
    names the first such step, counted from 1, and does not call the
    provider. *)
Theorem first_incomplete_step_answered {format : NumberFormat}
  (buildFlowDefinition : value -> attempt value) w body sanitized i raw :
  configured w = true ->
  request_json w = Returned body ->
  sanitizePayload body = Normal sanitized ->
  headerViolation sanitized = None ->
  nth_error (stepsOf body) i = Some raw ->
  lacksSender raw = true ->
  (forall j earlier,
     (j < i)%nat -> nth_error (stepsOf body) j = Some earlier ->
     lacksSender earlier = false) ->
  POST buildFlowDefinition w
  = ([RequestJson],
     Normal (NextResponse_json (errorBody (stepMessage (Z.of_nat i + 1))) 400)).
Proof.
  intros Hc Hb Hs Hh Hi Hraw Hbefore.
  assert (Hv := validatePayload_sanitized _ _ Hs).
  apply (POST_rejects _ w body sanitized _ Hc Hb Hs);
    [|unfold stepMessage; discriminate].
  rewrite Hv; unfold expectedValidation; rewrite Hh.
  destruct (sanitizePayload_spec _ _ Hs)
    as (rawSteps & steps & flowName & id & Hsteps & _ & _ & Hall & ->).
  rewrite stepsOf_payloadObject.
  unfold stepsOf in Hi, Hbefore; rewrite Hsteps in Hi, Hbefore.
  assert (Hf := firstInvalid_sanitized _ _ i raw Hall Hi Hraw Hbefore).
  destruct steps; [inversion Hall; subst; destruct i; discriminate|].
  rewrite Hf; reflexivity.
Qed.

(** A flow of two steps whose second has a from name of spaces only: the
    answer names step 2. *)
Lemma first_incomplete_step_answered_witness :
  let blank :=
    VObject [(lit "subjectLine", VString "Hi");
             (lit "fromEmail", VString "a@b.com");
             (lit "fromName", VString "   ")] in
  let body := welcomeFlow (VArray [hiStep []; blank]) in
  POST (format := integer_format) stepsAsDefinition
    (worldOf body (Threw (ErrorObject "unreachable")))
  = ([RequestJson],
     Normal
       (NextResponse_json
          (errorBody "Step 2 is missing subject, from name, or from email.")
          400)).
Proof.
  intros blank body.
  refine (first_incomplete_step_answered (format := integer_format)
            stepsAsDefinition (worldOf body _) body _ 1%nat blank
            eq_refl eq_refl _ _ eq_refl eq_refl _).
  - vm_compute; reflexivity.
  - vm_compute; reflexivity.
  - intros [|j] earlier Hj He; [|lia].
    injection He as <-; reflexivity.
Defined.

(** ** Which requests sanitizing gets through *)

Lemma succeeds_when_true {A} (c : completion A) a :
  c = Normal a -> succeeds_when true c.
Proof. intros ->; exists a; reflexivity. Qed.

Lemma ToString_stringable {format : NumberFormat} :
  forall v, succeeds_when (stringable v) (ToString v).
Proof.
  fix IH 1; intros [| |[|]|x|s|elements|properties];
    try (eapply succeeds_when_true; reflexivity).
  - cbn [stringable ToString].
    induction elements as [|x rest IHrest];
      [eapply succeeds_when_true; reflexivity|].
    assert (Hx : succeeds_when (stringable x)
                    (match x with
                     | VUndefined | VNull => Normal []
                     | _ => ToString x
                     end)).
    { assert (Hx := IH x).
      destruct x; try exact Hx; eapply succeeds_when_true; reflexivity. }
    destruct (stringable x); unfold succeeds_when in Hx.
    + destruct Hx as (s & ->).
      destruct rest as [|y rest]; [eapply succeeds_when_true; reflexivity|].
      remember (y :: rest) as l eqn:El.
      match type of IHrest with
      | succeeds_when ?b _ => destruct b; unfold succeeds_when in IHrest |- *
      end.
      * destruct IHrest as (t & Ht); subst l.
        exists (s ++ lit "," ++ t); cbn [bind] in *; rewrite Ht; reflexivity.
      * subst l; cbn [bind andb] in *; rewrite IHrest; reflexivity.
    + rewrite Hx; reflexivity.
  - cbn [stringable ToString]; destruct (has_property _ _);
      [reflexivity | eapply succeeds_when_true; reflexivity].
Qed.

Lemma succeeds_when_bind {A B} (ok ok' : bool) (c : completion A)
  (k : A -> completion B) :
  succeeds_when ok c ->
  (forall a, c = Normal a -> succeeds_when ok' (k a)) ->
  succeeds_when (ok && ok') (bind c k).
Proof.
  destruct ok; unfold succeeds_when at 1.
  - intros (a & ->) Hk; exact (Hk a eq_refl).
  - intros -> _; reflexivity.
Qed.

Lemma mapM_succeeds_when {A B} (f : A -> completion B) (ok : A -> bool) l :
  (forall a, succeeds_when (ok a) (f a)) ->
  succeeds_when (forallb ok l) (mapM f l).
Proof.
  intros Hf; induction l as [|a l IH]; [exists []; reflexivity|].
  cbn [forallb mapM].
  apply succeeds_when_bind; [apply Hf|]; intros b _.
  rewrite <- (andb_true_r (forallb ok l)).
  apply succeeds_when_bind; [exact IH|]; intros bs _.
  eexists; reflexivity.
Qed.

Section Readable.

Context {format : NumberFormat}.

Lemma sanitizeTrack_readable row :
  succeeds_when (rowReadable row) (sanitizeTrack row).
Proof.
  unfold rowReadable, sanitizeTrack.
  destruct (is_nullish row) eqn:Hn;
    [destruct row; try discriminate; reflexivity|].
  rewrite !get_non_nullish by first [exact Hn | reflexivity]; cbn [bind negb andb].
  rewrite <- (andb_true_r (stringable (property "value" row))).
  apply succeeds_when_bind.
  { assert (H := ToString_stringable (property "param" row)).
    destruct (property "param" row); try exact H;
      eapply succeeds_when_true; reflexivity. }
  intros param _.
  apply succeeds_when_bind.
  { assert (H := ToString_stringable (property "value" row)).
    destruct (property "value" row); try exact H;
      eapply succeeds_when_true; reflexivity. }
  intros val _; eexists; reflexivity.
Qed.

Lemma sanitizeTracking_readable step :
  is_nullish step = false ->
  succeeds_when (trackingReadable step) (sanitizeTracking step).
Proof.
  intros Hn; unfold trackingReadable, sanitizeTracking.
  rewrite !get_non_nullish by first [exact Hn | reflexivity]; cbn [bind].
  destruct (property "customTracking" step) as [| | | | |rows|];
    try (eexists; reflexivity).
  assert (H := mapM_succeeds_when sanitizeTrack rowReadable rows
                 sanitizeTrack_readable).
  destruct (forallb rowReadable rows); unfold succeeds_when in H |- *.
  - destruct H as (mapped & H); rewrite H; cbn [bind].
    destruct (mapM_sanitizeTrack _ _ H) as (texts & _ & ->).
    rewrite filterM_keepTrack; eexists; reflexivity.
  - rewrite H; reflexivity.
Qed.

Lemma trimmedField_readable step k :
  is_nullish step = false -> jsstring_eqb k "length" = false ->
  succeeds_when (text_or_missing (property k step)) (trimmedField step k).
Proof.
  intros Hn Hk; unfold trimmedField.
  rewrite (get_non_nullish step k Hn Hk); cbn [bind].
  destruct (property k step); try reflexivity; eexists; reflexivity.
Qed.

Lemma sanitizeDelay_readable step :
  is_nullish step = false ->
  succeeds_when (delayReadable step) (sanitizeDelay step).
Proof.
  intros Hn; unfold delayReadable, keptDelay, sanitizeDelay.
  rewrite !get_non_nullish by first [exact Hn | reflexivity]; cbn [bind].
  destruct (truthy (property "delay" step)) eqn:Ht; [|eexists; reflexivity].
  assert (Hd : is_nullish (property "delay" step) = false)
    by (destruct (property "delay" step); try discriminate; reflexivity).
  rewrite (get_non_nullish _ "value" Hd eq_refl); cbn [bind].
  destruct (property "value" (property "delay" step)) as [| | |x| | |];
    try (eexists; reflexivity).
  destruct (is_positive x); [|eexists; reflexivity].
  rewrite !get_non_nullish by first [exact Hd | reflexivity]; cbn [bind].
  destruct (property "timezone" (property "delay" step));
    try reflexivity; eexists; reflexivity.
Qed.

Lemma sanitizeStep_readable step :
  succeeds_when (stepReadable step) (sanitizeStep step).
Proof.
  unfold stepReadable, sanitizeStep.
  destruct (is_nullish step) eqn:Hn;
    [destruct step; try discriminate; reflexivity|].
  cbn [negb andb textFields forallb].
  rewrite !andb_true_r, <- !andb_assoc.
  do 9 (apply succeeds_when_bind;
        [apply trimmedField_readable; [exact Hn | reflexivity]|]; intros ? _).
  rewrite !get_non_nullish by first [exact Hn | reflexivity]; cbn [bind].
  apply succeeds_when_bind; [apply sanitizeDelay_readable, Hn|]; intros ? _.
  rewrite <- (andb_true_r (trackingReadable step)).
  apply succeeds_when_bind; [apply sanitizeTracking_readable, Hn|]; intros ? _.
  eexists; reflexivity.
Qed.

Lemma sanitizePayload_readable body :
  succeeds_when (readable body) (sanitizePayload body).
Proof.
  unfold readable.
  destruct (topLevelShape body) eqn:Hs;
    [|apply sanitizePayload_needs_shape, Hs].
  cbn [andb]; unfold topLevelShape in Hs.
  repeat (apply andb_true_iff in Hs; destruct Hs as [Hs ?]).
  apply negb_true_iff in Hs.
  match goal with H : negb _ = true |- _ => apply negb_true_iff in H end.
  unfold sanitizePayload, stepsOf.
  rewrite !get_non_nullish by first [exact Hs | reflexivity]; cbn [bind].
  destruct (property "steps" body) as [| | | | |rawSteps|]; try discriminate.
  assert (Hm := mapM_succeeds_when sanitizeStep stepReadable rawSteps
                  sanitizeStep_readable).
  unfold Array_map.
  destruct (forallb stepReadable rawSteps); unfold succeeds_when in Hm |- *;
    [|rewrite Hm; reflexivity].
  destruct Hm as (steps & ->); cbn [bind].
  destruct (property "flowName" body); try discriminate.
  cbn [call_trim bind].
  rewrite !get_non_nullish by first [assumption | reflexivity].
  cbn [bind].
  destruct (property "id" (property "trigger" body)); try discriminate.
  eexists; reflexivity.
Qed.

(** X9. Sanitizing throws on exactly the request bodies that are not
    readable. A readable body has an array of steps, a string flow name and
    a trigger with a string id; each of its steps is not null, has each of
    its nine text properties a string or missing, has a string or missing
    timezone when its delay is one that is kept, and has tracking rows (if
    they are an array) that are not null and whose param and value a
    template literal can render. *)
Theorem sanitizing_throws_iff_unreadable body :
  sanitizePayload body = TypeError <-> readable body = false.
Proof.
  assert (H := sanitizePayload_readable body).
  destruct (readable body); unfold succeeds_when in H.
  - destruct H as (sanitized & ->); split; discriminate.
  - split; auto.
Qed.

End Readable.

(** ** What every answer carries *)

(** X10. Every answer of the handler is of one of two kinds: the 200 with
    the data of the provider under [data], or an answer with a status
    outside 200 to 299 and a string under [error], which is what the page
    shows of an answer that is not ok. *)
Theorem answers_carry_data_or_error {format : NumberFormat}
  (buildFlowDefinition : value -> attempt value) w r :
  snd (POST buildFlowDefinition w) = Normal r ->
  (status r = 200%Z /\ exists data, body r = VObject [(lit "data", data)])
  \/ (~ (200 <= status r <= 299)%Z
      /\ exists message, property "error" (body r) = VString message).
Proof.
  intros H.
  destruct (POST_outcome buildFlowDefinition w)
    as [Hc|error Hc Hb|body Hc Hb Hs|body sanitized message Hc Hb Hs Hv Hm
        |body sanitized error Hc Hb Hs Hv Hd
        |apiKey body sanitized definition init answer Hk Hn Hb Hs Hv Hd Hi Hf];
    cbn [snd] in H; try discriminate H; injection H as <-.
  - right; split; [cbn; lia | eexists; reflexivity].
  - right; split; [cbn; lia | eexists; reflexivity].
  - right; split; [cbn; lia | eexists; reflexivity].
  - right; split; [cbn; lia|].
    destruct error; eexists; reflexivity.
  - destruct answer as [response|error]; unfold answerTo, gatewayFailure.
    + destruct (response_ok response) eqn:Hok.
      * left; split; [reflexivity | eexists; reflexivity].
      * destruct (Response_accepts (response_status response));
          [|right; split; [cbn; lia | eexists; reflexivity]].
        right; split; [|eexists; reflexivity].
        cbn [status]; unfold response_ok in Hok.
        apply andb_false_iff in Hok.
        destruct Hok as [Hok | Hok]; apply Z.leb_gt in Hok; lia.
    + right; split; [cbn; lia | eexists; reflexivity].
Qed.

(** A request with no steps is answered with a 400 and a message. *)
Lemma answers_carry_data_or_error_witness :
  let w := worldOf (welcomeFlow (VArray [])) (Threw (ErrorObject "unreachable")) in
  exists r,
    snd (POST (format := integer_format) stepsAsDefinition w) = Normal r
    /\ ~ (200 <= status r <= 299)%Z
    /\ exists message, property "error" (body r) = VString message.
Proof.
  intros w; eexists; split; [vm_compute; reflexivity|].
  match goal with
  | |- ~ (_ <= status ?r <= _)%Z /\ _ =>
      destruct (answers_carry_data_or_error (format := integer_format)
                  stepsAsDefinition w r eq_refl) as [(H & _) | H]
  end.
  - vm_compute in H; discriminate H.
  - exact H.
Defined.

(** * Further properties of the form *)

(** ** The delay the form sends *)

Lemma Math_max_zero_of_Z (z : Z) :
  Math_max (of_Z 0) (of_Z z) = of_Z (Z.max 0 z).
Proof.
  unfold Math_max, of_Z; rewrite Qle_bool_integers.
  destruct (Z.leb_spec 0 z); f_equal; f_equal; lia.
Qed.

Lemma floor_from_half (q : Q) :
  Qle_bool (1 # 2) q = true -> (1 <= Qfloor (q + (1 # 2)))%Z.
Proof.
  intros H; apply round_from_half in H.
  unfold Math_round in H; rewrite is_positive_of_Z in H.
  apply Z.ltb_lt in H; lia.
Qed.

Lemma floor_below_half (q : Q) :
  Qle_bool (1 # 2) q = false -> (Qfloor (q + (1 # 2)) <= 0)%Z.
Proof.
  intros Hhalf.
  assert (Hlt : q < 1 # 2).
  { apply Qnot_le_lt; intros Hle; apply Qle_bool_iff in Hle; congruence. }
  assert (Hhi : (Qfloor (q + (1 # 2)) < 1)%Z); [|lia].
  rewrite Zlt_Qlt.
  apply Qle_lt_trans with (q + (1 # 2)); [apply Qfloor_le|].
  apply Qlt_le_trans with ((1 # 2) + (1 # 2)); [|discriminate].
  apply Qplus_lt_l; exact Hlt.
Qed.

(** The value of the delay that [handleSubmit] sends for an entry. *)
Lemma sent_delay_value (x : number) :
  (if Number_isFinite x then Math_max (of_Z 0) (Math_round x) else of_Z 0)
  = of_Z match x with
         | Finite q => Z.max 0 (Qfloor (q + (1 # 2)))
         | _ => 0
         end.
Proof.
  destruct x as [|negative|q]; try reflexivity.
  cbn [Number_isFinite Math_round]; apply Math_max_zero_of_Z.
Qed.

(** X11. The delay the form sends has a whole number of zero or more for
    its value, whatever the entry is: 0 for an entry that is not a finite
    number (as the empty entry of the number field is) and for an entry
    below one half, negative ones among them; for an entry of one half or
    more the nearest integer, a tie going up. The unit and the timezone are
    those of the form. *)
Theorem sent_delay_is_whole step :
  Form.delayEnabled step = true ->
  exists n : Z,
    (0 <= n)%Z
    /\ property "delay" (Form.payloadStep step)
       = delayObject (of_Z n)
           (VString (Form.DelayUnit_string (Form.delayUnit step)))
           (VString (Form.delayTimezone step))
    /\ match Form.delayValue step with
       | Finite q =>
           (q < 1 # 2 -> n = 0%Z)
           /\ (1 # 2 <= q ->
               inject_Z n - (1 # 2) <= q /\ q < inject_Z n + (1 # 2))
       | _ => n = 0%Z
       end.
Proof.
  intros He; unfold Form.payloadStep; js_read; rewrite He, sent_delay_value.
  eexists; split; [|split; [reflexivity|]];
    destruct (Form.delayValue step) as [| |q]; try lia; try reflexivity.
  split.
  - intros Hq.
    assert (Hb : Qle_bool (1 # 2) q = false).
    { destruct (Qle_bool (1 # 2) q) eqn:E; [|reflexivity].
      apply Qle_bool_iff in E; apply Qle_not_lt in E; contradiction. }
    assert (H := floor_below_half q Hb); lia.
  - intros Hq.
    assert (Hb : Qle_bool (1 # 2) q = true) by (apply Qle_bool_iff, Hq).
    assert (H := floor_from_half q Hb).
    replace (Z.max 0 (Qfloor (q + (1 # 2)))) with (Qfloor (q + (1 # 2))) by lia.
    assert (Hle := Qfloor_le (q + (1 # 2))).
    assert (Hlt := Qlt_floor (q + (1 # 2))).
    rewrite inject_Z_plus in Hlt.
    split.
    + apply (Qplus_le_l _ _ (1 # 2)).
      setoid_replace (inject_Z (Qfloor (q + (1 # 2))) - (1 # 2) + (1 # 2))
        with (inject_Z (Qfloor (q + (1 # 2)))) by ring.
      exact Hle.
    + apply (Qplus_lt_l _ _ (1 # 2)).
      setoid_replace (inject_Z (Qfloor (q + (1 # 2))) + (1 # 2) + (1 # 2))
        with (inject_Z (Qfloor (q + (1 # 2))) + inject_Z 1) by ring.
      exact Hlt.
Qed.

(** ** What the handler makes of the payload of the form *)

Lemma lookup_agree (d : jsstring) (l l' : list (jsstring * value)) :
  Forall2 (fun a b => fst a = fst b /\ (fst a <> d -> snd a = snd b)) l l' ->
  forall k, k <> d -> lookup k l = lookup k l'.
Proof.
  induction 1 as [|[k1 v1] [k2 v2] l l' [Hk Hv] _ IH]; intros k Hd;
    [reflexivity|].
  simpl in Hk, Hv; subst k2; cbn [lookup].
  destruct (jsstring_eqb k k1) eqn:E; [|apply IH, Hd].
  apply jsstring_eqb_eq in E; subst k1; apply Hv, Hd.
Qed.

Lemma sent_row_kept p v :
  truthy (and_then (property "param" (trackObject p v))
                   (property "value" (trackObject p v)))
  = negb (is_empty p) && negb (is_empty v).
Proof.
  unfold trackObject, and_then; js_read.
  destruct p; destruct v; reflexivity.
Qed.

(** The rows the form sends are trimmed and have a param and a value. *)
Lemma sent_rows_survive (rows : list Form.TrackingRow) :
  Forall
    (fun r => exists p v,
       r = trackObject p v /\ trim p = p /\ trim v = v
       /\ is_empty p = false /\ is_empty v = false)
    (filter
       (fun row => truthy (and_then (property "param" row)
                                    (property "value" row)))
       (map (fun row =>
               VObject [(lit "param", VString (trim (Form.param row)));
                        (lit "value", VString (trim (Form.row_value row)))])
            rows)).
Proof.
  induction rows as [|row rows IH]; [constructor|].
  cbn [map filter].
  change (VObject [(lit "param", VString (trim (Form.param row)));
                   (lit "value", VString (trim (Form.row_value row)))])
    with (trackObject (trim (Form.param row)) (trim (Form.row_value row))).
  rewrite sent_row_kept.
  destruct (is_empty (trim (Form.param row))) eqn:Hp; [exact IH|].
  destruct (is_empty (trim (Form.row_value row))) eqn:Hv; [exact IH|].
  constructor; [|exact IH].
  exists (trim (Form.param row)), (trim (Form.row_value row)).
  rewrite !trim_trim; auto.
Qed.

Section FormPayload.

Context {format : NumberFormat}.

Lemma surviving_rows_kept rows texts :
  Forall
    (fun r => exists p v,
       r = trackObject p v /\ trim p = p /\ trim v = v
       /\ is_empty p = false /\ is_empty v = false)
    rows ->
  Forall2 (fun row t => rowTexts row = Normal t) rows texts ->
  expectedTracking texts = rows.
Proof.
  intros Hrows H; induction H as [|row t rows texts Ht _ IH]; [reflexivity|].
  inversion Hrows as [|r l (p & v & -> & Hp & Hv & Hpe & Hve) Hrest]; subst.
  unfold trackObject in Ht.
  rewrite (rowTexts_strings
             [(lit "param", VString p); (lit "value", VString v)] p v
             eq_refl eq_refl) in Ht.
  injection Ht as <-.
  unfold expectedTracking; cbn [filter]; unfold survives; cbn [fst snd].
  rewrite Hp, Hv, Hpe, Hve; cbn [negb andb map].
  unfold trimmedTrack at 1; cbn [fst snd]; rewrite Hp, Hv.
  f_equal; apply IH, Hrest.
Qed.

Lemma expectedDelay_payloadStep step :
  expectedDelay (Form.payloadStep step) = keptFormDelay step.
Proof.
  unfold expectedDelay, keptDelay, keptFormDelay, Form.payloadStep; js_read.
  destruct (Form.delayEnabled step); [|reflexivity].
  cbn [truthy]; js_read; rewrite sent_delay_value.
  destruct (Form.delayValue step) as [|negative|q]; try reflexivity.
  rewrite is_positive_of_Z.
  destruct (Qle_bool (1 # 2) q) eqn:Hq.
  - assert (H := floor_from_half q Hq).
    destruct (Z.ltb_spec 0 (Z.max 0 (Qfloor (q + (1 # 2))))); [|lia].
    rewrite Math_round_integer, Math_max_zero_of_Z.
    replace (Z.max 0 (Z.max 0 (Qfloor (q + (1 # 2)))))
      with (Qfloor (q + (1 # 2))) by lia.
    unfold delayObject, Math_round; do 3 f_equal.
    f_equal; f_equal.
    apply normalizeDelayUnit_fixed.
    destruct (Form.delayUnit step); simpl; auto.
  - assert (H := floor_below_half q Hq).
    destruct (Z.ltb_spec 0 (Z.max 0 (Qfloor (q + (1 # 2))))); [lia|].
    reflexivity.
Qed.

Lemma sanitizeStep_payloadStep step out :
  sanitizeStep (Form.payloadStep step) = Normal out ->
  (forall k, k <> lit "delay" ->
     property k out = property k (Form.payloadStep step))
  /\ property "delay" out = keptFormDelay step.
Proof.
  intros H; destruct (sanitizeStep_spec _ _ H) as (tracking & -> & Ht).
  split; [|rewrite property_delay_expectedStep; apply expectedDelay_payloadStep].
  assert (Hk : VArray (expectedTracking tracking)
               = property "customTracking" (Form.payloadStep step)).
  { revert Ht; unfold Form.payloadStep; js_read.
    destruct (Form.addTrackingParams step); intros Ht; f_equal;
      (apply surviving_rows_kept; [|exact Ht]);
      [apply sent_rows_survive | constructor]. }
  unfold expectedStep, stepObject; rewrite Hk; clear Hk Ht H.
  intros k Hd; unfold Form.payloadStep at 14; rewrite !property_object.
  apply (lookup_agree (lit "delay")); [|exact Hd].
  unfold Form.payloadStep; js_read; cbn [expectedText truthy].
  rewrite !trim_trim.
  repeat (constructor; [split; [reflexivity | intros _; reflexivity]|]).
  constructor;
    [split; [reflexivity|]; intros _; cbn [snd]; apply normalizeStatus_fixed;
     destruct (Form.status step); simpl; auto|].
  constructor; [split; [reflexivity | intros Hx; contradiction Hx; reflexivity]|].
  repeat constructor.
Qed.

End FormPayload.

Lemma stepReadable_payloadStep step : stepReadable (Form.payloadStep step) = true.
Proof.
  unfold stepReadable.
  assert (Ht : forallb
                 (fun k => text_or_missing (property k (Form.payloadStep step)))
                 textFields = true)
    by (unfold Form.payloadStep; cbn [textFields forallb]; js_read; reflexivity).
  assert (Hd : delayReadable (Form.payloadStep step) = true).
  { unfold delayReadable; destruct (keptDelay _); [|reflexivity].
    unfold Form.payloadStep; js_read.
    destruct (Form.delayEnabled step); js_read; reflexivity. }
  assert (Hr : trackingReadable (Form.payloadStep step) = true).
  { unfold trackingReadable, Form.payloadStep; js_read.
    destruct (Form.addTrackingParams step); [|reflexivity].
    apply forallb_forall; intros r Hin.
    assert (H := sent_rows_survive (Form.trackingRows step)).
    rewrite Forall_forall in H.
    destruct (H r Hin) as (p & v & -> & _); reflexivity. }
  rewrite Ht, Hd, Hr; reflexivity.
Qed.

Lemma readable_payload form : readable (Form.payload form) = true.
Proof.
  unfold readable, topLevelShape, stepsOf, Form.payload; js_read.
  cbn [is_nullish negb Array_isArray is_string andb].
  apply forallb_forall; intros r Hin.
  apply in_map_iff in Hin; destruct Hin as (step & <- & _).
  apply stepReadable_payloadStep.
Qed.

Lemma Forall2_map_left {A B C} (R : B -> C -> Prop) (f : A -> B) l l' :
  Forall2 R (map f l) l' -> Forall2 (fun a c => R (f a) c) l l'.
Proof.
  revert l'; induction l as [|a l IH]; intros l' H; inversion H; subst;
    constructor; auto.
Qed.

Lemma sanitizePayload_form {format : NumberFormat} form :
  exists steps,
    sanitizePayload (Form.payload form)
    = Normal (payloadObject (trim (Form.flowName form))
                (VString (Form.TriggerType_string (Form.triggerType form)))
                (trim (Form.triggerId form)) steps)
    /\ Forall2 (fun step kept => sanitizeStep (Form.payloadStep step) = Normal kept)
         (Form.steps form) steps.
Proof.
  assert (H := sanitizePayload_readable (Form.payload form)).
  rewrite readable_payload in H; destruct H as (sanitized & H).
  rewrite H.
  destruct (sanitizePayload_spec _ _ H)
    as (rawSteps & steps & flowName & id & Hs & Hn & Hi & Hall & ->).
  unfold Form.payload in Hs, Hn, Hi |- *; revert Hs Hn Hi; js_read.
  intros Hs Hn Hi; injection Hs as <-; injection Hn as <-; injection Hi as <-.
  rewrite !trim_trim; exists steps; split; [reflexivity|].
  exact (Forall2_map_left (fun s k => sanitizeStep s = Normal k)
           Form.payloadStep _ _ Hall).
Qed.

(** X12. The handler never throws on the payload of the form, and it keeps
    what the form sent but for the delays: the flow name, the trigger and,
    step by step, every property other than the delay are those of the
    payload. The delay of a step is dropped when it is off or its entry is
    not a finite number of one half or more; otherwise it has the entry
    rounded, the unit of the form, and the trimmed timezone, or "profile"
    for a blank one. *)
Theorem form_payload_kept {format : NumberFormat} form :
  exists sanitized,
    sanitizePayload (Form.payload form) = Normal sanitized
    /\ property "flowName" sanitized = property "flowName" (Form.payload form)
    /\ property "trigger" sanitized = property "trigger" (Form.payload form)
    /\ Forall2
         (fun step kept =>
            (forall k, k <> lit "delay" ->
               property k kept = property k (Form.payloadStep step))
            /\ property "delay" kept = keptFormDelay step)
         (Form.steps form) (stepsOf sanitized).
Proof.
  destruct (sanitizePayload_form form) as (steps & H & Hall).
  eexists; split; [exact H|].
  rewrite stepsOf_payloadObject.
  unfold payloadObject, Form.payload; js_read.
  split; [reflexivity|]; split; [reflexivity|].
  eapply Forall2_impl; [|exact Hall].
  intros step kept Hk; apply sanitizeStep_payloadStep, Hk.
Qed.

(** ** The validation of the form *)

Lemma form_findIndex_from {A} (f : A -> bool) (l : list A) (i : Z) :
  (Form.findIndex_from f l i = (-1)%Z \/ (i <= Form.findIndex_from f l i)%Z)
  /\ ((0 <= i)%Z ->
      (existsb f l = false <-> Form.findIndex_from f l i = (-1)%Z))
  /\ forall n x,
       nth_error l n = Some x -> f x = true ->
       (forall m y, (m < n)%nat -> nth_error l m = Some y -> f y = false) ->
       Form.findIndex_from f l i = (i + Z.of_nat n)%Z.
Proof.
  revert i; induction l as [|a l IH]; intros i; cbn [Form.findIndex_from existsb].
  - split; [left; reflexivity|]; split; [intros _; split; reflexivity|].
    intros [|n] x Hx; discriminate.
  - destruct (IH (i + 1)%Z) as (Hge & Hnone & Hfirst).
    destruct (f a) eqn:Ha.
    + split; [right; lia|]; split.
      * intros Hi; split; [discriminate | lia].
      * intros [|n] x Hx Hfx Hbefore; [lia|].
        rewrite (Hbefore 0%nat a ltac:(lia) eq_refl) in Ha; discriminate.
    + split; [destruct Hge; [left; assumption | right; lia]|]; split.
      * intros Hi; apply Hnone; lia.
      * intros [|n] x Hx Hfx Hbefore;
          [injection Hx as <-; congruence|].
        rewrite (Hfirst n x Hx Hfx); [lia|].
        intros m y Hm Hy; apply (Hbefore (S m) y); [lia | exact Hy].
Qed.

Lemma validateForm_None form :
  Form.validateForm form = None
  <-> is_empty (trim (Form.flowName form)) = false
      /\ is_empty (trim (Form.triggerId form)) = false
      /\ existsb incomplete (Form.steps form) = false.
Proof.
  unfold Form.validateForm.
  destruct (is_empty (trim (Form.flowName form)));
    [split; [discriminate | intros (H & _); discriminate]|].
  destruct (is_empty (trim (Form.triggerId form)));
    [split; [discriminate | intros (_ & H & _); discriminate]|].
  cbn zeta.
  destruct (form_findIndex_from incomplete (Form.steps form) 0)
    as (_ & Hnone & _).
  specialize (Hnone ltac:(lia)).
  change (fun step => is_empty (trim (Form.subjectLine step))
                      || is_empty (trim (Form.fromEmail step))
                      || is_empty (trim (Form.fromName step)))
    with incomplete.
  destruct (Z.eqb_spec (Form.findIndex_from incomplete (Form.steps form) 0) (-1))
    as [E | E]; cbn [negb].
  - split; [intros _; repeat split; apply Hnone, E | reflexivity].
  - split; [discriminate|].
    intros (_ & _ & H); apply Hnone in H; contradiction.
Qed.

(** X13. The form reports the first incomplete step: when the flow name and
    the trigger id are not blank and some step has a blank subject line,
    from email or from name, [handleSubmit] sends nothing and shows the
    message that names the first such step, counted from 1. *)
Theorem form_names_first_incomplete_step form i step :
  is_empty (trim (Form.flowName form)) = false ->
  is_empty (trim (Form.triggerId form)) = false ->
  nth_error (Form.steps form) i = Some step ->
  incomplete step = true ->
  (forall j earlier,
     (j < i)%nat -> nth_error (Form.steps form) j = Some earlier ->
     incomplete earlier = false) ->
  Form.handleSubmit form
  = inl (lit "Step " ++ decimal (N.of_nat (i + 1))
         ++ lit " is missing required fields (subject, from name, or from email).").
Proof.
  intros Hn Ht Hi Hs Hbefore.
  unfold Form.handleSubmit, Form.validateForm; rewrite Hn, Ht; cbn zeta.
  change (fun step => is_empty (trim (Form.subjectLine step))
                      || is_empty (trim (Form.fromEmail step))
                      || is_empty (trim (Form.fromName step)))
    with incomplete.
  destruct (form_findIndex_from incomplete (Form.steps form) 0)
    as (_ & _ & Hfirst).
  rewrite (Hfirst i step Hi Hs Hbefore).
  destruct (Z.eqb_spec (0 + Z.of_nat i) (-1)); [lia|].
  cbn [negb].
  replace (Z.to_N (0 + Z.of_nat i + 1)) with (N.of_nat (i + 1)) by lia.
  reflexivity.
Qed.

(** ** The form and the handler together *)

Lemma isInvalid_kept {format : NumberFormat} step kept :
  sanitizeStep (Form.payloadStep step) = Normal kept ->
  isInvalid kept = incomplete step.
Proof.
  intros H; destruct (sanitizeStep_spec _ _ H) as (tracking & -> & _).
  rewrite isInvalid_expectedStep.
  unfold lacksSender, incomplete, Form.payloadStep; js_read.
  cbn [expectedText]; rewrite !trim_trim; reflexivity.
Qed.

Lemma firstInvalid_kept {format : NumberFormat} steps kept :
  Forall2 (fun step k => sanitizeStep (Form.payloadStep step) = Normal k)
    steps kept ->
  (firstInvalid kept = None <-> existsb incomplete steps = false).
Proof.
  induction 1 as [|step k steps kept Hk _ IH]; [split; reflexivity|].
  cbn [firstInvalid existsb]; rewrite (isInvalid_kept _ _ Hk).
  destruct (incomplete step); [split; discriminate|].
  cbn [orb]; rewrite <- IH.
  destruct (firstInvalid kept); split; try discriminate; reflexivity.
Qed.

Lemma validatePayload_form {format : NumberFormat} form sanitized :
  sanitizePayload (Form.payload form) = Normal sanitized ->
  (validatePayload sanitized = Normal VNull
   <-> Form.validateForm form = None /\ Form.steps form <> []).
Proof.
  intros H; rewrite (validatePayload_sanitized _ _ H).
  destruct (sanitizePayload_form form) as (steps & H' & Hall).
  rewrite H' in H; injection H as <-.
  rewrite validateForm_None, <- (firstInvalid_kept _ _ Hall).
  unfold expectedValidation, headerViolation; rewrite stepsOf_payloadObject.
  unfold payloadObject; js_read; cbn [truthy].
  destruct (is_empty (trim (Form.flowName form)));
    [split; [discriminate | intros ((E & _) & _); discriminate]|].
  cbn [negb].
  replace (includes [lit "list"; lit "segment"]
             (VString (Form.TriggerType_string (Form.triggerType form))))
    with true by (destruct (Form.triggerType form); reflexivity).
  cbn [negb].
  destruct (is_empty (trim (Form.triggerId form)));
    [split; [discriminate | intros ((_ & E & _) & _); discriminate]|].
  cbn [negb].
  destruct Hall as [|step k l l' Hk Hrest].
  - split; [discriminate | intros (_ & E); contradiction E; reflexivity].
  - destruct (firstInvalid (k :: l')).
    + split; [discriminate | intros ((_ & _ & E) & _); discriminate].
    + split; [|reflexivity].
      intros _; repeat split; discriminate.
Qed.

(** X14. The handler's validation accepts the payload of a form exactly
    when the form's own validation accepts the form and the form has a
    step: what [handleSubmit] sends is never answered with a validation
    message, unless the form has no step at all, which the form does not
    check. *)
Theorem form_and_handler_agree {format : NumberFormat} form sanitized :
  sanitizePayload (Form.payload form) = Normal sanitized ->
  (validatePayload sanitized = Normal VNull
   <-> Form.validateForm form = None /\ Form.steps form <> []).
Proof. exact (validatePayload_form form sanitized). Qed.

(** An entry of two and a half is sent as 3, and an entry that is not a
    number as 0. *)
Lemma sent_delay_is_whole_witness :
  property "delay" (Form.payloadStep (delayedStep (Finite (5 # 2))))
  = delayObject (of_Z 3) (VString "days") (VString "profile")
  /\ property "delay" (Form.payloadStep (delayedStep NaN))
     = delayObject (of_Z 0) (VString "days") (VString "profile").
Proof.
  split.
  - destruct (sent_delay_is_whole (delayedStep (Finite (5 # 2))) eq_refl)
      as (n & Hn & -> & _ & Hnear).
    destruct (Hnear ltac:(discriminate)) as (Hlo & Hhi).
    assert (E : n = 3%Z).
    { unfold Qle, Qlt, Qminus, Qplus, Qopp, inject_Z in Hlo, Hhi.
      cbn [Qnum Qden] in Hlo, Hhi; lia. }
    rewrite E; reflexivity.
  - destruct (sent_delay_is_whole (delayedStep NaN) eq_refl)
      as (n & _ & -> & ->).
    reflexivity.
Defined.

(** A form of two steps whose second has a from name of spaces only. *)
Lemma form_names_first_incomplete_step_witness :
  let blank := Editor.with_field Editor.fromName_key (lit "   ") (formStep []) in
  Form.handleSubmit (welcomeForm [formStep []; blank])
  = inl (lit "Step 2 is missing required fields (subject, from name, or from email).").
Proof.
  intros blank.
  refine (form_names_first_incomplete_step
            (welcomeForm [formStep []; blank]) 1 blank
            eq_refl eq_refl eq_refl eq_refl _).
  intros [|j] earlier Hj He; [|lia].
  injection He as <-; reflexivity.
Defined.

(** The one-step welcome form is accepted by both. *)
Lemma form_and_handler_agree_witness :
  let form := welcomeForm [formStep []] in
  exists sanitized,
    sanitizePayload (format := integer_format) (Form.payload form)
    = Normal sanitized
    /\ validatePayload sanitized = Normal VNull.
Proof.
  intros form; eexists; split; [vm_compute; reflexivity|].
  match goal with
  | |- validatePayload ?q = _ =>
      apply (form_and_handler_agree (format := integer_format) form q eq_refl)
  end.
  split; [reflexivity | discriminate].
Defined.

(** * Further properties of the page *)

(** ** Adding and removing steps *)

Lemma jsstring_eqb_neq (s t : jsstring) : jsstring_eqb s t = false <-> s <> t.
Proof.
  rewrite <- jsstring_eqb_eq; destruct (jsstring_eqb s t); split; congruence.
Qed.

Lemma filter_fresh {A} (key : A -> jsstring) (fresh : jsstring) (l : list A) :
  ~ In fresh (map key l) ->
  filter (fun a => negb (jsstring_eqb (key a) fresh)) l = l.
Proof.
  induction l as [|a l IH]; [reflexivity|]; cbn [map In filter]; intros H.
  destruct (jsstring_eqb (key a) fresh) eqn:E;
    [apply jsstring_eqb_eq in E; tauto|].
  cbn [negb]; f_equal; apply IH; tauto.
Qed.

(** X15. With steps of distinct ids, [handleRemoveStep] never empties the
    list: a single step stays whatever id is given, and of two or more
    steps exactly the steps with the given id go. *)
Theorem remove_keeps_a_step id prev :
  NoDup (map Form.id prev) -> prev <> [] ->
  Editor.handleRemoveStep id prev <> []
  /\ forall step,
       In step (Editor.handleRemoveStep id prev)
       <-> In step prev /\ (Form.id step <> id \/ (List.length prev <= 1)%nat).
Proof.
  intros Hd Hne; unfold Editor.handleRemoveStep.
  destruct (Nat.ltb_spec 1 (List.length prev)) as [Hl | Hl].
  - split.
    + destruct prev as [|a [|b rest]]; cbn [List.length] in Hl; try lia.
      cbn [map] in Hd; inversion Hd as [|x l Ha _]; subst.
      cbn [filter].
      destruct (jsstring_eqb (Form.id a) id) eqn:Ea; [|discriminate].
      destruct (jsstring_eqb (Form.id b) id) eqn:Eb; [|discriminate].
      apply jsstring_eqb_eq in Ea, Eb.
      contradiction Ha; left; congruence.
    + intros step; rewrite filter_In, negb_true_iff, jsstring_eqb_neq.
      split; [tauto | intros (H & [H' | H']); [tauto | lia]].
  - split; [exact Hne | intros step; tauto].
Qed.

(** Of the two steps of a form the second is removed. *)
Lemma remove_keeps_a_step_witness :
  let first := formStep [] in
  let second := Editor.createEmptyStep "2" in
  Editor.handleRemoveStep (Form.id second) [first; second] <> []
  /\ In first (Editor.handleRemoveStep (Form.id second) [first; second]).
Proof.
  intros first second.
  assert (Hd : NoDup (map Form.id [first; second])).
  { constructor; [simpl; intros [H | []]; discriminate H|].
    constructor; [intros []|constructor]. }
  destruct (remove_keeps_a_step (Form.id second) [first; second] Hd
              ltac:(discriminate)) as (Hne & Hin).
  split; [exact Hne|].
  apply Hin; split; [left; reflexivity | left; discriminate].
Defined.

(** X16. Removing the step that was just added gives back the steps as
    they were, when the new id is not the id of a step that was there. *)
Theorem add_then_remove_step random prev :
  prev <> [] ->
  ~ In (Editor.createId "step" random) (map Form.id prev) ->
  Editor.handleRemoveStep (Editor.createId "step" random)
    (Editor.handleAddStep random prev)
  = prev.
Proof.
  intros Hne Hfresh; unfold Editor.handleRemoveStep, Editor.handleAddStep.
  destruct (Nat.ltb_spec 1 (List.length (prev ++ [Editor.createEmptyStep random])))
    as [_ | Hl];
    [|rewrite length_app in Hl; destruct prev; [congruence | simpl in Hl; lia]].
  rewrite filter_app, (filter_fresh Form.id _ prev Hfresh).
  cbn [filter Editor.createEmptyStep Form.id].
  rewrite jsstring_eqb_refl; apply app_nil_r.
Qed.

Lemma add_then_remove_step_witness :
  Editor.handleRemoveStep (Editor.createId "step" "2")
    (Editor.handleAddStep "2" [formStep []])
  = [formStep []].
Proof.
  apply add_then_remove_step; [discriminate|].
  simpl; intros [H | []]; discriminate H.
Defined.

(** X17. A step that was just added blocks the submission: with the step
    of [handleAddStep] among its steps, whatever else the form holds,
    [handleSubmit] sends nothing and shows a validation message. *)
Theorem new_step_blocks_submission flowName triggerType triggerId random prev :
  exists message,
    Form.handleSubmit
      {| Form.flowName := flowName;
         Form.triggerType := triggerType;
         Form.triggerId := triggerId;
         Form.steps := Editor.handleAddStep random prev |}
    = inl message.
Proof.
  unfold Form.handleSubmit.
  destruct (Form.validateForm _) as [message|] eqn:E; [eauto|].
  apply validateForm_None in E; destruct E as (_ & _ & E).
  cbn [Form.steps] in E; unfold Editor.handleAddStep in E.
  rewrite existsb_app in E; apply orb_false_iff in E; destruct E as [_ E].
  discriminate E.
Qed.

(** ** Editing one step *)

Lemma with_field_keeps_id {T} (field : Editor.Field T) (value : T) step :
  match field with
  | Editor.id_key => True
  | _ => Form.id (Editor.with_field field value step) = Form.id step
  end.
Proof. destruct field; try reflexivity; exact I. Qed.

Lemma local_to_map id (g : Form.EmailStepForm -> Form.EmailStepForm) :
  (forall step, Form.id (g step) = Form.id step) ->
  (forall step, Form.id step <> id -> g step = step) ->
  local_to id (map g).
Proof.
  intros Hid Hother prev; split; [apply length_map|].
  intros i step Hi; exists (g step); split; [apply map_nth_error, Hi|].
  split; [apply Hid | apply Hother].
Qed.

Lemma local_to_compose id f g :
  local_to id f -> local_to id g -> local_to id (fun prev => g (f prev)).
Proof.
  intros Hf Hg prev.
  destruct (Hf prev) as (Lf & Nf); destruct (Hg (f prev)) as (Lg & Ng).
  split; [congruence|].
  intros i step Hi.
  destruct (Nf i step Hi) as (s1 & H1 & I1 & O1).
  destruct (Ng i s1 H1) as (s2 & H2 & I2 & O2).
  exists s2; split; [exact H2|]; split; [congruence|].
  intros Hne; rewrite O2 by congruence; apply O1, Hne.
Qed.

Lemma local_to_same id : local_to id (fun prev => prev).
Proof. intros prev; split; [reflexivity|]; intros i step Hi; eauto. Qed.

Lemma updateStep_local {T} id (field : Editor.Field T) value :
  changes_id (SetField id field value) = false ->
  local_to id (Editor.updateStep id field value).
Proof.
  intros Hc; apply local_to_map; intros step.
  - destruct (jsstring_eqb (Form.id step) id); [|reflexivity].
    assert (H := with_field_keeps_id field value step).
    destruct field; try exact H; discriminate Hc.
  - intros Hne; apply jsstring_eqb_neq in Hne; rewrite Hne; reflexivity.
Qed.

Lemma addTrackingRow_local stepId random :
  local_to stepId (Editor.addTrackingRow stepId random).
Proof.
  apply local_to_map; intros step.
  - destruct (jsstring_eqb (Form.id step) stepId); reflexivity.
  - intros Hne; apply jsstring_eqb_neq in Hne; rewrite Hne; reflexivity.
Qed.

(** X18. Every edit of a step that the page makes is local to the steps
    with the id it is addressed to: setting a field other than the id,
    setting a field of a tracking row, adding and removing a tracking row,
    and the tracking check box all keep the number of the steps and the id
    of each step, and leave every step with another id as it is and where
    it is. *)
Theorem edits_are_local e :
  changes_id e = false -> local_to (target e) (update e).
Proof.
  destruct e as [T id field value|stepId rowId field value|stepId random
                 |stepId rowId|step checked random];
    intros Hc; cbn [target update].
  - apply updateStep_local, Hc.
  - apply local_to_map; intros step.
    + destruct (jsstring_eqb (Form.id step) stepId); reflexivity.
    + intros Hne; apply jsstring_eqb_neq in Hne; rewrite Hne; reflexivity.
  - apply addTrackingRow_local.
  - apply local_to_map; intros step.
    + destruct (jsstring_eqb (Form.id step) stepId); reflexivity.
    + intros Hne; apply jsstring_eqb_neq in Hne; rewrite Hne; reflexivity.
  - unfold Editor.onTrackingChange.
    apply (local_to_compose _
             (fun prev =>
                if checked
                   && (List.length (Form.trackingRows step) =? 0)%nat
                then Editor.addTrackingRow (Form.id step) random
                       (Editor.updateStep (Form.id step)
                          Editor.addTrackingParams_key checked prev)
                else Editor.updateStep (Form.id step)
                       Editor.addTrackingParams_key checked prev)
             (fun added =>
                if negb checked
                then Editor.updateStep (Form.id step) Editor.trackingRows_key
                       [] added
                else added)).
    + destruct (checked && _).
      * apply (local_to_compose _ (Editor.updateStep _ _ _)
                 (Editor.addTrackingRow _ _));
          [apply updateStep_local; reflexivity | apply addTrackingRow_local].
      * apply updateStep_local; reflexivity.
    + destruct (negb checked);
        [apply updateStep_local; reflexivity | apply local_to_same].
Qed.

(** Setting the subject of the step "step-2" leaves the step "step-1". *)
Lemma edits_are_local_witness :
  local_to "step-2"
    (Editor.updateStep "step-2" Editor.subjectLine_key (lit "Again")).
Proof.
  exact (edits_are_local
           (SetField "step-2" Editor.subjectLine_key (lit "Again")) eq_refl).
Defined.

(** ** Tracking rows *)

Lemma with_trackingRows_same step :
  Editor.with_field Editor.trackingRows_key (Form.trackingRows step) step = step.
Proof. destruct step; reflexivity. Qed.

(** X19. Removing the tracking row that was just added gives back the
    steps as they were, when the new id is not the id of a row that the
    step had. *)
Theorem add_then_remove_row stepId random prev :
  (forall step,
     In step prev -> Form.id step = stepId ->
     ~ In (Editor.createId "tracking" random)
          (map Form.row_id (Form.trackingRows step))) ->
  Editor.removeTrackingRow stepId (Editor.createId "tracking" random)
    (Editor.addTrackingRow stepId random prev)
  = prev.
Proof.
  intros Hfresh; unfold Editor.removeTrackingRow, Editor.addTrackingRow.
  rewrite map_map; rewrite <- (map_id prev) at 2.
  apply map_ext_in; intros step Hin.
  destruct (jsstring_eqb (Form.id step) stepId) eqn:E;
    [|rewrite E; reflexivity].
  assert (Hf := Hfresh step Hin (proj1 (jsstring_eqb_eq _ _) E)).
  replace (Form.id (Editor.with_field Editor.trackingRows_key _ step))
    with (Form.id step) by reflexivity.
  rewrite E.
  replace (Form.trackingRows (Editor.with_field Editor.trackingRows_key
             (Form.trackingRows step ++ [Editor.createTrackingRow random]) step))
    with (Form.trackingRows step ++ [Editor.createTrackingRow random])
    by reflexivity.
  rewrite filter_app, (filter_fresh Form.row_id _ _ Hf).
  cbn [filter Editor.createTrackingRow Form.row_id].
  rewrite jsstring_eqb_refl; cbn [negb]; rewrite app_nil_r.
  destruct step; reflexivity.
Qed.

Lemma add_then_remove_row_witness :
  Editor.removeTrackingRow "step-1" (Editor.createId "tracking" "7")
    (Editor.addTrackingRow "step-1" "7" [formStep []])
  = [formStep []].
Proof.
  apply add_then_remove_row.
  intros step [<- | []] _ [].
Defined.

(** X20. The tracking check box of a step, at the position of the step:
    unticked, it switches tracking off and empties the rows of the step,
    which are not there when it is ticked again; ticked, it switches
    tracking on, keeps the rows of a step that has some and gives a step
    that has none one blank row. *)
Theorem tracking_check_box step checked random prev i :
  nth_error prev i = Some step ->
  nth_error (Editor.onTrackingChange step checked random prev) i
  = Some
      (Editor.with_field Editor.trackingRows_key
         (if checked then
            match Form.trackingRows step with
            | [] => [Editor.createTrackingRow random]
            | rows => rows
            end
          else [])
         (Editor.with_field Editor.addTrackingParams_key checked step)).
Proof.
  intros Hi; unfold Editor.onTrackingChange.
  assert (H1 : nth_error
                 (Editor.updateStep (Form.id step) Editor.addTrackingParams_key
                    checked prev) i
               = Some (Editor.with_field Editor.addTrackingParams_key checked step)).
  { unfold Editor.updateStep; rewrite (map_nth_error _ _ _ Hi).
    rewrite jsstring_eqb_refl; reflexivity. }
  destruct checked; cbn [negb andb].
  - destruct (Form.trackingRows step) as [|row rows] eqn:Hr; cbn [List.length Nat.eqb].
    + unfold Editor.addTrackingRow; rewrite (map_nth_error _ _ _ H1).
      replace (Form.id (Editor.with_field Editor.addTrackingParams_key true step))
        with (Form.id step) by reflexivity.
      rewrite jsstring_eqb_refl; destruct step; simpl in Hr; subst; reflexivity.
    + rewrite H1; destruct step; simpl in Hr; subst; reflexivity.
  - unfold Editor.updateStep at 1; rewrite (map_nth_error _ _ _ H1).
    replace (Form.id (Editor.with_field Editor.addTrackingParams_key false step))
      with (Form.id step) by reflexivity.
    rewrite jsstring_eqb_refl; reflexivity.
Qed.

Lemma tracking_check_box_witness :
  nth_error
    (Editor.onTrackingChange (formStep []) true "7" [formStep []]) 0
  = Some
      (Editor.with_field Editor.trackingRows_key
         [Editor.createTrackingRow "7"]
         (Editor.with_field Editor.addTrackingParams_key true (formStep []))).
Proof.
  exact (tracking_check_box (formStep []) true "7" [formStep []] 0 eq_refl).
Defined.

(** ** The summary of the answer *)

Lemma optional_get_property x k :
  jsstring_eqb k "length" = false ->
  Editor.optional_get x k = Normal (property k x).
Proof.
  intros Hk; destruct x; try reflexivity;
    unfold Editor.optional_get; apply get_non_nullish; auto.
Qed.

Lemma truthy_property_non_nullish k x :
  truthy (property k x) = true -> is_nullish x = false.
Proof. destruct x; try reflexivity; discriminate. Qed.

(** X21. [flowSummary] never throws, whatever the answer of [/api/flows]
    was parsed to: it is the id at [data.data.id] with the name at
    [data.data.attributes.name], or the flow name of the form for a
    missing name, when that id is there and truthy, and nothing
    otherwise. *)
Theorem flowSummary_never_throws apiResponse flowName :
  let inner := property "data" (property "data" apiResponse) in
  Editor.flowSummary apiResponse flowName
  = Normal
      (if truthy (property "id" inner) then
         Some (property "id" inner,
               nullish_or (property "name" (property "attributes" inner))
                 (VString flowName))
       else None).
Proof.
  intros inner; unfold Editor.flowSummary.
  rewrite (optional_get_property apiResponse "data" eq_refl); cbn [bind].
  rewrite (optional_get_property _ "data" eq_refl); cbn [bind].
  rewrite (optional_get_property _ "id" eq_refl); cbn [bind].
  fold inner.
  destruct (truthy (property "id" inner)) eqn:Ht; [|reflexivity].
  cbn [negb].
  assert (Hi : is_nullish inner = false)
    by (eapply truthy_property_non_nullish; exact Ht).
  assert (Ho : is_nullish (property "data" apiResponse) = false)
    by (destruct (property "data" apiResponse); try reflexivity;
        discriminate Hi).
  assert (Ha : is_nullish apiResponse = false)
    by (destruct apiResponse; try reflexivity; discriminate Ho).
  rewrite (get_non_nullish apiResponse "data" Ha eq_refl); cbn [bind].
  rewrite (get_non_nullish _ "data" Ho eq_refl); cbn [bind].
  fold inner.
  rewrite (get_non_nullish inner "id" Hi eq_refl); cbn [bind].
  rewrite (get_non_nullish inner "attributes" Hi eq_refl); cbn [bind].
  rewrite (optional_get_property _ "name" eq_refl); cbn [bind].
  reflexivity.
Qed.

(** ** From the form to the provider *)

(** X22. What the form submits reaches the provider: when [handleSubmit]
    sends the payload of a form that has a step, the server has a key, the
    body parses to that payload, and [buildFlowDefinition] returns a
    definition for its sanitized form, the handler calls the provider, once,
    with a flow of that definition whose name is the trimmed flow name of
    the form. *)
Theorem submitted_form_reaches_provider {format : NumberFormat}
  (buildFlowDefinition : value -> attempt value) w apiKey form payload definition :
  Form.handleSubmit form = inr payload ->
  Form.steps form <> [] ->
  KLAVIYO_API_KEY w = Some apiKey -> apiKey <> [] ->
  request_json w = Returned payload ->
  (forall sanitized,
     sanitizePayload payload = Normal sanitized ->
     buildFlowDefinition sanitized = Returned definition) ->
  fst (POST buildFlowDefinition w)
  = [RequestJson;
     Fetch KLAVIYO_API_URL
       (klaviyoRequest apiKey
          (klaviyoPayloadOf (VString (trim (Form.flowName form))) definition))].
Proof.
  unfold Form.handleSubmit.
  destruct (Form.validateForm form) eqn:Hv; [discriminate|].
  intros E Hne Hk Hn Hb Hd; injection E as <-.
  destruct (sanitizePayload_form form) as (steps & Hs & _).
  assert (Hok := proj2 (validatePayload_form form _ Hs) (conj Hv Hne)).
  rewrite (POST_calls _ w apiKey _ _ _ _ _ definition Hk Hn Hb Hs Hok
             (Hd _ Hs)).
  cbn zeta; rewrite callKlaviyo_request; reflexivity.
Qed.

(** The one-step welcome form, sent to a server with the key "pk_test". *)
Lemma submitted_form_reaches_provider_witness :
  let form := welcomeForm [formStep []] in
  exists definition,
    fst (POST (format := integer_format) stepsAsDefinition
           (worldOf (Form.payload form) (Threw (ErrorObject "unreachable"))))
    = [RequestJson;
       Fetch KLAVIYO_API_URL
         (klaviyoRequest "pk_test"
            (klaviyoPayloadOf (VString "Welcome") definition))].
Proof.
  intros form; eexists.
  refine (submitted_form_reaches_provider (format := integer_format)
            stepsAsDefinition (worldOf (Form.payload form) _) "pk_test" form
            (Form.payload form) _ eq_refl _ eq_refl _ eq_refl _).
  - discriminate.
  - discriminate.
  - intros sanitized Hs; unfold stepsAsDefinition.
    assert (E : sanitizePayload (format := integer_format) (Form.payload form)
                = Normal sanitized) by exact Hs.
    vm_compute in E; injection E as <-; reflexivity.
Defined.
